(** * Cascade takeover engine: a shallow embedding and its verified properties

    The development follows the repository's JavaScript:
    - [Dom]        the part of the browser document the code queries and mutates;
    - [Locator]    the read-side queries of cascade-controller.js
                   ([getPanelState], [listPanels]);
    - [Session]    the remote session and the timed operations
                   ([send], [getResponse], [spawnCascade]);
    - [CustomUI]   custom-ui.js ([createUI], [mount], [destroyOriginalUI], ...);
    - [Extractor]  handler-extractor.js ([extract]);
    - [Controller] [mountCustomUI] and [restoreUI] of cascade-controller.js. *)

From Stdlib Require Import String Ascii List ZArith Lia Bool Arith.
From Stdlib Require Import Decimal DecimalString.
Import ListNotations.
Local Open Scope string_scope.

Set Implicit Arguments.

(* ===================================================================== *)
(** ** JavaScript strings and arrays *)
(* ===================================================================== *)

Module Js.

(** [s.includes(needle)] *)
Fixpoint includes (needle hay : string) : bool :=
  String.prefix needle hay ||
  match hay with
  | EmptyString => false
  | String _ rest => includes needle rest
  end.

(** [s.slice(0, n)] *)
Definition sliceTo (n : nat) (s : string) : string := String.substring 0 n s.

(** ASCII whitespace, the separators of a class attribute. *)
Definition isSpace (c : ascii) : bool :=
  match nat_of_ascii c with
  | 9 | 10 | 12 | 13 | 32 => true
  | _ => false
  end.

(** The tokens of a class attribute, as [classList] exposes them. *)
Fixpoint tokensFrom (cur : string) (s : string) : list string :=
  match s with
  | EmptyString => if String.eqb cur "" then [] else [cur]
  | String c rest =>
      if isSpace c
      then (if String.eqb cur "" then tokensFrom "" rest
            else cur :: tokensFrom "" rest)
      else tokensFrom (cur ++ String c "") rest
  end.

Definition tokens (s : string) : list string := tokensFrom "" s.

(** Template-literal rendering of an integer, [`${n}`]. *)
Definition showZ (z : Z) : string := NilZero.string_of_int (Z.to_int z).
Definition showNat (n : nat) : string := showZ (Z.of_nat n).

(** [arr[idx]] for a numeric index: [undefined] outside [0 .. length-1]. *)
Definition at_ {A} (l : list A) (idx : Z) : option A :=
  if (idx <? 0)%Z then None else nth_error l (Z.to_nat idx).

(** [arr.map((x, i) => f x i)] *)
Fixpoint mapiFrom {A B} (f : A -> nat -> B) (i : nat) (l : list A) : list B :=
  match l with
  | [] => []
  | x :: r => f x i :: mapiFrom f (S i) r
  end.

Definition mapi {A B} (f : A -> nat -> B) (l : list A) : list B := mapiFrom f 0 l.

(** [for (const char of message)]: the characters of a string, one at a time. *)
Fixpoint chars (s : string) : list string :=
  match s with
  | EmptyString => []
  | String c rest => String c "" :: chars rest
  end.

End Js.

(* ===================================================================== *)
(** ** The document *)
(* ===================================================================== *)

Module Dom.

(** The closures custom-ui.js attaches to the elements it builds.  A
    closure owned by the host application is opaque: [HostHandler]. *)
Inductive Handler : Type :=
| HostHandler (name : string)
| SpawnPanelClick            (* dispatches 'cascade-spawn-panel' *)
| CloseClick                 (* removes the root, then restoreOriginalUI() *)
| AgentToggleClick (agent : string) (* dispatches 'cascade-agent-toggle' *)
| SlotEnter
| SlotLeave (status : string)
| ExpandClick                (* toggles the panel height 400px/600px *)
| SendClick (panelIndex : nat) (* dispatches 'cascade-send' *)
| InputFocus
| InputBlur
| ButtonEnter
| ButtonLeave.

(** What the code reads from, or writes to, one element. *)
Record Attrs : Type := mkAttrs {
  tag : string;
  ident : string;                          (* el.id *)
  className : string;                      (* el.className *)
  attributes : list (string * string);     (* role, contenteditable, data-*, ... *)
  style : list (string * string);          (* the inline style declarations *)
  rectWidth : Z;                           (* rendered box, as layout reports it *)
  rectHeight : Z;
  inlineHandlers : list (string * Handler);(* el.onclick and the like *)
  listeners : list (string * Handler)      (* addEventListener *)
}.

(** A node is a text node or an element with its child nodes. *)
Unset Elimination Schemes.
Inductive Node : Type :=
| Text (data : string)
| Elem (a : Attrs) (children : list Node).
Set Elimination Schemes.

Section NodeInduction.
Variable P : Node -> Prop.
Hypothesis HText : forall s, P (Text s).
Hypothesis HElem : forall a cs, Forall P cs -> P (Elem a cs).

Fixpoint Node_ind (n : Node) : P n :=
  match n with
  | Text s => HText s
  | Elem a cs =>
      HElem a ((fix all (l : list Node) : Forall P l :=
                  match l with
                  | [] => Forall_nil P
                  | c :: r => Forall_cons c (Node_ind c) (all r)
                  end) cs)
  end.
End NodeInduction.

(** The child nodes of the document node (in a browser: the [html] element). *)
Definition Document := list Node.

(** *** Inline style: [el.style.display] *)

Fixpoint styleGet (prop : string) (st : list (string * string)) : string :=
  match st with
  | [] => ""
  | (p, v) :: r => if String.eqb p prop then v else styleGet prop r
  end.

Definition styleRemove (prop : string) (st : list (string * string)) :=
  filter (fun pv => negb (String.eqb (fst pv) prop)) st.

(** [el.style[prop] = v]; assigning the empty string removes the declaration. *)
Definition styleSet (prop v : string) (st : list (string * string)) :=
  if String.eqb v "" then styleRemove prop st
  else (styleRemove prop st ++ [(prop, v)])%list.

Definition display (a : Attrs) : string := styleGet "display" (style a).

Definition setDisplay (v : string) (a : Attrs) : Attrs :=
  mkAttrs (tag a) (ident a) (className a) (attributes a)
          (styleSet "display" v (style a))
          (rectWidth a) (rectHeight a) (inlineHandlers a) (listeners a).

Fixpoint attrGet (name : string) (l : list (string * string)) : option string :=
  match l with
  | [] => None
  | (n, v) :: r => if String.eqb n name then Some v else attrGet name r
  end.

(** *** Selectors *)

Inductive Simple : Type :=
| SelTag (t : string)
| SelId (i : string)
| SelClass (c : string)
| SelAttrEq (name value : string)      (* [name="value"] *)
| SelClassSub (sub : string)           (* [class*="sub"] *)
| SelAnd (s1 s2 : Simple)              (* compound: tag.class *)
| SelNot (s : Simple).                 (* :not(...) *)

(** A selector list: alternatives separated by commas. *)
Definition Selector := list Simple.

Fixpoint matchesSimple (s : Simple) (a : Attrs) : bool :=
  match s with
  | SelTag t => String.eqb t (tag a)
  | SelId i => String.eqb i (ident a)
  | SelClass c => existsb (String.eqb c) (Js.tokens (className a))
  | SelAttrEq n v =>
      match attrGet n (attributes a) with
      | Some v' => String.eqb v v'
      | None => false
      end
  | SelClassSub sub => Js.includes sub (className a)
  | SelAnd s1 s2 => matchesSimple s1 a && matchesSimple s2 a
  | SelNot s1 => negb (matchesSimple s1 a)
  end.

Definition matches (sel : Selector) (a : Attrs) : bool :=
  existsb (fun s => matchesSimple s a) sel.

Definition nodeMatches (sel : Selector) (n : Node) : bool :=
  match n with
  | Text _ => false
  | Elem a _ => matches sel a
  end.

(** *** Traversal in document order *)

Fixpoint elements (n : Node) : list Node :=
  match n with
  | Text _ => []
  | Elem _ cs => n :: flat_map elements cs
  end.

Definition forestElements (l : list Node) : list Node := flat_map elements l.

Definition childNodes (n : Node) : list Node :=
  match n with
  | Text _ => []
  | Elem _ cs => cs
  end.

Definition attrsOf (n : Node) : option Attrs :=
  match n with
  | Text _ => None
  | Elem a _ => Some a
  end.

(** [el.querySelectorAll(sel)]: the matching descendants of [el]. *)
Definition querySelectorAll (sel : Selector) (n : Node) : list Node :=
  filter (nodeMatches sel) (forestElements (childNodes n)).

(** [el.querySelector(sel)] *)
Definition querySelector (sel : Selector) (n : Node) : option Node :=
  hd_error (querySelectorAll sel n).

(** [document.querySelectorAll(sel)] *)
Definition docQuerySelectorAll (sel : Selector) (d : Document) : list Node :=
  filter (nodeMatches sel) (forestElements d).

Definition docQuerySelector (sel : Selector) (d : Document) : option Node :=
  hd_error (docQuerySelectorAll sel d).

(** [document.getElementById(i)]: the first element with that id. *)
Definition getElementById (i : string) (d : Document) : option Node :=
  docQuerySelector [SelId i] d.

(** The text of a subtree in document order.  [el.innerText] is read
    through this function: the line breaks and the omission of unrendered
    descendants that layout adds to [innerText] are not modelled, and no
    property below depends on which text an element holds. *)
Fixpoint textContent (n : Node) : string :=
  match n with
  | Text s => s
  | Elem _ cs => String.concat "" (map textContent cs)
  end.

Definition innerText (n : Node) : string := textContent n.

(** *** The selectors the code uses *)

Definition selChatRoot : Selector := [SelClass "chat-client-root"].
Definition selEditable : Selector := [SelAttrEq "contenteditable" "true"].
Definition selSubmit : Selector := [SelAnd (SelTag "button") (SelClass "rounded-full")].
Definition selSubmitEnabled : Selector :=
  [SelAnd (SelAnd (SelTag "button") (SelClass "rounded-full"))
          (SelNot (SelClass "cursor-not-allowed"))].
Definition selScrollArea : Selector := [SelClass "cascade-scrollbar"].
Definition selHubRoot : Selector := [SelId "cascade-hub-ui"].
Definition selSidebar : Selector := [SelClass "sidebar"].
Definition selTabs : Selector := [SelClass "tab"; SelAttrEq "role" "tab"].

End Dom.

(* ===================================================================== *)
(** ** Panel Locator: getPanelState and listPanels *)
(* ===================================================================== *)

Module Locator.
Import Dom.

(** [rect.width > 0 && rect.height > 0] *)
Definition visibleBox (a : Attrs) : bool :=
  (0 <? rectWidth a)%Z && (0 <? rectHeight a)%Z.

Definition nodeVisible (n : Node) : bool :=
  match n with
  | Text _ => false
  | Elem a _ => visibleBox a
  end.

Definition nodeClassName (n : Node) : string :=
  match n with
  | Text _ => ""
  | Elem a _ => className a
  end.

Definition nodeId (n : Node) : string :=
  match n with
  | Text _ => ""
  | Elem a _ => ident a
  end.

(** [btn ? !btn.className.includes('cursor-not-allowed') : false] *)
Definition buttonEnabledOf (btn : option Node) : bool :=
  match btn with
  | Some b => negb (Js.includes "cursor-not-allowed" (nodeClassName b))
  | None => false
  end.

(** [input?.innerText || ''] *)
Definition inputTextOf (input : option Node) : string :=
  match input with
  | Some i => innerText i
  | None => ""
  end.

(** The record [getPanelState] returns: either the advisory error shape
    [{ error, totalPanels }] or the panel's state. *)
Inductive PanelState : Type :=
| PanelNotFound (error : string) (totalPanels : nat)
| PanelFound (index : Z) (visible : bool) (inputContent : string)
             (buttonEnabled : bool) (totalPanels : nat).

Definition notFoundMessage (idx : Z) : string :=
  "Panel " ++ Js.showZ idx ++ " not found".

(** The function evaluated in the page by [getPanelState(index)]. *)
Definition getPanelState (idx : Z) (d : Document) : PanelState :=
  let panels := docQuerySelectorAll selChatRoot d in
  match Js.at_ panels idx with
  | None => PanelNotFound (notFoundMessage idx) (length panels)
  | Some panel =>
      let input := querySelector selEditable panel in
      let btn := querySelector selSubmit panel in
      PanelFound idx (nodeVisible panel) (inputTextOf input)
                 (buttonEnabledOf btn) (length panels)
  end.

(** One entry of [listPanels()]. *)
Record PanelEntry : Type := mkPanelEntry {
  entryIndex : nat;
  entryId : option string;            (* panel.id || null *)
  entryVisible : bool;
  entryInputContent : string;         (* first 50 characters *)
  entryButtonEnabled : bool
}.

Definition describePanel (panel : Node) (i : nat) : PanelEntry :=
  let input := querySelector selEditable panel in
  let btn := querySelector selSubmit panel in
  mkPanelEntry i
    (if String.eqb (nodeId panel) "" then None else Some (nodeId panel))
    (nodeVisible panel)
    (Js.sliceTo 50 (inputTextOf input))
    (buttonEnabledOf btn).

(** The function evaluated in the page by [listPanels()]. *)
Definition listPanels (d : Document) : list PanelEntry :=
  Js.mapi describePanel (docQuerySelectorAll selChatRoot d).

(** What the properties below say of a state record. *)
Definition stateButtonEnabled (s : PanelState) : option bool :=
  match s with
  | PanelNotFound _ _ => None
  | PanelFound _ _ _ b _ => Some b
  end.

Definition stateInputContent (s : PanelState) : option string :=
  match s with
  | PanelNotFound _ _ => None
  | PanelFound _ _ c _ _ => Some c
  end.

End Locator.

(* ===================================================================== *)
(** ** Remote Session and the timed operations of cascade-controller.js *)
(* ===================================================================== *)

Module Session.
Import Dom Locator.

(** The parameters of [Input.dispatchKeyEvent]. *)
Record KeyEvent : Type := mkKeyEvent {
  keyType : string;
  keyName : option string;
  keyCode : option string;
  keyText : option string;
  keyModifiers : option Z;
  keyVirtualCode : option Z
}.

Inductive CdpCommand : Type :=
| DispatchKeyEvent (e : KeyEvent)
| InsertText (text : string).

Definition keyDown (key : string) : CdpCommand :=
  DispatchKeyEvent (mkKeyEvent "keyDown" (Some key) None None None None).
Definition keyDownMod (key : string) (m : Z) : CdpCommand :=
  DispatchKeyEvent (mkKeyEvent "keyDown" (Some key) None None (Some m) None).
Definition keyDownCode (key code : string) (vk : option Z) : CdpCommand :=
  DispatchKeyEvent (mkKeyEvent "keyDown" (Some key) (Some code) None None vk).
Definition keyUp (key : string) : CdpCommand :=
  DispatchKeyEvent (mkKeyEvent "keyUp" (Some key) None None None None).
Definition charEvent (c : string) : CdpCommand :=
  DispatchKeyEvent (mkKeyEvent "char" None None (Some c) None None).

(** What crossed the protocol: input commands sent through [cdpClient]
    and transcript texts returned to [getResponse]. *)
Inductive Event : Type :=
| Sent (c : CdpCommand)
| Read (content : string).

(** The host application, seen from the controller.  Everything the page
    does on its own (rendering, the editor reacting to keys, panels
    appearing) is the host's business; the controller only observes the
    document and the clock between its own steps. *)
Record Host (W : Type) : Type := mkHost {
  documentOf : W -> Document;          (* the live document *)
  clock : W -> Z;                      (* Date.now() *)
  roundTrip : W -> W;                  (* one page.evaluate round trip elapses *)
  sleep : Z -> W -> W;                 (* await sleep(ms) *)
  inject : CdpCommand -> W -> W;       (* cdpClient.send(...) *)
  activate : Z -> W -> W * bool;       (* panel.click(); input.scrollIntoView();
                                          input.click(); input.focus(); and
                                          whether the input then holds focus *)
  clickSubmit : Z -> W -> W            (* btn.click() on panel idx *)
}.

Arguments documentOf {W} _ _.
Arguments clock {W} _ _.
Arguments roundTrip {W} _ _.
Arguments sleep {W} _ _ _.
Arguments inject {W} _ _ _.
Arguments activate {W} _ _ _.
Arguments clickSubmit {W} _ _ _.

(** The clock never runs backwards and a timer never fires early. *)
Record ClockLaws {W} (H : Host W) : Prop := mkClockLaws {
  roundTrip_mono : forall w, (clock H w <= clock H (roundTrip H w))%Z;
  sleep_elapses : forall ms w, (0 <= ms)%Z -> (clock H w + ms <= clock H (sleep H ms w))%Z
}.

Section Operations.
Context {W : Type} (H : Host W).

Record Sess : Type := mkSess {
  world : W;
  trace : list Event
}.

(** Controller code runs in a state monad over the session. *)
Definition M (A : Type) : Type := Sess -> A * Sess.

Definition ret {A} (x : A) : M A := fun s => (x, s).

Definition bind {A B} (c : M A) (k : A -> M B) : M B :=
  fun s => let (x, s') := c s in k x s'.

Notation "x <- c ;; k" := (bind c (fun x => k))
  (at level 61, c at next level, right associativity).
Notation "c ;; k" := (bind c (fun _ => k))
  (at level 61, right associativity).

Definition dateNow : M Z := fun s => (clock H (world s), s).

Definition pause (ms : Z) : M unit :=
  fun s => (tt, mkSess (sleep H ms (world s)) (trace s)).

Definition cdpSend (c : CdpCommand) : M unit :=
  fun s => (tt, mkSess (inject H c (world s)) (trace s ++ [Sent c])%list).

(** [page.evaluate(f)] for a read-only [f]. *)
Definition evaluate {A} (f : Document -> A) : M A :=
  fun s => let w := roundTrip H (world s) in (f (documentOf H w), mkSess w (trace s)).

Definition logRead (content : string) : M unit :=
  fun s => (tt, mkSess (world s) (trace s ++ [Read content])%list).

Fixpoint forEach {A} (l : list A) (body : A -> M unit) : M unit :=
  match l with
  | [] => ret tt
  | x :: r => body x ;; forEach r body
  end.

(** *** send *)

Record SendOptions : Type := mkSendOptions {
  clear : bool;
  submit : bool
}.

(** [options = {}]: both default to true. *)
Definition defaultOptions : SendOptions := mkSendOptions true true.

Inductive FocusResult : Type :=
| FocusError (error : string)
| FocusDone (focused : bool) (panelIndex : Z).

(** The first [page.evaluate] of [send]. *)
Definition focusInput (idx : Z) : M FocusResult :=
  fun s =>
    let w := roundTrip H (world s) in
    let panels := docQuerySelectorAll selChatRoot (documentOf H w) in
    match Js.at_ panels idx with
    | None => (FocusError "Panel not found", mkSess w (trace s))
    | Some panel =>
        match querySelector selEditable panel with
        | None => (FocusError "Input not found", mkSess w (trace s))
        | Some _ =>
            let (w', isFocused) := activate H idx w in
            (FocusDone isFocused idx, mkSess w' (trace s))
        end
    end.

(** Cmd+A, then Backspace. *)
Definition clearInput : M unit :=
  cdpSend (keyDownMod "Meta" 8) ;;
  cdpSend (keyDownMod "a" 8) ;;
  cdpSend (keyUp "a") ;;
  cdpSend (keyUp "Meta") ;;
  pause 50 ;;
  cdpSend (keyDown "Backspace") ;;
  cdpSend (keyUp "Backspace") ;;
  pause 100.

Definition typeMessage (message : string) : M unit :=
  forEach (Js.chars message) (fun c => cdpSend (charEvent c) ;; pause 15).

(** The last [page.evaluate] of [send]: click the enabled submit button,
    if the panel still has one. *)
Definition clickSend (idx : Z) : M unit :=
  fun s =>
    let w := roundTrip H (world s) in
    let panels := docQuerySelectorAll selChatRoot (documentOf H w) in
    let btn := match Js.at_ panels idx with
               | Some panel => querySelector selSubmitEnabled panel
               | None => None
               end in
    match btn with
    | Some _ => (tt, mkSess (clickSubmit H idx w) (trace s))
    | None => (tt, mkSess w (trace s))
    end.

(** The record [send] returns. *)
Inductive SendResult : Type :=
| SendError (error : string)                       (* { sent: false, error } *)
| SendDone (message : string)                      (* { sent: true, message } *)
| SendSkipped (buttonEnabled : option bool)
              (inputContent : option string).      (* { sent: false, buttonEnabled, inputContent } *)

Definition sentFlag (r : SendResult) : bool :=
  match r with
  | SendDone _ => true
  | _ => false
  end.

(** [state.buttonEnabled] as a condition: [undefined] is falsy. *)
Definition truthy (b : option bool) : bool :=
  match b with
  | Some true => true
  | _ => false
  end.

Definition send (idx : Z) (message : string) (options : SendOptions) : M SendResult :=
  focusResult <- focusInput idx ;;
  match focusResult with
  | FocusError e => ret (SendError e)
  | FocusDone _ _ =>
      pause 200 ;;
      (if clear options then clearInput else ret tt) ;;
      typeMessage message ;;
      pause 200 ;;
      state <- evaluate (getPanelState idx) ;;
      if submit options && truthy (stateButtonEnabled state)
      then clickSend idx ;; ret (SendDone message)
      else ret (SendSkipped (stateButtonEnabled state) (stateInputContent state))
  end.

(** *** getResponse *)

(** [scrollArea?.innerText || ''] of panel [idx]. *)
Definition transcriptOf (idx : Z) (d : Document) : string :=
  match Js.at_ (docQuerySelectorAll selChatRoot d) idx with
  | None => ""
  | Some panel =>
      match querySelector selScrollArea panel with
      | None => ""
      | Some area => innerText area
      end
  end.

Definition readTranscript (idx : Z) : M string :=
  content <- evaluate (transcriptOf idx) ;;
  logRead content ;;
  ret content.

Inductive Response : Type :=
| Stable (response : string)       (* { response, stable: true } *)
| TimedOut (response : string).    (* { response, timeout: true } *)

(** The [while] loop; [fuel] bounds the number of iterations and
    [None] means the bound was too small. *)
Fixpoint poll (fuel : nat) (idx waitMs startTime : Z) (lastContent : string)
  : M (option Response) :=
  match fuel with
  | O => ret None
  | S fuel' =>
      t <- dateNow ;;
      if (t - startTime <? waitMs)%Z then
        content <- readTranscript idx ;;
        if negb (String.eqb content lastContent) then
          pause 500 ;;
          poll fuel' idx waitMs startTime content
        else if negb (String.eqb content "") then
          ret (Some (Stable content))
        else
          pause 200 ;;
          poll fuel' idx waitMs startTime lastContent
      else ret (Some (TimedOut lastContent))
  end.

(** Every iteration that does not return sleeps at least 200 ms. *)
Definition pollBudget (waitMs : Z) : nat := Z.to_nat (waitMs / 200) + 2.

Definition getResponse (idx waitMs : Z) : M (option Response) :=
  startTime <- dateNow ;;
  poll (pollBudget waitMs) idx waitMs startTime "".

(** *** spawnCascade *)

Record SpawnResult : Type := mkSpawnResult {
  spawned : bool;
  beforeCount : nat;
  afterCount : nat;
  newIndex : nat
}.

Definition countPanels (d : Document) : nat :=
  length (docQuerySelectorAll selChatRoot d).

(** Escape, F1, the command text, Enter. *)
Definition commandEntry : M unit :=
  cdpSend (keyDownCode "Escape" "Escape" None) ;;
  cdpSend (keyUp "Escape") ;;
  pause 300 ;;
  cdpSend (keyDownCode "F1" "F1" (Some 112%Z)) ;;
  cdpSend (keyUp "F1") ;;
  pause 500 ;;
  cdpSend (InsertText "Cascade in new tab") ;;
  pause 500 ;;
  cdpSend (keyDownCode "Enter" "Enter" (Some 13%Z)) ;;
  cdpSend (keyUp "Enter") ;;
  pause 2000.

Definition spawnCascade : M SpawnResult :=
  before <- evaluate countPanels ;;
  commandEntry ;;
  after <- evaluate countPanels ;;
  ret (mkSpawnResult (before <? after)%nat before after 0).

End Operations.

End Session.

(* ===================================================================== *)
(** ** Mutating the document *)
(* ===================================================================== *)

Module Mutate.
Import Dom.

(** What a function evaluated in the page yields: a value, or an
    exception that propagates to its caller. *)
Inductive Outcome (A : Type) : Type :=
| Returned (x : A)
| Thrown (message : string).
Arguments Returned {A} _.
Arguments Thrown {A} _.

(** [forEach(el => el.remove())] over every match of a selector: a
    matching element goes with its whole subtree. *)
Fixpoint removeMatching (sel : Selector) (n : Node) : list Node :=
  match n with
  | Text _ => [n]
  | Elem a cs =>
      if matches sel a then []
      else [Elem a (flat_map (removeMatching sel) cs)]
  end.

Definition removeAll (sel : Selector) (d : Document) : Document :=
  flat_map (removeMatching sel) d.

(** [forEach] over the matches of a node predicate, updating each match
    in place.  The updates used here only touch [style.display], which no
    predicate reads, so the order of the visits does not matter. *)
Fixpoint updateWhere (p : Node -> bool) (g : Attrs -> Attrs) (n : Node) : Node :=
  match n with
  | Text _ => n
  | Elem a cs => Elem (if p n then g a else a) (map (updateWhere p g) cs)
  end.

Definition updateAll (p : Node -> bool) (g : Attrs -> Attrs) (d : Document) : Document :=
  map (updateWhere p g) d.

(** The first match in document order, updated in place; [None] when
    nothing matches. *)
Fixpoint updateFirstIn (p : Attrs -> bool) (g : Attrs -> Attrs) (n : Node) : option Node :=
  match n with
  | Text _ => None
  | Elem a cs =>
      if p a then Some (Elem (g a) cs)
      else option_map (Elem a)
             ((fix go (l : list Node) : option (list Node) :=
                 match l with
                 | [] => None
                 | c :: r =>
                     match updateFirstIn p g c with
                     | Some c' => Some (c' :: r)
                     | None => option_map (cons c) (go r)
                     end
                 end) cs)
  end.

Fixpoint updateFirstForest (p : Attrs -> bool) (g : Attrs -> Attrs) (l : list Node)
  : option (list Node) :=
  match l with
  | [] => None
  | c :: r =>
      match updateFirstIn p g c with
      | Some c' => Some (c' :: r)
      | None => option_map (cons c) (updateFirstForest p g r)
      end
  end.

(** [const el = document.querySelector(sel); if (el) el.style... = ...] *)
Definition updateFirst (sel : Selector) (g : Attrs -> Attrs) (d : Document) : Document :=
  match updateFirstForest (matches sel) g d with
  | Some d' => d'
  | None => d
  end.

(** The first match in document order, removed with its subtree:
    [Some None] when the node itself goes, [None] when nothing matches. *)
Fixpoint removeFirstIn (p : Attrs -> bool) (n : Node) : option (option Node) :=
  match n with
  | Text _ => None
  | Elem a cs =>
      if p a then Some None
      else option_map (fun cs' => Some (Elem a cs'))
             ((fix go (l : list Node) : option (list Node) :=
                 match l with
                 | [] => None
                 | c :: r =>
                     match removeFirstIn p c with
                     | Some None => Some r
                     | Some (Some c') => Some (c' :: r)
                     | None => option_map (cons c) (go r)
                     end
                 end) cs)
  end.

Fixpoint removeFirstForest (p : Attrs -> bool) (l : list Node) : option (list Node) :=
  match l with
  | [] => None
  | c :: r =>
      match removeFirstIn p c with
      | Some None => Some r
      | Some (Some c') => Some (c' :: r)
      | None => option_map (cons c) (removeFirstForest p r)
      end
  end.

(** [const el = document.getElementById(i); if (el) el.remove()] *)
Definition removeById (i : string) (d : Document) : Document :=
  match removeFirstForest (matches [SelId i]) d with
  | Some d' => d'
  | None => d
  end.

(** [parent.appendChild(x)] on the first child element with the given tag. *)
Fixpoint appendInFirst (t : string) (x : Node) (l : list Node) : option (list Node) :=
  match l with
  | [] => None
  | Elem a cs :: r =>
      if String.eqb (tag a) t then Some (Elem a (cs ++ [x])%list :: r)
      else option_map (cons (Elem a cs)) (appendInFirst t x r)
  | n :: r => option_map (cons n) (appendInFirst t x r)
  end.

(** A change to the children of [document.documentElement], the first
    element child of the document. *)
Fixpoint onDocumentElement (f : list Node -> option (list Node)) (d : Document)
  : option Document :=
  match d with
  | [] => None
  | Elem a cs :: r => option_map (fun cs' => Elem a cs' :: r) (f cs)
  | n :: r => option_map (cons n) (onDocumentElement f r)
  end.

(** [document.body.appendChild(x)]; [None] when there is no body, where
    the call throws a TypeError. *)
Definition appendToBody (x : Node) (d : Document) : option Document :=
  onDocumentElement (appendInFirst "body" x) d.

(** [document.head.appendChild(x)] *)
Definition appendToHead (x : Node) (d : Document) : option Document :=
  onDocumentElement (appendInFirst "head" x) d.

Definition hasBody (d : Document) : bool :=
  match appendToBody (Text "") d with
  | Some _ => true
  | None => false
  end.

(** How many elements of the document match a selector. *)
Definition count (sel : Selector) (d : Document) : nat :=
  length (docQuerySelectorAll sel d).

End Mutate.

(* ===================================================================== *)
(** ** handler-extractor.js *)
(* ===================================================================== *)

Module Extractor.
Import Dom.

Record Message : Type := mkMessage {
  role : string;                 (* 'user' or 'assistant' *)
  content : string;              (* msg.innerText *)
  html : string;                 (* msg.innerHTML *)
  timestamp : string + Z         (* msg.dataset.timestamp || Date.now() *)
}.

Record Conversation : Type := mkConversation {
  convIndex : nat;
  messages : list Message;
  fullText : string;
  fullHTML : string;
  inputContent : string
}.

Record PanelInfo : Type := mkPanelInfo {
  panelIndex : nat;
  element : Node;
  input : option Node;
  sendButton : option Node;
  scrollArea : option Node;
  visible : bool;
  rect : Z * Z
}.

(** One handler group: event name to the listeners found for it. *)
Definition HandlerGroup := list (string * list Handler).

Record Extraction : Type := mkExtraction {
  panels : list PanelInfo;
  handlers : list (string * HandlerGroup);
  elements : list (string * Node);
  conversations : list Conversation;
  shortcuts : list (string * list (string * string))   (* metadata.shortcuts *)
}.

Definition emptyExtraction : Extraction := mkExtraction [] [] [] [] [].

(** [el.innerHTML]: the markup of the children.  Only the nesting of tags
    and the text are serialised; nothing that reads these fields depends
    on more. *)
Fixpoint outerMarkup (n : Node) : string :=
  match n with
  | Text s => s
  | Elem a cs =>
      "<" ++ tag a ++ ">" ++ String.concat "" (map outerMarkup cs) ++ "</" ++ tag a ++ ">"
  end.

Definition innerHTML (n : Node) : string :=
  String.concat "" (map outerMarkup (childNodes n)).

Definition selMessages : Selector := [SelClassSub "message"; SelClassSub "chat-message"].

(** [getEventListeners(element)]: the introspection API of the DevTools
    console is absent when code is evaluated over the protocol, so the
    fallback runs: every function-valued property called [on...]. *)
Definition getEventListeners (n : Node) : HandlerGroup :=
  match n with
  | Text _ => []
  | Elem a _ =>
      map (fun ph => (String.substring 2 (String.length (fst ph)) (fst ph), [snd ph]))
          (filter (fun ph => String.prefix "on" (fst ph)) (inlineHandlers a))
  end.

(** [listeners[name] || []] *)
Fixpoint listenersFor (name : string) (g : HandlerGroup) : list Handler :=
  match g with
  | [] => []
  | (n, hs) :: r => if String.eqb n name then hs else listenersFor name r
  end.

Definition pick (names : list string) (g : HandlerGroup) : HandlerGroup :=
  map (fun n => (n, listenersFor n g)) names.

Definition messageOf (now : Z) (msg : Node) : Message :=
  let isUser :=
    match msg with
    | Text _ => false
    | Elem a _ =>
        existsb (String.eqb "user") (Js.tokens (className a)) ||
        match attrGet "role" (attributes a) with
        | Some r => String.eqb r "user"
        | None => false
        end
    end in
  let stamp :=
    match msg with
    | Text _ => inr now
    | Elem a _ =>
        match attrGet "data-timestamp" (attributes a) with
        | Some t => if String.eqb t "" then inr now else inl t
        | None => inr now
        end
    end in
  mkMessage (if isUser then "user" else "assistant") (innerText msg) (innerHTML msg) stamp.

Definition optText (n : option Node) : string :=
  match n with
  | Some x => innerText x
  | None => ""
  end.

Definition optMarkup (n : option Node) : string :=
  match n with
  | Some x => innerHTML x
  | None => ""
  end.

Definition panelInfoOf (panel : Node) (index : nat) : PanelInfo :=
  let a := attrsOf panel in
  let w := match a with Some x => rectWidth x | None => 0%Z end in
  let h := match a with Some x => rectHeight x | None => 0%Z end in
  mkPanelInfo index panel
    (querySelector selEditable panel)
    (querySelector selSubmit panel)
    (querySelector selScrollArea panel)
    ((0 <? w)%Z && (0 <? h)%Z) (w, h).

Definition conversationOf (now : Z) (panel : Node) (index : nat) : Conversation :=
  let scroll := querySelector selScrollArea panel in
  mkConversation index
    (map (messageOf now) (querySelectorAll selMessages panel))
    (optText scroll) (optMarkup scroll)
    (optText (querySelector selEditable panel)).

Definition panelHandlers (panel : Node) (index : nat) : list (string * HandlerGroup) :=
  List.app
    (match querySelector selEditable panel with
     | Some i => [("panel_" ++ Js.showNat index ++ "_input",
                   pick ["input"; "keydown"; "keyup"; "focus"; "blur"] (getEventListeners i))]
     | None => []
     end)
    (match querySelector selSubmit panel with
     | Some b => [("panel_" ++ Js.showNat index ++ "_send",
                   pick ["click"; "mousedown"] (getEventListeners b))]
     | None => []
     end).

Definition selCascadeButton : Selector := [SelAttrEq "aria-label" "Cascade (⌘L)"].
Definition selCommandPalette : Selector := [SelClass "quick-input-widget"].
Definition selEditor : Selector := [SelClass "monaco-editor"].

Definition namedElement (name : string) (sel : Selector) (d : Document)
  : list (string * Node) :=
  match docQuerySelector sel d with
  | Some n => [(name, n)]
  | None => []
  end.

Definition namedHandlers (name : string) (sel : Selector) (d : Document)
  : list (string * HandlerGroup) :=
  match docQuerySelector sel d with
  | Some n => [(name, getEventListeners n)]
  | None => []
  end.

Definition keyboardShortcuts : list (string * list (string * string)) :=
  [("cascade", [("toggle", "⌘L"); ("newTab", "⌘⇧I")]);
   ("general", [("commandPalette", "F1"); ("quickOpen", "⌘P")])].

(** [extract()], reading the document at capture time [now].  The host
    globals it also records ([window.monaco], [window.vscode]) lie outside
    the document and are left out. *)
Definition extract (now : Z) (d : Document) : Extraction :=
  let found := docQuerySelectorAll selChatRoot d in
  match found with
  | [] => emptyExtraction
  | _ =>
      mkExtraction
        (Js.mapi panelInfoOf found)
        (concat (Js.mapi panelHandlers found) ++
         namedHandlers "cascadeToggle" selCascadeButton d ++
         namedHandlers "commandPalette" selCommandPalette d)%list
        (namedElement "cascadeButton" selCascadeButton d ++
         namedElement "commandPalette" selCommandPalette d ++
         namedElement "editor" selEditor d)%list
        (Js.mapi (conversationOf now) found)
        keyboardShortcuts
  end.

End Extractor.

(* ===================================================================== *)
(** ** custom-ui.js: building the replacement tree *)
(* ===================================================================== *)

Module CustomUI.
Import Dom Mutate Extractor.

(** [el.style.cssText = ...]: declarations apply in order, a later one
    replacing an earlier one for the same property. *)
Definition css (decls : list (string * string)) : list (string * string) :=
  fold_left (fun st pv => styleSet (fst pv) (snd pv) st) decls [].

(** [document.createElement(tag)]: no id, class, attribute or style, and
    no rendered box while it is out of the document. *)
Definition newElement (t : string) : Attrs := mkAttrs t "" "" [] [] 0 0 [] [].

Definition withId (i : string) (a : Attrs) : Attrs :=
  mkAttrs (tag a) i (className a) (attributes a) (style a)
          (rectWidth a) (rectHeight a) (inlineHandlers a) (listeners a).
Definition withClass (c : string) (a : Attrs) : Attrs :=
  mkAttrs (tag a) (ident a) c (attributes a) (style a)
          (rectWidth a) (rectHeight a) (inlineHandlers a) (listeners a).
Definition withAttr (n v : string) (a : Attrs) : Attrs :=
  mkAttrs (tag a) (ident a) (className a) (attributes a ++ [(n, v)])%list (style a)
          (rectWidth a) (rectHeight a) (inlineHandlers a) (listeners a).
Definition withStyle (st : list (string * string)) (a : Attrs) : Attrs :=
  mkAttrs (tag a) (ident a) (className a) (attributes a) st
          (rectWidth a) (rectHeight a) (inlineHandlers a) (listeners a).
Definition withInline (prop : string) (h : Handler) (a : Attrs) : Attrs :=
  mkAttrs (tag a) (ident a) (className a) (attributes a) (style a)
          (rectWidth a) (rectHeight a) (inlineHandlers a ++ [(prop, h)])%list (listeners a).
Definition withListener (ev : string) (h : Handler) (a : Attrs) : Attrs :=
  mkAttrs (tag a) (ident a) (className a) (attributes a) (style a)
          (rectWidth a) (rectHeight a) (inlineHandlers a) (listeners a ++ [(ev, h)])%list.

(** [el.textContent = s]: the children become one text node holding [s]
    verbatim, or nothing when [s] is empty.  The string is never parsed. *)
Definition textNodes (s : string) : list Node :=
  if String.eqb s "" then [] else [Text s].

Inductive Variant : Type := VDefault | VPrimary | VDanger | VSmall.

Definition variantDecls (v : Variant) : list (string * string) :=
  match v with
  | VDefault => [("background", "rgba(255,255,255,0.1)"); ("color", "#e0e0e0")]
  | VPrimary => [("background", "#00d4ff"); ("color", "#1a1a2e")]
  | VDanger => [("background", "rgba(255,80,80,0.2)"); ("color", "#ff5050")]
  | VSmall => [("background", "rgba(255,255,255,0.05)"); ("color", "#888");
               ("padding", "4px 8px"); ("font-size", "11px")]
  end.

Definition createButton (text : string) (onClick : Handler) (variant : Variant) : Node :=
  Elem (withListener "mouseleave" ButtonLeave
       (withListener "mouseenter" ButtonEnter
       (withStyle (css (variantDecls variant ++
                        [("border", "none"); ("border-radius", "6px");
                         ("padding", "8px 16px"); ("font-size", "12px");
                         ("font-weight", "600"); ("cursor", "pointer");
                         ("transition", "all 0.2s"); ("outline", "none")])%list)
       (withInline "onclick" onClick (newElement "button")))))
       (textNodes text).

Definition createToolbar (extraction : Extraction) : Node :=
  let title :=
    Elem (withStyle (css [("font-size", "18px"); ("font-weight", "600");
                          ("color", "#00d4ff"); ("flex", "1");
                          ("letter-spacing", "0.5px")])
                    (newElement "div"))
         (textNodes "Cascade Hub") in
  let badge :=
    Elem (withStyle (css [("background", "#00d4ff"); ("color", "#1a1a2e");
                          ("padding", "4px 10px"); ("border-radius", "12px");
                          ("font-size", "12px"); ("font-weight", "700")])
                    (withId "panel-count-badge" (newElement "div")))
         (textNodes (Js.showNat (length (conversations extraction)))) in
  let newBtn := createButton "+ New" SpawnPanelClick VDefault in
  let closeBtn := createButton "âœ•" CloseClick VDanger in
  Elem (withStyle (css [("height", "56px"); ("background", "rgba(0,0,0,0.3)");
                        ("border-bottom", "1px solid rgba(255,255,255,0.1)");
                        ("display", "flex"); ("align-items", "center");
                        ("padding", "0 16px"); ("gap", "12px");
                        ("flex-shrink", "0")])
                  (withId "cascade-toolbar" (newElement "div")))
       [title; badge; newBtn; closeBtn].

(** The fixed roster: name, emoji, status. *)
Definition agents : list (string * string * string) :=
  [("Scout", "ðŸ”", "active"); ("Builder", "ðŸ”¨", "idle"); ("Reviewer", "âœ…", "idle"); ("Debugger", "ðŸ›", "idle"); ("Optimizer", "âš¡", "idle"); ("Tester", "ðŸ§ª", "idle")].

Definition agentSlot (agent : string * string * string) : Node :=
  let '(name, emoji, status) := agent in
  let active := String.eqb status "active" in
  let emojiEl :=
    Elem (withStyle (css [("font-size", "20px"); ("margin-bottom", "4px")])
                    (newElement "div"))
         (textNodes emoji) in
  let nameEl :=
    Elem (withStyle (css [("font-size", "11px"); ("font-weight", "500");
                          ("color", if active then "#00d4ff" else "#888")])
                    (newElement "div"))
         (textNodes name) in
  Elem (withListener "click" (AgentToggleClick name)
       (withListener "mouseleave" (SlotLeave status)
       (withListener "mouseenter" SlotEnter
       (withStyle (css [("background", if active then "rgba(0,212,255,0.2)"
                                       else "rgba(255,255,255,0.05)");
                        ("border", "1px solid " ++
                                   (if active then "#00d4ff" else "rgba(255,255,255,0.1)"));
                        ("border-radius", "8px"); ("padding", "8px");
                        ("text-align", "center"); ("cursor", "pointer");
                        ("transition", "all 0.2s")])
       (withAttr "data-status" status
       (withClass "agent-slot" (newElement "div")))))))
       [emojiEl; nameEl].

Definition createAgentHub (extraction : Extraction) : Node :=
  let hubTitle :=
    Elem (withStyle (css [("font-size", "14px"); ("font-weight", "600");
                          ("margin-bottom", "12px"); ("color", "#00d4ff")])
                    (newElement "div"))
         (textNodes "âš¡ Agent Hub") in
  let slots :=
    Elem (withStyle (css [("display", "grid");
                          ("grid-template-columns", "repeat(3, 1fr)");
                          ("gap", "8px")])
                    (newElement "div"))
         (map agentSlot agents) in
  Elem (withStyle (css [("background", "rgba(0,0,0,0.3)");
                        ("border-bottom", "1px solid rgba(255,255,255,0.1)");
                        ("padding", "16px"); ("flex-shrink", "0")])
                  (withId "agent-hub" (newElement "div")))
       [hubTitle; slots].

(** One message of a conversation: a block styled by role whose only
    child is the message text. *)
Definition messageBlock (msg : Message) : Node :=
  let user := String.eqb (role msg) "user" in
  Elem (withStyle (css [("margin-bottom", "16px"); ("padding", "10px 12px");
                        ("border-radius", "8px");
                        ("background", if user then "rgba(0,212,255,0.1)"
                                       else "rgba(255,255,255,0.05)");
                        ("border-left", "3px solid " ++
                                        (if user then "#00d4ff" else "#888"))])
                  (newElement "div"))
       (textNodes (content msg)).

Definition emptyNotice : Node :=
  Elem (withStyle (css [("padding", "20px"); ("text-align", "center");
                        ("color", "#666"); ("font-size", "13px");
                        ("font-style", "italic")])
                  (newElement "div"))
       (textNodes "No messages yet. Start a conversation below.").

Definition conversationBlocks (msgs : list Message) : list Node :=
  match msgs with
  | [] => [emptyNotice]
  | _ => map messageBlock msgs
  end.

(** A sub-panel and the references [panel._cascadeRefs] keeps. *)
Record PanelView : Type := mkPanelView {
  view : Node;
  refInput : Node;
  refSendButton : Node;
  refConversationArea : Node;
  refOriginalPanel : option Node
}.

(** [createPanel(conversation, index, extraction)]; of [extraction] only
    [extraction.panels] is read. *)
Definition createPanel (msgs : list Message) (inputText : string) (index : nat)
           (extractedPanels : list PanelInfo) : PanelView :=
  let panelTitle :=
    Elem (withStyle (css [("flex", "1"); ("font-size", "12px");
                          ("font-weight", "600"); ("color", "#888")])
                    (newElement "div"))
         (textNodes ("Panel " ++ Js.showNat index)) in
  let expandBtn := createButton "â†•" ExpandClick VSmall in
  let header :=
    Elem (withStyle (css [("padding", "8px 12px"); ("background", "rgba(0,0,0,0.3)");
                          ("border-bottom", "1px solid rgba(255,255,255,0.1)");
                          ("display", "flex"); ("align-items", "center");
                          ("gap", "8px"); ("flex-shrink", "0")])
                    (newElement "div"))
         [panelTitle; expandBtn] in
  let conversationArea :=
    Elem (withStyle (css [("flex", "1"); ("overflow-y", "auto"); ("padding", "12px");
                          ("font-size", "13px"); ("line-height", "1.6")])
                    (withClass "conversation-area" (newElement "div")))
         (conversationBlocks msgs) in
  let inputEl :=
    Elem (withListener "blur" InputBlur
         (withListener "focus" InputFocus
         (withStyle (css [("flex", "1"); ("min-height", "40px"); ("max-height", "120px");
                          ("overflow-y", "auto"); ("padding", "10px 12px");
                          ("background", "rgba(255,255,255,0.05)");
                          ("border", "1px solid rgba(255,255,255,0.1)");
                          ("border-radius", "8px"); ("color", "#e0e0e0");
                          ("outline", "none"); ("font-size", "13px");
                          ("line-height", "1.5")])
         (withAttr "data-panel-index" (Js.showNat index)
         (withClass "cascade-input"
         (withAttr "contenteditable" "true" (newElement "div")))))))
         (textNodes inputText) in
  let sendBtn :=
    match createButton "Send" (SendClick index) VPrimary with
    | Elem a cs =>
        Elem (withAttr "data-panel-index" (Js.showNat index)
             (withClass "cascade-send-button" a)) cs
    | n => n
    end in
  let inputContainer :=
    Elem (withStyle (css [("padding", "12px"); ("background", "rgba(0,0,0,0.3)");
                          ("border-top", "1px solid rgba(255,255,255,0.1)");
                          ("display", "flex"); ("gap", "8px"); ("flex-shrink", "0")])
                    (newElement "div"))
         [inputEl; sendBtn] in
  let panel :=
    Elem (withStyle (css [("background", "rgba(0,0,0,0.2)"); ("display", "flex");
                          ("flex-direction", "column"); ("height", "400px");
                          ("flex-shrink", "0")])
         (withAttr "data-index" (Js.showNat index)
         (withClass "cascade-panel" (newElement "div"))))
         [header; conversationArea; inputContainer] in
  mkPanelView panel inputEl sendBtn conversationArea
              (option_map element (nth_error extractedPanels index)).

Definition panelOf (extraction : Extraction) (conv : Conversation) (index : nat) : PanelView :=
  createPanel (messages conv) (Extractor.inputContent conv) index (panels extraction).

(** The double-quote character. *)
Definition quote : string := String (ascii_of_nat 34) EmptyString.

Definition placeholder : Node :=
  Elem (withStyle (css [("padding", "32px"); ("text-align", "center");
                        ("color", "#666"); ("font-size", "14px")])
                  (newElement "div"))
       (textNodes ("No Cascade panels found. Click " ++ quote ++ "+ New" ++ quote ++
                   " to create one.")).

Definition hubStyleId : string := "cascade-mount-styles".

(** The rules of the injected style sheet (white space normalised). *)
Definition hubStyleSheet : string :=
  "#cascade-hub-ui * { box-sizing: border-box; } " ++
  "#cascade-hub-ui ::-webkit-scrollbar { width: 8px; height: 8px; } " ++
  "#cascade-hub-ui ::-webkit-scrollbar-track { background: rgba(0,0,0,0.2); } " ++
  "#cascade-hub-ui ::-webkit-scrollbar-thumb { background: rgba(0,212,255,0.3); border-radius: 4px; } " ++
  "#cascade-hub-ui ::-webkit-scrollbar-thumb:hover { background: rgba(0,212,255,0.5); } " ++
  ".cascade-input:empty:before { content: 'Type a message...'; color: #666; }".

(** [injectStyles()]: once per document; throws where there is no head. *)
Definition injectStyles (d : Document) : Outcome unit * Document :=
  match getElementById hubStyleId d with
  | Some _ => (Returned tt, d)
  | None =>
      let styleEl := Elem (withId hubStyleId (newElement "style")) (textNodes hubStyleSheet) in
      match appendToHead styleEl d with
      | Some d' => (Returned tt, d')
      | None => (Thrown "Cannot read properties of null (reading 'appendChild')", d)
      end
  end.

(** The object [createUI] returns. *)
Record UI : Type := mkUI {
  root : Node;
  agentHub : Node;
  uiPanels : list PanelView;
  toolbar : Node
}.

Definition rootStyle : list (string * string) :=
  css [("position", "fixed"); ("top", "0"); ("right", "0"); ("width", "450px");
       ("height", "100vh");
       ("background", "linear-gradient(135deg, #1a1a2e 0%, #16213e 100%)");
       ("z-index", "999999"); ("display", "flex"); ("flex-direction", "column");
       ("font-family", "-apple-system, BlinkMacSystemFont, 'Segoe UI', sans-serif");
       ("color", "#e0e0e0"); ("box-shadow", "-4px 0 24px rgba(0,0,0,0.5)")].

(** The tree [createUI] builds, before the style sheet is injected. *)
Definition buildUI (extraction : Extraction) : UI :=
  let bar := createToolbar extraction in
  let hub := createAgentHub extraction in
  let views := Js.mapi (panelOf extraction) (conversations extraction) in
  let panelsContainer :=
    Elem (withStyle (css [("flex", "1"); ("overflow-y", "auto"); ("display", "flex");
                          ("flex-direction", "column"); ("gap", "1px");
                          ("background", "rgba(0,0,0,0.2)")])
                    (withId "panels-container" (newElement "div")))
         (match conversations extraction with
          | [] => [placeholder]
          | _ => map view views
          end) in
  mkUI (Elem (withStyle rootStyle (withId "cascade-hub-ui" (newElement "div")))
             [bar; hub; panelsContainer])
       hub views bar.

Definition createUI (extraction : Extraction) (d : Document) : Outcome UI * Document :=
  match injectStyles d with
  | (Returned _, d') => (Returned (buildUI extraction), d')
  | (Thrown m, d') => (Thrown m, d')
  end.

End CustomUI.

(* ===================================================================== *)
(** ** custom-ui.js: mounting, hiding the original UI, the panel watcher *)
(* ===================================================================== *)

Module Takeover.
Import Dom Mutate Extractor CustomUI.

(** A callback waiting in [setTimeout]. *)
Inductive Callback : Type :=
| ResizeSignal.                 (* window.dispatchEvent(new Event('resize')) *)

(** The page the code runs in: its document, the MutationObservers that
    are connected to [document.body] (each known by the order of its
    construction), the timers pending, and the listeners on [window]. *)
Record Page : Type := mkPage {
  doc : Document;
  observers : list nat;
  created : nat;
  timers : list (Z * Callback);
  windowListeners : list string
}.

Definition withDoc (d : Document) (p : Page) : Page :=
  mkPage d (observers p) (created p) (timers p) (windowListeners p).

(** The module-level variables of custom-ui.js.  Each evaluation of the
    module's source has its own. *)
Record Globals : Type := mkGlobals {
  panelObserver : option nat;
  customUIRef : option UI;
  panelCount : nat
}.

(** [let panelObserver = null; let customUIRef = null; let panelCount = 0;] *)
Definition freshGlobals : Globals := mkGlobals None None 0.

Definition State : Type := (Globals * Page)%type.

Definition auxBarId : string := "workbench.parts.auxiliarybar".

(** [setCustomUIRef(ui)] *)
Definition setCustomUIRef (ui : UI) (g : Globals) : Globals :=
  mkGlobals (panelObserver g) (Some ui) (length (uiPanels ui)).

(** [stopObserver()] *)
Definition stopObserver (st : State) : State :=
  let (g, p) := st in
  match panelObserver g with
  | Some o =>
      (mkGlobals None (customUIRef g) (panelCount g),
       mkPage (doc p) (filter (fun x => negb (Nat.eqb x o)) (observers p))
              (created p) (timers p) (windowListeners p))
  | None => st
  end.

(** [mount(customUI)] *)
Definition mount (ui : UI) (st : State) : Outcome UI * State :=
  let (g, p) := st in
  let cleaned := removeAll selHubRoot (doc p) in
  let (g1, p1) := stopObserver (g, withDoc cleaned p) in
  match appendToBody (root ui) (doc p1) with
  | None => (Thrown "Cannot read properties of null (reading 'appendChild')", (g1, p1))
  | Some d2 =>
      (Returned ui,
       (setCustomUIRef ui g1,
        mkPage d2 (observers p1) (created p1)
               (timers p1 ++ [(100%Z, ResizeSignal)])%list (windowListeners p1)))
  end.

Definition isHidden (a : Attrs) : bool := String.eqb (display a) "none".

(** [hideElement(el)] on an element: what it does to the element ... *)
Definition hide (a : Attrs) : Attrs :=
  if isHidden a then a else setDisplay "none" a.

(** ... and whether it returns true. *)
Definition hides (n : Node) : bool :=
  match n with
  | Text _ => false
  | Elem a _ => negb (isHidden a)
  end.

Definition isChatRoot (n : Node) : bool := nodeMatches selChatRoot n.

(** [t.innerText?.includes('Cascade')] on a match of ['.tab, [role="tab"]'] *)
Definition isCascadeTab (n : Node) : bool :=
  nodeMatches selTabs n && Js.includes "Cascade" (innerText n).

(** How many of the elements a [forEach] visits does [hideElement] hide. *)
Definition countHides (p : Node -> bool) (d : Document) : nat :=
  length (filter (fun n => p n && hides n) (forestElements d)).

Definition auxBarHides (d : Document) : nat :=
  match getElementById auxBarId d with
  | Some n => if hides n then 1 else 0
  | None => 0
  end.

(** The hiding part of [destroyOriginalUI]: panels, then the auxiliary
    bar, then the Cascade tabs; with the number of elements hidden. *)
Definition hideOriginal (d : Document) : nat * Document :=
  let d1 := updateAll isChatRoot hide d in
  let d2 := updateFirst [SelId auxBarId] hide d1 in
  let d3 := updateAll isCascadeTab hide d2 in
  (countHides isChatRoot d + auxBarHides d1 + countHides isCascadeTab d2, d3).

(** [destroyOriginalUI()]: hide, then start the watcher unless this
    module instance already has one. *)
Definition destroyOriginalUI (st : State) : Outcome nat * State :=
  let (g, p) := st in
  let (hidden, d') := hideOriginal (doc p) in
  match panelObserver g with
  | Some _ => (Returned hidden, (g, withDoc d' p))
  | None =>
      let o := created p in
      let g' := mkGlobals (Some o) (customUIRef g) (panelCount g) in
      if hasBody d'
      then (Returned hidden,
            (g', mkPage d' (observers p ++ [o])%list (S o) (timers p) (windowListeners p)))
      else (Thrown "Failed to execute 'observe' on 'MutationObserver'",
            (g', mkPage d' (observers p) (S o) (timers p) (windowListeners p)))
  end.

(** [restoreOriginalUI()], the close control's path. *)
Definition restoreOriginalUI (st : State) : State :=
  let (g, p) := stopObserver st in
  let d1 := updateAll isChatRoot (setDisplay "") (doc p) in
  let d2 := updateFirst [SelId auxBarId] (setDisplay "") d1 in
  (g, withDoc (removeById "cascade-hub-ui" d2) p).

End Takeover.

(* ===================================================================== *)
(** ** cascade-controller.js: mountCustomUI and restoreUI *)
(* ===================================================================== *)

Module Controller.
Import Dom Mutate Extractor CustomUI Takeover.

Record MountResult : Type := mkMountResult {
  panelsExtracted : nat;          (* extraction.panelCount *)
  conversationsExtracted : nat;   (* extraction.conversationCount *)
  handlersExtracted : nat;
  wired : nat;
  destroyed : nat;
  uiMounted : bool                (* ui.mounted *)
}.

(** The controller's own variables: [page] (non-null once connected)
    and [mountedUI]. *)
Record Ctl : Type := mkCtl {
  connected : bool;
  mountedUI : option MountResult
}.

(** [customPanel.input] and [customPanel.sendButton] as [wireHandlers]
    reads them: properties of the panel's [div] element itself.
    [createPanel] stores its references under [panel._cascadeRefs], so
    the element has no property of either name and the read yields
    [undefined]. *)
Definition panelProperty (name : string) (customPanel : PanelView) : option Node := None.

(** [extraction.handlers[key]] *)
Fixpoint handlerGroup (key : string) (hs : list (string * HandlerGroup))
  : option HandlerGroup :=
  match hs with
  | [] => None
  | (k, g) :: r => if String.eqb k key then Some g else handlerGroup key r
  end.

(** One [if (handlers && target) { ... }] block of [wireHandlers]: every
    listener of every event of the group is attached to the target and
    recorded. *)
Definition wireGroup (target : option Node) (group : option HandlerGroup)
  : list (string * Handler) :=
  match target, group with
  | Some _, Some g => flat_map (fun el => map (fun h => (fst el, h)) (snd el)) g
  | _, _ => []
  end.

(** [wireHandlers(extraction, ui)]: the list of wired handlers. *)
Definition wireHandlers (extraction : Extraction) (ui : UI) : list (string * Handler) :=
  concat
    (Js.mapi
       (fun (_ : PanelInfo) index =>
          match nth_error (uiPanels ui) index with
          | None => []
          | Some customPanel =>
              (wireGroup (panelProperty "input" customPanel)
                         (handlerGroup ("panel_" ++ Js.showNat index ++ "_input")
                                       (handlers extraction)) ++
               wireGroup (panelProperty "sendButton" customPanel)
                         (handlerGroup ("panel_" ++ Js.showNat index ++ "_send")
                                       (handlers extraction)))%list
          end)
       (panels extraction)).

(** The function [mountCustomUI] evaluates in the page.  The source of
    custom-ui.js is run anew ([runModule]), so its variables start fresh;
    an exception anywhere is caught and reported as a message. *)
Definition mountInPage (now : Z) (p : Page) : Outcome MountResult * Page :=
  let extraction := extract now (doc p) in
  match createUI extraction (doc p) with
  | (Thrown m, d1) => (Thrown m, withDoc d1 p)
  | (Returned ui, d1) =>
      match mount ui (freshGlobals, withDoc d1 p) with
      | (Thrown m, (_, p2)) => (Thrown m, p2)
      | (Returned _, st2) =>
          let w := wireHandlers extraction ui in
          match destroyOriginalUI st2 with
          | (Thrown m, (_, p3)) => (Thrown m, p3)
          | (Returned hidden, (_, p3)) =>
              (Returned
                 (mkMountResult (length (panels extraction))
                                (length (conversations extraction))
                                (length (handlers extraction))
                                (length w) hidden
                                (match getElementById "cascade-hub-ui" (doc p3) with
                                 | Some _ => true
                                 | None => false
                                 end)),
               p3)
          end
      end
  end.

(** [setupEventBridges()]: three listeners on [window]. *)
Definition setupEventBridges (p : Page) : Page :=
  mkPage (doc p) (observers p) (created p) (timers p)
         (windowListeners p ++
          ["cascade-send"; "cascade-spawn-panel"; "cascade-agent-toggle"])%list.

(** [mountCustomUI()] *)
Definition mountCustomUI (now : Z) (c : Ctl) (p : Page)
  : Outcome MountResult * Ctl * Page :=
  if negb (connected c)
  then (Thrown "Not connected. Call connect() first.", c, p)
  else
    match mountInPage now p with
    | (Thrown m, p') => (Thrown ("Mount failed: " ++ m), c, p')
    | (Returned r, p') =>
        (Returned r, mkCtl (connected c) (Some r), setupEventBridges p')
    end.

(** The record [restoreUI] returns. *)
Inductive RestoreResult : Type :=
| NotRestored (error : string)      (* { restored: false, error } *)
| Restored.                         (* { restored: true } *)

(** The function [restoreUI] evaluates in the page. *)
Definition restoreInPage (d : Document) : Document :=
  let d1 := removeById "cascade-hub-ui" d in
  let d2 := updateAll isChatRoot (setDisplay "") d1 in
  updateFirst selSidebar (setDisplay "") d2.

(** [restoreUI()] *)
Definition restoreUI (c : Ctl) (p : Page) : RestoreResult * Ctl * Page :=
  match connected c, mountedUI c with
  | true, Some _ =>
      (Restored, mkCtl (connected c) None, withDoc (restoreInPage (doc p)) p)
  | _, _ => (NotRestored "UI not mounted", c, p)
  end.

End Controller.

(* ===================================================================== *)
(** ** Sample documents and hosts *)
(* ===================================================================== *)

Module Samples.
Import Dom Locator Session CustomUI Takeover Controller.

Definition el (t i c : string) (attrs : list (string * string)) (w h : Z)
           (cs : list Node) : Node :=
  Elem (mkAttrs t i c attrs [] w h [] []) cs.

(** A conversation panel with a transcript, a draft in its compose
    surface and an enabled submit button. *)
Definition firstPanel : Node :=
  el "div" "" "chat-client-root" [] 300 600
     [ el "div" "" "cascade-scrollbar" [] 300 500
          [ el "div" "" "message user" [] 300 20 [Text "hi"];
            el "div" "" "message" [] 300 20 [Text "hello"] ];
       el "div" "" "" [("contenteditable", "true")] 300 40 [Text "draft"];
       el "button" "" "rounded-full" [] 24 24 [] ].

(** A panel that has neither compose surface nor submit button. *)
Definition barePanel : Node :=
  el "div" "second" "chat-client-root" [] 300 600 [].

Definition cascadeTab : Node :=
  el "div" "" "tab" [("role", "tab")] 80 24 [Text "Cascade"].

Definition auxBar : Node :=
  el "div" "workbench.parts.auxiliarybar" "part auxiliarybar" [] 300 700 [firstPanel].

Definition workbench : Document :=
  [ el "html" "" "" [] 1200 800
       [ el "head" "" "" [] 0 0 [];
         el "body" "" "" [] 1200 800 [cascadeTab; auxBar; barePanel] ] ].

(** A panel whose transcript surface is empty. *)
Definition silentPanel : Node :=
  el "div" "" "chat-client-root" [] 300 600
     [ el "div" "" "cascade-scrollbar" [] 300 500 [];
       el "div" "" "" [("contenteditable", "true")] 300 40 [] ].


(** A host whose document never changes and whose clock advances by
    exactly the time slept; [focusable] says whether [input.focus()]
    leaves the focus on the compose surface. *)
Definition stillHost (d : Document) (focusable : bool) : Host Z :=
  mkHost (fun _ => d) (fun t => t) (fun t => t) (fun ms t => (t + ms)%Z)
         (fun _ t => t) (fun _ t => (t, focusable)) (fun _ t => t).

(** A panel whose transcript shows the given text. *)
Definition panelShowing (text : string) : Node :=
  el "div" "" "chat-client-root" [] 300 600
     [ el "div" "" "cascade-scrollbar" [] 300 500 [Text text];
       el "div" "" "" [("contenteditable", "true")] 300 40 [] ].

(** A host whose only panel shows the current time: its transcript
    differs at every read. *)
Definition tickingHost : Host Z :=
  mkHost (fun t => [ el "html" "" "" [] 1200 800
                        [ el "head" "" "" [] 0 0 [];
                          el "body" "" "" [] 1200 800 [panelShowing (Js.showZ t)] ] ])
         (fun t => t) (fun t => t) (fun ms t => (t + ms)%Z)
         (fun _ t => t) (fun _ t => (t, true)) (fun _ t => t).

(** A host whose only panel shows "a", then "b" from 100 ms on, then
    "c" from 300 ms on. *)
Definition scriptedHost : Host Z :=
  mkHost (fun t => [ el "html" "" "" [] 1200 800
                        [ el "head" "" "" [] 0 0 [];
                          el "body" "" "" [] 1200 800
                             [panelShowing (if (t <? 100)%Z then "a"
                                            else if (t <? 300)%Z then "b" else "c")] ] ])
         (fun t => t) (fun t => t) (fun ms t => (t + ms)%Z)
         (fun _ t => t) (fun _ t => (t, true)) (fun _ t => t).

Definition startSess : Sess (W := Z) := mkSess 0%Z [].

Definition startPage : Page := mkPage workbench [] 0 [] [].

Definition connectedCtl : Ctl := mkCtl true None.

(** The controller and the page after [mountCustomUI] on the sample. *)
Definition mountedCtl : Ctl := snd (fst (mountCustomUI 0 connectedCtl startPage)).
Definition mountedPage : Page := snd (mountCustomUI 0 connectedCtl startPage).

End Samples.

(* ===================================================================== *)
(** ** Vocabulary of the properties *)
(* ===================================================================== *)

Module Vocabulary.
Import Dom Locator Session.




(** The input commands of the command-entry sequence, in order. *)
Definition spawnCommands : list CdpCommand :=
  [ keyDownCode "Escape" "Escape" None; keyUp "Escape";
    keyDownCode "F1" "F1" (Some 112%Z); keyUp "F1";
    InsertText "Cascade in new tab";
    keyDownCode "Enter" "Enter" (Some 13%Z); keyUp "Enter" ].

(** Extracted data with every piece of captured markup blanked. *)
Definition eraseMessage (m : Extractor.Message) : Extractor.Message :=
  Extractor.mkMessage (Extractor.role m) (Extractor.content m) "" (Extractor.timestamp m).

Definition eraseConversation (c : Extractor.Conversation) : Extractor.Conversation :=
  Extractor.mkConversation (Extractor.convIndex c)
    (map eraseMessage (Extractor.messages c))
    (Extractor.fullText c) "" (Extractor.inputContent c).

Definition eraseMarkup (e : Extractor.Extraction) : Extractor.Extraction :=
  Extractor.mkExtraction (Extractor.panels e) (Extractor.handlers e)
    (Extractor.elements e) (map eraseConversation (Extractor.conversations e))
    (Extractor.shortcuts e).

Definition selConversationArea : Selector := [SelClass "conversation-area"].

(** The inline style of an element node. *)
Definition nodeStyle (n : Node) : list (string * string) :=
  match n with
  | Text _ => []
  | Elem a _ => style a
  end.

(** The matches of a selector in a subtree, the root included, in
    document order. *)
Fixpoint select (sel : Selector) (n : Node) : list Node :=
  match n with
  | Text _ => []
  | Elem a cs => ((if matches sel a then [n] else []) ++ flat_map (select sel) cs)%list
  end.

(** A tree with every inline style blanked: what remains when only
    [style] may have changed. *)
Fixpoint shape (n : Node) : Node :=
  match n with
  | Text _ => n
  | Elem a cs => Elem (CustomUI.withStyle [] a) (map shape cs)
  end.

(** [el.style.display] of an element node. *)
Definition nodeDisplay (n : Node) : string :=
  match n with
  | Text _ => ""
  | Elem a _ => display a
  end.

(** Updates that touch nothing but the inline style. *)
Definition StyleOnly (g : Attrs -> Attrs) : Prop :=
  forall a, exists st, g a = CustomUI.withStyle st a.

(** What removing the first match does to the number of matches. *)
Definition RemovedOne (sel : Selector) (n : Node) : Prop :=
  match Mutate.removeFirstIn (matches sel) n with
  | None => select sel n = []
  | Some None => 1 <= List.length (select sel n)
  | Some (Some n') => List.length (select sel n') < List.length (select sel n)
  end.

Definition RemovedOneOf (sel : Selector) (l : list Node) : Prop :=
  match Mutate.removeFirstForest (matches sel) l with
  | None => flat_map (select sel) l = []
  | Some l' =>
      List.length (flat_map (select sel) l') < List.length (flat_map (select sel) l)
  end.

(** The element is not display-suppressed inline. *)
Definition Shown (n : Node) : Prop := nodeDisplay n = "".

(** Decide [matches] on an element whose class and id are literals. *)
Ltac eval_matches :=
  repeat match goal with
         | |- context [matches ?s ?a] =>
             let b := eval vm_compute in (matches s a) in
             change (matches s a) with b
         end.

(** The elements [destroyOriginalUI] hides: the conversation panels,
    the auxiliary bar and the Cascade tabs. *)
Definition isHideTarget (n : Node) : bool :=
  Takeover.isChatRoot n || String.eqb (nodeId n) Takeover.auxBarId || Takeover.isCascadeTab n.

Definition hideTargets (d : Document) : list Node :=
  filter isHideTarget (forestElements d).

(** Which of them are displayed, in document order. *)
Definition visibility (d : Document) : list bool :=
  map (fun n => negb (String.eqb (nodeDisplay n) "none")) (hideTargets d).


(** A takeover is mounted: the controller is connected and holds a mount
    record, and the document has at most one replacement root, as [mount]
    leaves it. *)
Definition Mounted (c : Controller.Ctl) (p : Takeover.Page) : Prop :=
  Controller.connected c = true /\
  Controller.mountedUI c <> None /\
  Mutate.count selHubRoot (Takeover.doc p) <= 1.

(** One mount as [mountCustomUI] sequences it, [mount(ui)] and then
    [destroyOriginalUI()], run against the variables of one evaluation of
    custom-ui.js. *)
Definition mountStep (ui : CustomUI.UI) (st : Takeover.State)
  : Mutate.Outcome nat * Takeover.State :=
  match Takeover.mount ui st with
  | (Mutate.Returned _, st1) => Takeover.destroyOriginalUI st1
  | (Mutate.Thrown m, st1) => (Mutate.Thrown m, st1)
  end.

(** The watchers connected to the page are exactly the one this module
    instance holds, if it holds one. *)
Definition Tracked (st : Takeover.State) : Prop :=
  Takeover.observers (snd st) =
  match Takeover.panelObserver (fst st) with
  | Some o => [o]
  | None => []
  end.

End Vocabulary.

(* ===================================================================== *)
(** ** cascade-controller.js: the session's life cycle *)
(* ===================================================================== *)

Module Lifecycle.
Import Controller.

(** [disconnect()]: releases [browser], [page] and [cdpClient] when a
    browser is held; [mountedUI] is not touched. *)
Definition disconnect (c : Ctl) : Ctl :=
  if connected c then mkCtl false (mountedUI c) else c.

(** [getMountStatus()] *)
Definition getMountStatus (c : Ctl) : option MountResult := mountedUI c.

End Lifecycle.

(* ===================================================================== *)
(** ** Vocabulary of the further properties *)
(* ===================================================================== *)

Module MoreVocabulary.
Import Dom Locator Session.

(** The keys [send] injects to clear the compose surface. *)
Definition clearKeys : list CdpCommand :=
  [ keyDownMod "Meta" 8; keyDownMod "a" 8; keyUp "a"; keyUp "Meta";
    keyDown "Backspace"; keyUp "Backspace" ].

(** The input commands of one [send] that reaches the typing step. *)
Definition sendKeys (message : string) (options : SendOptions) : list CdpCommand :=
  ((if clear options then clearKeys else []) ++ map charEvent (Js.chars message))%list.

End MoreVocabulary.

(* ===================================================================== *)
(** ** Vocabulary of the properties of the replacement tree *)
(* ===================================================================== *)

Module TreeVocabulary.
Import Dom.

Definition selCascadePanel : Selector := [SelClass "cascade-panel"].
Definition selCascadeInput : Selector := [SelClass "cascade-input"].
Definition selBadge : Selector := [SelId "panel-count-badge"].
Definition selContainer : Selector := [SelId "panels-container"].

(** The value of an attribute of an element node. *)
Definition nodeAttr (name : string) (n : Node) : option string :=
  match n with
  | Text _ => None
  | Elem a _ => attrGet name (attributes a)
  end.

End TreeVocabulary.

(* ===================================================================== *)
(** ** Vocabulary of the properties of hiding and restoring *)
(* ===================================================================== *)

Module TakeoverVocabulary.
Import Dom Vocabulary.


(** [n'] is [n] with inline styles possibly changed below it, and its
    own attributes either untouched or passed through [g]. *)
Definition Restyled (g : Attrs -> Attrs) (n n' : Node) : Prop :=
  shape n' = shape n /\
  match n, n' with
  | Elem a _, Elem a' _ => a' = a \/ a' = g a
  | _, _ => True
  end.



End TakeoverVocabulary.

(* ===================================================================== *)
(** ** Vocabulary of the properties of mounting *)
(* ===================================================================== *)

Module MountVocabulary.

(** Whether an operation that may fail yields a result. *)
Definition succeeds {A} (o : option A) : bool :=
  match o with
  | Some _ => true
  | None => false
  end.

End MountVocabulary.

(* ===================================================================== *)
(** ** custom-ui.js: adding a panel to the mounted tree *)
(* ===================================================================== *)

Module Watcher.
Import Dom Mutate Extractor CustomUI Takeover.

(** The first match in document order, with its child nodes rewritten;
    [None] when nothing matches. *)
Fixpoint rewriteFirstIn (p : Attrs -> bool) (f : list Node -> list Node) (n : Node)
  : option Node :=
  match n with
  | Text _ => None
  | Elem a cs =>
      if p a then Some (Elem a (f cs))
      else option_map (Elem a)
             ((fix go (l : list Node) : option (list Node) :=
                 match l with
                 | [] => None
                 | c :: r =>
                     match rewriteFirstIn p f c with
                     | Some c' => Some (c' :: r)
                     | None => option_map (cons c) (go r)
                     end
                 end) cs)
  end.

Fixpoint rewriteFirstForest (p : Attrs -> bool) (f : list Node -> list Node)
         (l : list Node) : option (list Node) :=
  match l with
  | [] => None
  | c :: r =>
      match rewriteFirstIn p f c with
      | Some c' => Some (c' :: r)
      | None => option_map (cons c) (rewriteFirstForest p f r)
      end
  end.

(** [document.getElementById(i).appendChild(x)], for an element that
    was found. *)
Definition appendChildById (i : string) (x : Node) (d : Document) : Document :=
  match rewriteFirstForest (matches [SelId i]) (fun cs => (cs ++ [x])%list) d with
  | Some d' => d'
  | None => d
  end.

(** [const el = document.getElementById(i); if (el) el.textContent = s] *)
Definition setTextById (i s : string) (d : Document) : Document :=
  match rewriteFirstForest (matches [SelId i]) (fun _ => textNodes s) d with
  | Some d' => d'
  | None => d
  end.

Definition containerId : string := "panels-container".
Definition badgeId : string := "panel-count-badge".

Section PanelWatcher.

(** [extractPanelContent(nativePanel)]: the messages and the draft read
    off a native panel.  It only reads the document.  What it returns
    depends on [String.prototype.trim] and on lengths in UTF-16 code
    units, which the strings used here do not determine, so
    [addPanelToUI] is given for whatever this function returns. *)
Variable extractPanelContent : Node -> list Message * string.

(** [addPanelToUI(nativePanel)].  [customUIRef.root] is the element that
    is in the document; the document holds its current state. *)
Definition addPanelToUI (nativePanel : Node) (st : State) : bool * State :=
  let (g, p) := st in
  match customUIRef g with
  | None => (false, st)
  | Some ui =>
      match getElementById containerId (doc p) with
      | None => (false, st)
      | Some _ =>
          let conversation := extractPanelContent nativePanel in
          let newIndex := panelCount g in
          let count := S newIndex in
          let panel := createPanel (fst conversation) (snd conversation) newIndex [] in
          let d1 := appendChildById containerId (view panel) (doc p) in
          let ui' := mkUI (root ui) (agentHub ui) (uiPanels ui ++ [panel])%list (toolbar ui) in
          let d2 := setTextById badgeId (Js.showNat count) d1 in
          (true, (mkGlobals (panelObserver g) (Some ui') count, withDoc d2 p))
      end
  end.

(** Several panels added one after the other. *)
Definition addPanels (nativePanels : list Node) (st : State) : State :=
  fold_left (fun s nativePanel => snd (addPanelToUI nativePanel s)) nativePanels st.

End PanelWatcher.

End Watcher.

(* ===================================================================== *)
(** ** Vocabulary of the properties of the panel watcher *)
(* ===================================================================== *)

Module WatcherVocabulary.
Import Dom CustomUI Takeover TreeVocabulary.

(** The module's counter agrees with the panels it remembers, and each
    remembered panel carries its position as [data-index]. *)
Definition Indexed (g : Globals) : Prop :=
  exists ui,
    customUIRef g = Some ui /\
    panelCount g = length (uiPanels ui) /\
    map (nodeAttr "data-index") (map view (uiPanels ui)) =
    map (fun k => Some (Js.showNat k)) (seq 0 (length (uiPanels ui))).

(** The element has no element below it. *)
Definition Leaf (n : Node) : Prop := forestElements (childNodes n) = [].

End WatcherVocabulary.

(* ===================================================================== *)
(** ** Counting what is hidden *)
(* ===================================================================== *)

Module CountVocabulary.
Import Dom Vocabulary.

(** Whether [el.style.display] is [none]. *)
Definition displayNone (n : Node) : bool := String.eqb (nodeDisplay n) "none".

(** How many elements of the document have [display: none] inline. *)
Definition hiddenCount (d : Document) : nat :=
  length (filter displayNone (forestElements d)).

(** What one [if (hideElement(el)) hiddenCount++] adds for the first
    match of a selector. *)
Definition firstHides (sel : Selector) (l : list Node) : nat :=
  match hd_error (flat_map (select sel) l) with
  | Some n => if Takeover.hides n then 1 else 0
  | None => 0
  end.

End CountVocabulary.

(* ===================================================================== *)
(** * Properties *)
(* ===================================================================== *)

Unset Implicit Arguments.

Module JsFacts.
Import Js.

Lemma at_in_range {A} (l : list A) (idx : Z) :
  (0 <= idx < Z.of_nat (length l))%Z -> exists x, at_ l idx = Some x.
Proof.
  intros [Hlo Hhi]. unfold at_.
  destruct (Z.ltb_spec idx 0) as [Hneg|_]; [lia|].
  destruct (nth_error l (Z.to_nat idx)) eqn:E; [eauto|].
  apply nth_error_None in E. lia.
Qed.

Lemma at_out_of_range {A} (l : list A) (idx : Z) :
  (idx < 0 \/ Z.of_nat (length l) <= idx)%Z -> at_ l idx = None.
Proof.
  intros H. unfold at_.
  destruct (Z.ltb_spec idx 0) as [Hneg|Hpos]; [reflexivity|].
  apply nth_error_None. lia.
Qed.

Lemma at_some_range {A} (l : list A) (idx : Z) x :
  at_ l idx = Some x ->
  (0 <= idx < Z.of_nat (length l))%Z /\ nth_error l (Z.to_nat idx) = Some x.
Proof.
  unfold at_. destruct (Z.ltb_spec idx 0) as [Hneg|Hpos]; [discriminate|].
  intros E. split; [|exact E].
  assert (Z.to_nat idx < length l) by (apply nth_error_Some; congruence). lia.
Qed.

Lemma mapiFrom_length {A B} (f : A -> nat -> B) l i :
  length (mapiFrom f i l) = length l.
Proof. revert i. induction l as [|x r IH]; intros i; simpl; [|rewrite IH]; reflexivity. Qed.

Lemma mapiFrom_nth {A B} (f : A -> nat -> B) l i k :
  nth_error (mapiFrom f i l) k = option_map (fun x => f x (i + k)) (nth_error l k).
Proof.
  revert i k. induction l as [|x r IH]; intros i k.
  - destruct k; reflexivity.
  - destruct k as [|k]; simpl.
    + rewrite Nat.add_0_r. reflexivity.
    + rewrite IH. replace (S i + k) with (i + S k) by lia. reflexivity.
Qed.

Lemma mapiFrom_map {A B C} (g : B -> C) (f : A -> nat -> B) l i :
  map g (mapiFrom f i l) = mapiFrom (fun x k => g (f x k)) i l.
Proof. revert i. induction l as [|x r IH]; intros i; simpl; [|rewrite IH]; reflexivity. Qed.

Lemma mapiFrom_index_seq {A} (l : list A) i :
  mapiFrom (fun _ k => k) i l = seq i (length l).
Proof. revert i. induction l as [|x r IH]; intros i; simpl; [|rewrite IH]; reflexivity. Qed.

Lemma mapiFrom_ext {A B} (f g : A -> nat -> B) l i :
  (forall x k, f x k = g x k) -> mapiFrom f i l = mapiFrom g i l.
Proof.
  intros E. revert i. induction l as [|x r IH]; intros i; simpl; [|rewrite E, IH]; reflexivity.
Qed.

End JsFacts.

Module LocatorSpec.
Import Dom Locator JsFacts.

(** C7. An index outside the current range of conversation containers
    makes [getPanelState] return, as an ordinary record, the error field
    with the total count; an index inside the range yields the state of
    the container at that position in document order (index, visible,
    inputContent, buttonEnabled) together with the total count.  The
    function is total: no case raises. *)
Theorem getPanelState_contract (idx : Z) (d : Document) :
  let panels := docQuerySelectorAll selChatRoot d in
  ((idx < 0 \/ Z.of_nat (length panels) <= idx)%Z ->
   getPanelState idx d = PanelNotFound (notFoundMessage idx) (length panels)) /\
  ((0 <= idx < Z.of_nat (length panels))%Z ->
   exists panel,
     nth_error panels (Z.to_nat idx) = Some panel /\
     getPanelState idx d =
       PanelFound idx (nodeVisible panel)
                  (inputTextOf (querySelector selEditable panel))
                  (buttonEnabledOf (querySelector selSubmit panel))
                  (length panels)).
Proof.
  intros panels. split; intros Hr; unfold getPanelState; fold panels.
  - rewrite (at_out_of_range panels idx Hr). reflexivity.
  - destruct (at_in_range panels idx Hr) as [panel Hp].
    rewrite Hp. exists panel. split; [|reflexivity].
    apply at_some_range in Hp. tauto.
Qed.

(** The error record of C7 at index 5 of a two-panel document, and the
    state record at index 0. *)
Lemma getPanelState_contract_witness :
  getPanelState 5 Samples.workbench = PanelNotFound "Panel 5 not found" 2 /\
  getPanelState 0 Samples.workbench = PanelFound 0 true "draft" true 2.
Proof.
  destruct (getPanelState_contract 5 Samples.workbench) as [Hout _].
  destruct (getPanelState_contract 0 Samples.workbench) as [_ Hin].
  split.
  - rewrite Hout; [reflexivity | right; vm_compute; discriminate].
  - destruct Hin as [panel [Hnth Hst]]; [vm_compute; split; [discriminate|reflexivity]|].
    rewrite Hst. vm_compute in Hnth. injection Hnth as <-. reflexivity.
Defined.

(** C8. [listPanels] is total; for a document with n conversation
    containers it returns n entries, the entry at position i carries
    index i and describes the i-th container in document order; with no
    container the result is empty. *)
Theorem listPanels_indices (d : Document) :
  let panels := docQuerySelectorAll selChatRoot d in
  length (listPanels d) = length panels /\
  map entryIndex (listPanels d) = seq 0 (length panels) /\
  (forall i, nth_error (listPanels d) i =
             option_map (fun panel => describePanel panel i) (nth_error panels i)) /\
  (panels = [] -> listPanels d = []).
Proof.
  intros panels. unfold listPanels, Js.mapi. fold panels.
  repeat split.
  - apply mapiFrom_length.
  - rewrite mapiFrom_map. simpl. apply mapiFrom_index_seq.
  - intros i. rewrite mapiFrom_nth. reflexivity.
  - intros ->. reflexivity.
Qed.

(** C10. A panel without a submit control is reported with
    [buttonEnabled = false] by both queries. *)
Theorem absent_submit_reported_disabled (d : Document) (i : nat) (panel : Node) :
  nth_error (docQuerySelectorAll selChatRoot d) i = Some panel ->
  querySelector selSubmit panel = None ->
  stateButtonEnabled (getPanelState (Z.of_nat i) d) = Some false /\
  option_map entryButtonEnabled (nth_error (listPanels d) i) = Some false.
Proof.
  intros Hnth Hbtn. split.
  - unfold getPanelState, Js.at_.
    destruct (Z.ltb_spec (Z.of_nat i) 0) as [Hneg|_]; [lia|].
    rewrite Nat2Z.id, Hnth. simpl. rewrite Hbtn. reflexivity.
  - unfold listPanels, Js.mapi. rewrite mapiFrom_nth, Hnth. simpl.
    rewrite Hbtn. reflexivity.
Qed.

Lemma absent_submit_reported_disabled_witness :
  stateButtonEnabled (getPanelState 1 Samples.workbench) = Some false /\
  option_map entryButtonEnabled (nth_error (listPanels Samples.workbench) 1) = Some false.
Proof.
  apply (absent_submit_reported_disabled Samples.workbench 1 Samples.barePanel);
    reflexivity.
Defined.

End LocatorSpec.

Module SessionSpec.
Import Dom Locator Session Vocabulary JsFacts.

Section Laws.
Context {W : Type} (H : Host W).

Lemma poll_unfold (fuel : nat) (idx waitMs start : Z) (prev : string) (s : Sess) :
  poll H (S fuel) idx waitMs start prev s =
  if (clock H (world s) - start <? waitMs)%Z then
    let w1 := roundTrip H (world s) in
    let content := transcriptOf idx (documentOf H w1) in
    let tr1 := (trace s ++ [Read content])%list in
    if negb (String.eqb content prev)
    then poll H fuel idx waitMs start content (mkSess (sleep H 500 w1) tr1)
    else if negb (String.eqb content "")
         then (Some (Stable content), mkSess w1 tr1)
         else poll H fuel idx waitMs start prev (mkSess (sleep H 200 w1) tr1)
  else (Some (TimedOut prev), s).
Proof.
  simpl. unfold bind, dateNow, readTranscript, evaluate, logRead, pause, ret, bind. simpl.
  destruct (clock H (world s) - start <? waitMs)%Z; [|reflexivity].
  destruct (negb (String.eqb (transcriptOf idx (documentOf H (roundTrip H (world s)))) prev));
    [reflexivity|].
  destruct (negb (String.eqb (transcriptOf idx (documentOf H (roundTrip H (world s)))) ""));
    reflexivity.
Qed.



(** A larger budget does not change what the loop returns. *)
Lemma poll_more_fuel (idx waitMs start : Z) (k : nat) :
  forall (fuel : nat) (prev : string) (s s' : Sess) (r : Response),
    poll H fuel idx waitMs start prev s = (Some r, s') ->
    poll H (fuel + k) idx waitMs start prev s = (Some r, s').
Proof.
  induction fuel as [|fuel IH]; intros prev s s' r E; [discriminate|].
  change (S fuel + k) with (S (fuel + k)).
  rewrite poll_unfold in E. rewrite poll_unfold.
  destruct (clock H (world s) - start <? waitMs)%Z; [|exact E].
  cbv zeta in *.
  destruct (negb (String.eqb (transcriptOf idx (documentOf H (roundTrip H (world s)))) prev)).
  - apply IH. exact E.
  - destruct (negb (String.eqb (transcriptOf idx (documentOf H (roundTrip H (world s)))) ""));
      [exact E|].
    apply IH. exact E.
Qed.

(** A response marked stable is never empty. *)
Lemma stable_response_not_empty (idx waitMs start : Z) :
  forall (fuel : nat) (prev : string) (s s' : Sess) (c : string),
    poll H fuel idx waitMs start prev s = (Some (Stable c), s') -> c <> "".
Proof.
  induction fuel as [|fuel IH]; intros prev s s' c E; [discriminate|].
  rewrite poll_unfold in E.
  destruct (clock H (world s) - start <? waitMs)%Z; [|discriminate].
  cbv zeta in E.
  destruct (negb (String.eqb (transcriptOf idx (documentOf H (roundTrip H (world s)))) prev)).
  - apply (IH _ _ _ _ E).
  - destruct (String.eqb_spec (transcriptOf idx (documentOf H (roundTrip H (world s)))) "")
      as [Hempty|Hfull]; cbn [negb] in E.
    + apply (IH _ _ _ _ E).
    + injection E as <- _. exact Hfull.
Qed.





(** C9. The record [spawnCascade] returns holds the number of
    conversation containers seen before the command-entry sequence and
    the number seen after it, [spawned] is true exactly when the second
    exceeds the first, and [newIndex] is 0; between the two counts the
    command-entry keys are sent, in order. *)
Theorem spawnCascade_result (s : Sess) :
  let r := fst (spawnCascade H s) in
  let s' := snd (spawnCascade H s) in
  beforeCount r = countPanels (documentOf H (roundTrip H (world s))) /\
  afterCount r = countPanels (documentOf H (world s')) /\
  (spawned r = true <-> beforeCount r < afterCount r) /\
  newIndex r = 0 /\
  trace s' = (trace s ++ map Sent spawnCommands)%list.
Proof.
  cbv zeta. unfold spawnCascade, commandEntry, bind, evaluate, cdpSend, pause, ret.
  cbn [fst snd world trace beforeCount afterCount spawned newIndex].
  repeat split.
  - apply Nat.ltb_lt.
  - apply Nat.ltb_lt.
  - repeat rewrite <- app_assoc. reflexivity.
Qed.

(** *** send *)

(** When the panel or its compose surface cannot be located, [send]
    returns the error record and nothing is injected. *)
Lemma send_unlocated (idx : Z) (message : string) (options : SendOptions)
      (s : Sess) (e : string) :
  fst (focusInput H idx s) = FocusError e ->
  fst (send H idx message options s) = SendError e /\
  trace (snd (send H idx message options s)) = trace s.
Proof.
  unfold send, bind. destruct (focusInput H idx s) as [fr s1] eqn:Hf. simpl.
  intros ->. simpl. split; [reflexivity|].
  unfold focusInput in Hf.
  destruct (Js.at_ _ idx) as [panel|]; [|inversion Hf; reflexivity].
  destruct (querySelector selEditable panel); [|inversion Hf; reflexivity].
  destruct (activate H idx _). inversion Hf.
Qed.

(** Once panel and compose surface are located, the outcome of [send]
    is decided by the panel state read after typing alone: the focus flag
    that [focusInput] computed is not consulted, and no error record is
    returned. *)
Lemma send_located (idx : Z) (message : string) (options : SendOptions)
      (s : Sess) (focused : bool) (i : Z) :
  fst (focusInput H idx s) = FocusDone focused i ->
  exists state,
    fst (send H idx message options s) =
    if submit options && truthy (stateButtonEnabled state)
    then SendDone message
    else SendSkipped (stateButtonEnabled state) (stateInputContent state).
Proof.
  unfold send, bind. destruct (focusInput H idx s) as [fr s1]. cbn [fst].
  intros ->. cbv beta iota.
  destruct (pause H 200 s1) as [u1 s2].
  destruct ((if clear options then clearInput H else ret tt) s2) as [u2 s3].
  destruct (typeMessage H message s3) as [u3 s4].
  destruct (pause H 200 s4) as [u4 s5].
  destruct (evaluate H (getPanelState idx) s5) as [state s6].
  exists state.
  destruct (submit options && truthy (stateButtonEnabled state)); [|reflexivity].
  destruct (clickSend H idx s6). reflexivity.
Qed.

End Laws.

(** The still host keeps the clock laws. *)
Lemma stillHost_laws (d : Document) (f : bool) : ClockLaws (Samples.stillHost d f).
Proof. constructor; intros; simpl; lia. Qed.

Lemma tickingHost_laws : ClockLaws Samples.tickingHost.
Proof. constructor; intros; simpl; lia. Qed.


(** What that run returns. *)
Example getResponse_ticking_run :
  fst (getResponse Samples.tickingHost 0 2000 Samples.startSess) = Some (TimedOut "1500").
Proof. vm_compute. reflexivity. Qed.

(** A transcript that changes at 100 ms and at 300 ms and then rests:
    it is read at 0, 500 and 1000 ms, and the read at 1000 ms returns it
    as stable. *)
Example getResponse_scripted_run :
  getResponse Samples.scriptedHost 0 10000 Samples.startSess =
  (Some (Stable "c"), mkSess 1000%Z [Read "a"; Read "c"; Read "c"]).
Proof. vm_compute. reflexivity. Qed.



(** C6 at a panel whose compose surface does not take the focus: the
    focus step reports [focused = false], yet the keys are injected and
    the message is submitted. *)
Lemma send_when_focus_fails :
  fst (focusInput (Samples.stillHost Samples.workbench false) 0 Samples.startSess)
  = FocusDone false 0 /\
  fst (send (Samples.stillHost Samples.workbench false) 0 "hi" defaultOptions
            Samples.startSess)
  = SendDone "hi" /\
  trace (snd (send (Samples.stillHost Samples.workbench false) 0 "hi" defaultOptions
                   Samples.startSess))
  = map Sent [ keyDownMod "Meta" 8; keyDownMod "a" 8; keyUp "a"; keyUp "Meta";
               keyDown "Backspace"; keyUp "Backspace"; charEvent "h"; charEvent "i" ].
Proof. repeat split; vm_compute; reflexivity. Qed.

End SessionSpec.

Module DomFacts.
Import Dom Vocabulary.

Lemma select_elements (sel : Selector) (n : Node) :
  filter (nodeMatches sel) (elements n) = select sel n.
Proof.
  induction n as [s|a cs IH] using Node_ind; [reflexivity|].
  cbn [elements select filter nodeMatches].
  assert (Hcs : filter (nodeMatches sel) (flat_map elements cs) = flat_map (select sel) cs).
  { induction IH as [|c r Hc _ IHr]; [reflexivity|].
    cbn [flat_map]. rewrite filter_app, Hc, IHr. reflexivity. }
  rewrite Hcs. destruct (matches sel a); reflexivity.
Qed.

Lemma select_forest (sel : Selector) (l : list Node) :
  filter (nodeMatches sel) (forestElements l) = flat_map (select sel) l.
Proof.
  unfold forestElements. induction l as [|c r IH]; [reflexivity|].
  cbn [flat_map]. rewrite filter_app, select_elements, IH. reflexivity.
Qed.

Lemma querySelectorAll_select (sel : Selector) (n : Node) :
  querySelectorAll sel n = flat_map (select sel) (childNodes n).
Proof. unfold querySelectorAll. apply select_forest. Qed.

Lemma docQuerySelectorAll_select (sel : Selector) (d : Document) :
  docQuerySelectorAll sel d = flat_map (select sel) d.
Proof. unfold docQuerySelectorAll. apply select_forest. Qed.

End DomFacts.

Module CustomUISpec.
Import Dom Extractor CustomUI Vocabulary DomFacts JsFacts.

Lemma select_textNodes (sel : Selector) (s : string) :
  flat_map (select sel) (textNodes s) = [].
Proof. unfold textNodes. destruct (String.eqb s ""); reflexivity. Qed.

Lemma textContent_textNodes (s : string) :
  String.concat "" (map textContent (textNodes s)) = s.
Proof.
  unfold textNodes. destruct (String.eqb_spec s "") as [->|_]; reflexivity.
Qed.

Lemma select_messageBlock (msg : Message) :
  select selConversationArea (messageBlock msg) = [].
Proof.
  unfold messageBlock. cbn [select]. rewrite select_textNodes. reflexivity.
Qed.

Lemma select_conversationBlocks (msgs : list Message) :
  flat_map (select selConversationArea) (conversationBlocks msgs) = [].
Proof.
  destruct msgs as [|m ms]; [reflexivity|].
  unfold conversationBlocks. generalize (m :: ms). intros l.
  induction l as [|x r IH]; [reflexivity|].
  cbn [map flat_map]. rewrite select_messageBlock, IH. reflexivity.
Qed.

Lemma select_createPanel (msgs : list Message) (inputText : string) (index : nat)
      (extracted : list PanelInfo) :
  select selConversationArea (view (createPanel msgs inputText index extracted)) =
  [refConversationArea (createPanel msgs inputText index extracted)].
Proof.
  unfold createPanel. cbn [view refConversationArea].
  pose proof (select_conversationBlocks msgs) as Hb. revert Hb.
  generalize (conversationBlocks msgs) as blocks. intros blocks Hb.
  generalize (Js.showNat index) as s1. intros s1.
  unfold createButton.
  cbn [select flat_map].
  rewrite !select_textNodes, Hb.
  eval_matches. reflexivity.
Qed.

Lemma select_createToolbar (e : Extraction) :
  select selConversationArea (createToolbar e) = [].
Proof.
  unfold createToolbar, createButton.
  generalize (Js.showNat (length (conversations e))) as s1. intros s1.
  cbn [select flat_map].
  rewrite !select_textNodes.
  eval_matches. reflexivity.
Qed.

Lemma select_createAgentHub (e : Extraction) :
  select selConversationArea (createAgentHub e) = [].
Proof. vm_compute. reflexivity. Qed.

Lemma select_views (e : Extraction) (convs : list Conversation) (i : nat) :
  flat_map (select selConversationArea) (map view (Js.mapiFrom (panelOf e) i convs)) =
  map refConversationArea (Js.mapiFrom (panelOf e) i convs).
Proof.
  revert i. induction convs as [|c r IH]; intros i; [reflexivity|].
  cbn [Js.mapiFrom map flat_map]. rewrite IH.
  unfold panelOf at 1. rewrite select_createPanel. reflexivity.
Qed.

Lemma areas_of_views (e : Extraction) (convs : list Conversation) (i : nat) :
  map childNodes (map refConversationArea (Js.mapiFrom (panelOf e) i convs)) =
  map (fun conv => conversationBlocks (messages conv)) convs.
Proof.
  revert i. induction convs as [|c r IH]; intros i; [reflexivity|].
  cbn [Js.mapiFrom map]. rewrite IH. reflexivity.
Qed.

(** The conversation areas found in the tree [createUI] builds hold, in
    order, the blocks of the conversations of the snapshot. *)
Lemma conversation_areas_of_buildUI (e : Extraction) :
  map childNodes (querySelectorAll selConversationArea (root (buildUI e))) =
  map (fun conv => conversationBlocks (messages conv)) (conversations e).
Proof.
  rewrite querySelectorAll_select. unfold buildUI. cbn [root childNodes flat_map].
  rewrite select_createToolbar, select_createAgentHub.
  cbn [select Datatypes.app]. eval_matches. cbn [Datatypes.app]. rewrite app_nil_r.
  destruct (conversations e) as [|c r] eqn:Hc.
  - vm_compute. reflexivity.
  - unfold Js.mapi. rewrite select_views. apply areas_of_views.
Qed.

Lemma messageBlock_erase (m : Message) : messageBlock (eraseMessage m) = messageBlock m.
Proof. reflexivity. Qed.

Lemma conversationBlocks_erase (ms : list Message) :
  conversationBlocks (map eraseMessage ms) = conversationBlocks ms.
Proof.
  destruct ms as [|m r]; [reflexivity|].
  unfold conversationBlocks. cbn [map]. f_equal.
  rewrite map_map. apply map_ext. intros x. apply messageBlock_erase.
Qed.

Lemma panelOf_erase (e : Extraction) (c : Conversation) (i : nat) :
  panelOf (eraseMarkup e) (eraseConversation c) i = panelOf e c i.
Proof.
  unfold panelOf, eraseConversation, eraseMarkup, createPanel.
  cbn [messages inputContent panels Extractor.inputContent].
  rewrite conversationBlocks_erase. reflexivity.
Qed.

Lemma mapiFrom_erase (e : Extraction) (convs : list Conversation) (i : nat) :
  Js.mapiFrom (panelOf (eraseMarkup e)) i (map eraseConversation convs) =
  Js.mapiFrom (panelOf e) i convs.
Proof.
  revert i. induction convs as [|c r IH]; intros i; [reflexivity|].
  cbn [map Js.mapiFrom]. rewrite IH, panelOf_erase. reflexivity.
Qed.

(** What [createUI] builds does not depend on any markup captured
    during extraction. *)
Lemma buildUI_ignores_markup (e : Extraction) : buildUI (eraseMarkup e) = buildUI e.
Proof.
  unfold buildUI, Js.mapi.
  replace (conversations (eraseMarkup e)) with (map eraseConversation (conversations e))
    by reflexivity.
  rewrite mapiFrom_erase.
  assert (Hbar : createToolbar (eraseMarkup e) = createToolbar e).
  { unfold createToolbar, eraseMarkup. cbn [conversations]. rewrite length_map. reflexivity. }
  rewrite Hbar.
  destruct (conversations e); reflexivity.
Qed.

(** C3. For every snapshot, the tree [createUI] returns has one
    conversation area per conversation, in order; the area of a
    conversation with messages holds exactly one block per message, in
    order.  A block is styled by the role of its message and has the
    message text as its text: its children are the text node made by
    assigning [textContent], so it has no element child whatever the
    text contains.  No markup captured during extraction reaches the
    tree: blanking every [html] and [fullHTML] field of the snapshot
    leaves the result unchanged. *)
Theorem createUI_renders_plain_text (e : Extraction) (d : Document) :
  (fst (createUI e d) = Mutate.Returned (buildUI e) \/
   exists m, fst (createUI e d) = Mutate.Thrown m) /\
  map childNodes (querySelectorAll selConversationArea (root (buildUI e))) =
    map (fun conv => conversationBlocks (messages conv)) (conversations e) /\
  (forall m ms, conversationBlocks (m :: ms) = map messageBlock (m :: ms)) /\
  (forall msg,
      childNodes (messageBlock msg) = textNodes (content msg) /\
      forestElements (childNodes (messageBlock msg)) = [] /\
      textContent (messageBlock msg) = content msg /\
      styleGet "background" (nodeStyle (messageBlock msg)) =
        (if String.eqb (role msg) "user"
         then "rgba(0,212,255,0.1)" else "rgba(255,255,255,0.05)") /\
      styleGet "border-left" (nodeStyle (messageBlock msg)) =
        (if String.eqb (role msg) "user"
         then "3px solid #00d4ff" else "3px solid #888")) /\
  buildUI (eraseMarkup e) = buildUI e.
Proof.
  split; [|split; [|split; [|split]]].
  - unfold createUI. destruct (injectStyles d) as [[u|m] d']; simpl; eauto.
  - apply conversation_areas_of_buildUI.
  - reflexivity.
  - intros msg. split; [reflexivity|]. split; [|split; [|split]].
    + cbn [messageBlock childNodes]. unfold textNodes.
      destruct (String.eqb (content msg) ""); reflexivity.
    + cbn [messageBlock textContent]. apply textContent_textNodes.
    + unfold messageBlock. cbn [nodeStyle].
      destruct (String.eqb (role msg) "user"); vm_compute; reflexivity.
    + unfold messageBlock. cbn [nodeStyle].
      destruct (String.eqb (role msg) "user"); vm_compute; reflexivity.
  - apply buildUI_ignores_markup.
Qed.

(** A message whose text is markup is rendered as that text. *)
Example markup_in_message_stays_text :
  childNodes (messageBlock (mkMessage "assistant" "<img src=x onerror=alert(1)>"
                                      "<img src=x onerror=alert(1)>" (inr 0%Z)))
  = [Text "<img src=x onerror=alert(1)>"].
Proof. reflexivity. Qed.

(** The two-message conversation of the round-trip example. *)
Example two_message_round_trip :
  map childNodes
      (querySelectorAll selConversationArea
         (root (buildUI (mkExtraction [] [] []
                  [mkConversation 0 [mkMessage "user" "hi" "<b>hi</b>" (inr 0%Z);
                                     mkMessage "assistant" "hello" "<i>hello</i>" (inr 0%Z)]
                                  "hihello" "<b>hi</b><i>hello</i>" ""] []))))
  = [[messageBlock (mkMessage "user" "hi" "" (inr 0%Z));
      messageBlock (mkMessage "assistant" "hello" "" (inr 0%Z))]].
Proof. rewrite conversation_areas_of_buildUI. reflexivity. Qed.

End CustomUISpec.

Module MutateFacts.
Import Dom Mutate CustomUI Vocabulary DomFacts.

Lemma matchesSimple_style (s : Simple) (a : Attrs) (st : list (string * string)) :
  matchesSimple s (withStyle st a) = matchesSimple s a.
Proof.
  induction s as [t|i|c|n v|sub|s1 IH1 s2 IH2|s1 IH1]; simpl; try reflexivity.
  - rewrite IH1, IH2. reflexivity.
  - rewrite IH1. reflexivity.
Qed.

Lemma matches_style (sel : Selector) (a : Attrs) (st : list (string * string)) :
  matches sel (withStyle st a) = matches sel a.
Proof.
  unfold matches. induction sel as [|s r IH]; [reflexivity|].
  simpl. rewrite matchesSimple_style, IH. reflexivity.
Qed.

Lemma setDisplay_withStyle (v : string) (a : Attrs) :
  setDisplay v a = withStyle (styleSet "display" v (style a)) a.
Proof. reflexivity. Qed.

Lemma matches_setDisplay (sel : Selector) (v : string) (a : Attrs) :
  matches sel (setDisplay v a) = matches sel a.
Proof. rewrite setDisplay_withStyle. apply matches_style. Qed.

Lemma setDisplay_styleOnly (v : string) : StyleOnly (setDisplay v).
Proof. intros a. eexists. apply setDisplay_withStyle. Qed.

Lemma hide_styleOnly : StyleOnly Takeover.hide.
Proof.
  intros a. unfold Takeover.hide. destruct (Takeover.isHidden a).
  - exists (style a). destruct a; reflexivity.
  - apply setDisplay_styleOnly.
Qed.

Lemma shape_attrs (g : Attrs -> Attrs) (a : Attrs) :
  StyleOnly g -> withStyle [] (g a) = withStyle [] a.
Proof. intros Hg. destruct (Hg a) as [st ->]. reflexivity. Qed.

Lemma select_shape_length (sel : Selector) (n : Node) :
  length (select sel (shape n)) = length (select sel n).
Proof.
  induction n as [s|a cs IH] using Node_ind; [reflexivity|].
  cbn [shape select]. rewrite matches_style, !length_app. f_equal.
  - destruct (matches sel a); reflexivity.
  - induction IH as [|c r Hc _ IHr]; [reflexivity|].
    cbn [map flat_map]. rewrite !length_app, Hc, IHr. reflexivity.
Qed.

Lemma count_shape (sel : Selector) (d d' : Document) :
  map shape d' = map shape d -> count sel d' = count sel d.
Proof.
  unfold count. rewrite !docQuerySelectorAll_select.
  revert d'. induction d as [|c r IH]; intros [|c' r'] E; try discriminate; [reflexivity|].
  cbn [map] in E. injection E as Ec Er.
  cbn [flat_map]. rewrite !length_app, (IH r' Er).
  rewrite <- (select_shape_length sel c'), Ec, select_shape_length. reflexivity.
Qed.

Lemma shape_updateWhere (p : Node -> bool) (g : Attrs -> Attrs) (n : Node) :
  StyleOnly g -> shape (updateWhere p g n) = shape n.
Proof.
  intros Hg. induction n as [s|a cs IH] using Node_ind; [reflexivity|].
  cbn [updateWhere shape]. f_equal.
  - destruct (p (Elem a cs)); [apply shape_attrs; exact Hg|reflexivity].
  - rewrite map_map. induction IH as [|c r Hc _ IHr]; [reflexivity|].
    cbn [map]. rewrite Hc, IHr. reflexivity.
Qed.

Lemma shape_updateAll (p : Node -> bool) (g : Attrs -> Attrs) (d : Document) :
  StyleOnly g -> map shape (updateAll p g d) = map shape d.
Proof.
  intros Hg. unfold updateAll. rewrite map_map. apply map_ext.
  intros n. apply shape_updateWhere. exact Hg.
Qed.

Lemma updateFirstIn_children (p : Attrs -> bool) (g : Attrs -> Attrs) (a : Attrs)
      (cs : list Node) :
  updateFirstIn p g (Elem a cs) =
  if p a then Some (Elem (g a) cs)
  else option_map (Elem a) (updateFirstForest p g cs).
Proof.
  cbn [updateFirstIn]. destruct (p a); [reflexivity|]. f_equal.
  induction cs as [|c r IH]; [reflexivity|].
  cbn [updateFirstForest]. destruct (updateFirstIn p g c); [reflexivity|].
  rewrite IH. reflexivity.
Qed.

Lemma shape_updateFirstIn (p : Attrs -> bool) (g : Attrs -> Attrs) (n : Node) :
  StyleOnly g -> forall n', updateFirstIn p g n = Some n' -> shape n' = shape n.
Proof.
  intros Hg. induction n as [s|a cs IH] using Node_ind; intros n' E; [discriminate|].
  rewrite updateFirstIn_children in E. destruct (p a).
  - injection E as <-. cbn [shape]. rewrite (shape_attrs g a Hg). reflexivity.
  - destruct (updateFirstForest p g cs) as [cs'|] eqn:Ecs; [|discriminate].
    injection E as <-. cbn [shape]. f_equal.
    revert cs' Ecs. induction IH as [|c r Hc _ IHr]; intros cs' Ecs; [discriminate|].
    cbn [updateFirstForest] in Ecs.
    destruct (updateFirstIn p g c) as [c'|] eqn:Ec.
    + injection Ecs as <-. cbn [map]. rewrite (Hc c' eq_refl). reflexivity.
    + destruct (updateFirstForest p g r) as [r'|] eqn:Er; [|discriminate].
      injection Ecs as <-. cbn [map]. rewrite (IHr r' eq_refl). reflexivity.
Qed.

Lemma shape_updateFirstForest (p : Attrs -> bool) (g : Attrs -> Attrs) (l l' : list Node) :
  StyleOnly g -> updateFirstForest p g l = Some l' -> map shape l' = map shape l.
Proof.
  intros Hg. revert l'. induction l as [|c r IH]; intros l' E; [discriminate|].
  cbn [updateFirstForest] in E.
  destruct (updateFirstIn p g c) as [c'|] eqn:Ec.
  - injection E as <-. cbn [map]. rewrite (shape_updateFirstIn p g c Hg c' Ec). reflexivity.
  - destruct (updateFirstForest p g r) as [r'|]; [|discriminate].
    injection E as <-. cbn [map]. rewrite (IH r' eq_refl). reflexivity.
Qed.

Lemma shape_updateFirst (sel : Selector) (g : Attrs -> Attrs) (d : Document) :
  StyleOnly g -> map shape (updateFirst sel g d) = map shape d.
Proof.
  intros Hg. unfold updateFirst.
  destruct (updateFirstForest (matches sel) g d) as [d'|] eqn:E; [|reflexivity].
  apply (shape_updateFirstForest _ _ _ _ Hg E).
Qed.

(** Changing inline styles changes no selector's matches. *)
Lemma count_updateAll (sel : Selector) (p : Node -> bool) (g : Attrs -> Attrs) (d : Document) :
  StyleOnly g -> count sel (updateAll p g d) = count sel d.
Proof. intros Hg. apply count_shape, shape_updateAll, Hg. Qed.

Lemma count_updateFirst (sel sel' : Selector) (g : Attrs -> Attrs) (d : Document) :
  StyleOnly g -> count sel (updateFirst sel' g d) = count sel d.
Proof. intros Hg. apply count_shape, shape_updateFirst, Hg. Qed.

(** *** Removing and appending *)

Lemma flat_map_nil {A B} (f : A -> list B) (l : list A) :
  Forall (fun x => f x = []) l -> flat_map f l = [].
Proof.
  induction 1 as [|x r Hx _ IH]; [reflexivity|].
  cbn [flat_map]. rewrite Hx, IH. reflexivity.
Qed.

Lemma flat_map_comp {A B C} (f : B -> list C) (g : A -> list B) (l : list A) :
  flat_map f (flat_map g l) = flat_map (fun x => flat_map f (g x)) l.
Proof.
  induction l as [|x r IH]; [reflexivity|].
  cbn [flat_map]. rewrite flat_map_app, IH. reflexivity.
Qed.

Lemma flat_map_of_map {A B C} (f : B -> list C) (g : A -> B) (l : list A) :
  flat_map f (map g l) = flat_map (fun x => f (g x)) l.
Proof.
  induction l as [|x r IH]; [reflexivity|].
  cbn [map flat_map]. rewrite IH. reflexivity.
Qed.

Lemma select_removeMatching (sel : Selector) (n : Node) :
  flat_map (select sel) (removeMatching sel n) = [].
Proof.
  induction n as [s|a cs IH] using Node_ind; [reflexivity|].
  cbn [removeMatching]. destruct (matches sel a) eqn:Hm; [reflexivity|].
  cbn [flat_map select]. rewrite Hm, app_nil_r. cbn [Datatypes.app].
  rewrite flat_map_comp. apply flat_map_nil. exact IH.
Qed.

(** After [querySelectorAll(sel).forEach(el => el.remove())] nothing
    matches [sel]. *)
Lemma count_removeAll (sel : Selector) (d : Document) : count sel (removeAll sel d) = 0.
Proof.
  unfold count, removeAll. rewrite docQuerySelectorAll_select, flat_map_comp.
  rewrite flat_map_nil; [reflexivity|].
  apply Forall_forall. intros c _. apply select_removeMatching.
Qed.

Lemma appendInFirst_count (sel : Selector) (t : string) (x : Node) (l l' : list Node) :
  appendInFirst t x l = Some l' ->
  length (flat_map (select sel) l') =
  length (flat_map (select sel) l) + length (select sel x).
Proof.
  revert l'. induction l as [|c r IH]; intros l' E; [discriminate|].
  destruct c as [s|a cs]; cbn [appendInFirst] in E.
  - destruct (appendInFirst t x r) as [r'|]; [|discriminate].
    injection E as <-. cbn [flat_map select Datatypes.app]. apply IH. reflexivity.
  - destruct (String.eqb (tag a) t).
    + injection E as <-. cbn [flat_map select].
      rewrite flat_map_app. cbn [flat_map]. rewrite !length_app.
      destruct (matches sel a); cbn [Datatypes.length]; lia.
    + destruct (appendInFirst t x r) as [r'|]; [|discriminate].
      injection E as <-. cbn [flat_map]. rewrite !length_app, (IH r' eq_refl). lia.
Qed.

Lemma onDocumentElement_count (sel : Selector) (t : string) (x : Node) (d d' : Document) :
  onDocumentElement (appendInFirst t x) d = Some d' ->
  count sel d' = count sel d + length (select sel x).
Proof.
  unfold count. rewrite !docQuerySelectorAll_select.
  revert d'. induction d as [|c r IH]; intros d' E; [discriminate|].
  destruct c as [s|a cs]; cbn [onDocumentElement] in E.
  - destruct (onDocumentElement (appendInFirst t x) r) as [r'|]; [|discriminate].
    injection E as <-. cbn [flat_map select Datatypes.app]. apply IH. reflexivity.
  - destruct (appendInFirst t x cs) as [cs'|] eqn:Ecs; [|discriminate].
    injection E as <-. cbn [flat_map select].
    rewrite !length_app, (appendInFirst_count sel t x cs cs' Ecs).
    destruct (matches sel a); cbn [Datatypes.length]; lia.
Qed.

Lemma count_appendToBody (sel : Selector) (x : Node) (d d' : Document) :
  appendToBody x d = Some d' -> count sel d' = count sel d + length (select sel x).
Proof. apply onDocumentElement_count. Qed.

Lemma count_appendToHead (sel : Selector) (x : Node) (d d' : Document) :
  appendToHead x d = Some d' -> count sel d' = count sel d + length (select sel x).
Proof. apply onDocumentElement_count. Qed.

Lemma removeFirstIn_children (p : Attrs -> bool) (a : Attrs) (cs : list Node) :
  removeFirstIn p (Elem a cs) =
  if p a then Some None
  else option_map (fun cs' => Some (Elem a cs')) (removeFirstForest p cs).
Proof.
  cbn [removeFirstIn]. destruct (p a); [reflexivity|]. f_equal.
  induction cs as [|c r IH]; [reflexivity|].
  cbn [removeFirstForest]. destruct (removeFirstIn p c) as [[c'|]|]; try reflexivity.
  rewrite IH. reflexivity.
Qed.

Lemma removedOneOf_from (sel : Selector) (l : list Node) :
  Forall (RemovedOne sel) l -> RemovedOneOf sel l.
Proof.
  unfold RemovedOneOf.
  induction 1 as [|c r Hc _ IH]; [reflexivity|].
  cbn [removeFirstForest flat_map]. unfold RemovedOne in Hc.
  destruct (removeFirstIn (matches sel) c) as [[c'|]|].
  - cbn [flat_map]. rewrite !length_app. lia.
  - rewrite length_app. lia.
  - rewrite Hc. cbn [Datatypes.app].
    destruct (removeFirstForest (matches sel) r) as [r'|]; cbn [option_map].
    + cbn [flat_map]. rewrite Hc. exact IH.
    + exact IH.
Qed.

Lemma removedOne (sel : Selector) (n : Node) : RemovedOne sel n.
Proof.
  induction n as [s|a cs IH] using Node_ind; [reflexivity|].
  unfold RemovedOne. rewrite removeFirstIn_children. cbn [select].
  destruct (matches sel a) eqn:Hm.
  - cbn [Datatypes.app Datatypes.length]. lia.
  - pose proof (removedOneOf_from sel cs IH) as Hcs. unfold RemovedOneOf in Hcs.
    destruct (removeFirstForest (matches sel) cs) as [cs'|]; cbn [option_map Datatypes.app].
    + cbn [select]. rewrite Hm. exact Hcs.
    + exact Hcs.
Qed.

Lemma removedOneOf (sel : Selector) (l : list Node) : RemovedOneOf sel l.
Proof. apply removedOneOf_from, Forall_forall. intros n _. apply removedOne. Qed.

(** Removing the element with a given id leaves none when there was at
    most one. *)
Lemma count_removeById (i : string) (d : Document) :
  count [SelId i] d <= 1 -> count [SelId i] (removeById i d) = 0.
Proof.
  unfold count, removeById. rewrite !docQuerySelectorAll_select.
  pose proof (removedOneOf [SelId i] d) as Hr. unfold RemovedOneOf in Hr.
  destruct (removeFirstForest (matches [SelId i]) d) as [d'|].
  - lia.
  - rewrite Hr. reflexivity.
Qed.

(** *** Clearing the display of the panels *)

Lemma styleGet_styleRemove (prop : string) (st : list (string * string)) :
  styleGet prop (styleRemove prop st) = "".
Proof.
  induction st as [|[p v] r IH]; [reflexivity|].
  cbn [styleRemove filter fst]. destruct (String.eqb p prop) eqn:E; cbn [negb].
  - exact IH.
  - cbn [styleGet]. rewrite E. exact IH.
Qed.

Lemma display_cleared (a : Attrs) : display (setDisplay "" a) = "".
Proof. unfold display, setDisplay, styleSet. cbn. apply styleGet_styleRemove. Qed.

Lemma Forall_flat_map_from {A B} (P : B -> Prop) (f : A -> list B) (l : list A) :
  Forall (fun x => Forall P (f x)) l -> Forall P (flat_map f l).
Proof.
  induction 1 as [|x r Hx _ IH]; [constructor|].
  cbn [flat_map]. apply Forall_app. split; assumption.
Qed.

Lemma shown_after_updateWhere (n : Node) :
  Forall Shown (select selChatRoot (updateWhere Takeover.isChatRoot (setDisplay "") n)).
Proof.
  induction n as [s|a cs IH] using Node_ind; [constructor|].
  cbn [updateWhere select]. apply Forall_app. split.
  - unfold Takeover.isChatRoot. cbn [nodeMatches].
    destruct (matches selChatRoot a) eqn:Hm.
    + rewrite matches_setDisplay, Hm. constructor; [|constructor].
      unfold Shown. cbn [nodeDisplay]. apply display_cleared.
    + rewrite Hm. constructor.
  - rewrite flat_map_of_map. apply Forall_flat_map_from. exact IH.
Qed.

Lemma shown_after_updateAll (d : Document) :
  Forall Shown (docQuerySelectorAll selChatRoot
                  (updateAll Takeover.isChatRoot (setDisplay "") d)).
Proof.
  rewrite docQuerySelectorAll_select. unfold updateAll. rewrite flat_map_of_map.
  apply Forall_flat_map_from, Forall_forall. intros n _. apply shown_after_updateWhere.
Qed.

Lemma shown_updateFirstIn (sel : Selector) (p : Attrs -> bool) (n : Node) :
  forall n', updateFirstIn p (setDisplay "") n = Some n' ->
             Forall Shown (select sel n) -> Forall Shown (select sel n').
Proof.
  induction n as [s|a cs IH] using Node_ind; intros n' E Hn; [discriminate|].
  rewrite updateFirstIn_children in E. cbn [select] in Hn.
  apply Forall_app in Hn. destruct Hn as [Hhead Htail].
  destruct (p a).
  - injection E as <-. cbn [select]. rewrite matches_setDisplay.
    apply Forall_app. split; [|exact Htail].
    destruct (matches sel a); constructor; [|constructor].
    unfold Shown. cbn [nodeDisplay]. apply display_cleared.
  - destruct (updateFirstForest p (setDisplay "") cs) as [cs'|] eqn:Ecs; [|discriminate].
    injection E as <-. cbn [select]. apply Forall_app. split.
    + destruct (matches sel a); [|constructor].
      constructor; [|constructor]. inversion Hhead as [|x l Hx _]. exact Hx.
    + clear Hhead. revert cs' Ecs Htail.
      induction IH as [|c r Hc _ IHr]; intros cs' Ecs Htail; [discriminate|].
      cbn [updateFirstForest] in Ecs. cbn [flat_map] in Htail.
      apply Forall_app in Htail. destruct Htail as [Hc0 Hr0].
      destruct (updateFirstIn p (setDisplay "") c) as [c'|] eqn:Ec.
      * injection Ecs as <-. cbn [flat_map]. apply Forall_app. split; [|exact Hr0].
        apply (Hc c' eq_refl Hc0).
      * destruct (updateFirstForest p (setDisplay "") r) as [r'|] eqn:Er; [|discriminate].
        injection Ecs as <-. cbn [flat_map]. apply Forall_app. split; [exact Hc0|].
        apply (IHr r' eq_refl Hr0).
Qed.

Lemma shown_updateFirst (sel sel' : Selector) (d : Document) :
  Forall Shown (docQuerySelectorAll sel d) ->
  Forall Shown (docQuerySelectorAll sel (updateFirst sel' (setDisplay "") d)).
Proof.
  rewrite !docQuerySelectorAll_select. unfold updateFirst.
  destruct (updateFirstForest (matches sel') (setDisplay "") d) as [d'|] eqn:E;
    [|trivial].
  revert d' E. induction d as [|c r IH]; intros d' E Hd; [discriminate|].
  cbn [updateFirstForest] in E. cbn [flat_map] in Hd.
  apply Forall_app in Hd. destruct Hd as [Hc Hr].
  destruct (updateFirstIn (matches sel') (setDisplay "") c) as [c'|] eqn:Ec.
  - injection E as <-. cbn [flat_map]. apply Forall_app. split; [|exact Hr].
    apply (shown_updateFirstIn sel _ c c' Ec Hc).
  - destruct (updateFirstForest (matches sel') (setDisplay "") r) as [r'|] eqn:Er;
      [|discriminate].
    injection E as <-. cbn [flat_map]. apply Forall_app. split; [exact Hc|].
    apply (IH r' eq_refl Hr).
Qed.

End MutateFacts.

Module TakeoverSpec.
Import Dom Mutate Extractor CustomUI Takeover Controller Vocabulary.
Import DomFacts MutateFacts CustomUISpec.

(** *** The replacement root occurs once in the tree [createUI] builds *)

Lemma hub_conversationBlocks (msgs : list Message) :
  flat_map (select selHubRoot) (conversationBlocks msgs) = [].
Proof.
  destruct msgs as [|m ms]; [reflexivity|].
  unfold conversationBlocks. generalize (m :: ms). intros l.
  induction l as [|x r IH]; [reflexivity|].
  cbn [map flat_map]. rewrite IH. unfold messageBlock. cbn [select].
  rewrite select_textNodes. reflexivity.
Qed.

Lemma hub_createPanel (msgs : list Message) (inputText : string) (index : nat)
      (extracted : list PanelInfo) :
  select selHubRoot (view (createPanel msgs inputText index extracted)) = [].
Proof.
  unfold createPanel. cbn [view].
  pose proof (hub_conversationBlocks msgs) as Hb. revert Hb.
  generalize (conversationBlocks msgs) as blocks. intros blocks Hb.
  generalize (Js.showNat index) as s1. intros s1.
  unfold createButton.
  cbn [select flat_map].
  rewrite !select_textNodes, Hb.
  eval_matches. reflexivity.
Qed.

Lemma hub_views (e : Extraction) (convs : list Conversation) (i : nat) :
  flat_map (select selHubRoot) (map view (Js.mapiFrom (panelOf e) i convs)) = [].
Proof.
  revert i. induction convs as [|c r IH]; intros i; [reflexivity|].
  cbn [Js.mapiFrom map flat_map]. rewrite IH.
  unfold panelOf at 1. rewrite hub_createPanel. reflexivity.
Qed.

Lemma hub_createToolbar (e : Extraction) : select selHubRoot (createToolbar e) = [].
Proof.
  unfold createToolbar, createButton.
  generalize (Js.showNat (length (conversations e))) as s1. intros s1.
  cbn [select flat_map].
  rewrite !select_textNodes.
  eval_matches. reflexivity.
Qed.

Lemma hub_root_once (e : Extraction) :
  length (select selHubRoot (root (buildUI e))) = 1.
Proof.
  unfold buildUI. cbn [root select flat_map].
  rewrite hub_createToolbar.
  replace (select selHubRoot (createAgentHub e)) with (@nil Node)
    by (vm_compute; reflexivity).
  eval_matches.
  destruct (conversations e) as [|c r].
  - vm_compute. reflexivity.
  - unfold Js.mapi. rewrite hub_views. reflexivity.
Qed.

Lemma injectStyles_count (d d' : Document) (o : Outcome unit) :
  injectStyles d = (o, d') -> count selHubRoot d' = count selHubRoot d.
Proof.
  unfold injectStyles. destruct (getElementById hubStyleId d).
  - intros E. injection E as _ <-. reflexivity.
  - destruct (appendToHead _ d) as [d1|] eqn:Eh; intros E; injection E as _ <-;
      [|reflexivity].
    rewrite (count_appendToHead selHubRoot _ d d1 Eh).
    unfold textNodes. vm_compute select. cbn [Datatypes.length]. lia.
Qed.

Lemma hideOriginal_count (sel : Selector) (d : Document) :
  count sel (snd (hideOriginal d)) = count sel d.
Proof.
  unfold hideOriginal. cbn [snd].
  rewrite count_updateAll by apply hide_styleOnly.
  rewrite count_updateFirst by apply hide_styleOnly.
  apply count_updateAll, hide_styleOnly.
Qed.

(** What one mount leaves in the page: the root [ui] brought is the only
    replacement root, provided it holds just one itself. *)
Lemma mount_count (ui : UI) (st st' : State) (u : UI) :
  length (select selHubRoot (root ui)) = 1 ->
  mount ui st = (Returned u, st') ->
  count selHubRoot (doc (snd st')) = 1.
Proof.
  intros Hroot. unfold mount. destruct st as [g p].
  destruct (stopObserver (g, withDoc (removeAll selHubRoot (doc p)) p)) as [g1 p1] eqn:Es.
  assert (Hd : doc p1 = removeAll selHubRoot (doc p)).
  { unfold stopObserver in Es. destruct (panelObserver g); injection Es as _ <-; reflexivity. }
  destruct (appendToBody (root ui) (doc p1)) as [d2|] eqn:Ea; intros E; [|discriminate].
  injection E as _ <-. cbn [snd doc].
  rewrite (count_appendToBody selHubRoot _ _ _ Ea), Hd, count_removeAll, Hroot.
  reflexivity.
Qed.

Lemma destroyOriginalUI_count (sel : Selector) (st st' : State) (o : Outcome nat) :
  destroyOriginalUI st = (o, st') -> count sel (doc (snd st')) = count sel (doc (snd st)).
Proof.
  unfold destroyOriginalUI. destruct st as [g p].
  pose proof (hideOriginal_count sel (doc p)) as Hh.
  destruct (hideOriginal (doc p)) as [hidden d']. cbn [snd] in Hh.
  destruct (panelObserver g).
  - intros E. injection E as _ <-. exact Hh.
  - destruct (hasBody d'); intros E; injection E as _ <-; exact Hh.
Qed.

(** Each successful run of the page side of [mountCustomUI] connects one
    more watcher and leaves every watcher that was connected before; the
    document then has exactly one replacement root. *)
Lemma mountInPage_effect (now : Z) (p p' : Page) (r : MountResult) :
  mountInPage now p = (Returned r, p') ->
  observers p' = (observers p ++ [created p])%list /\
  created p' = S (created p) /\
  count selHubRoot (doc p') = 1.
Proof.
  unfold mountInPage.
  destruct (createUI (extract now (doc p)) (doc p)) as [[ui|m] d1] eqn:Ec; [|discriminate].
  assert (Hui : ui = buildUI (extract now (doc p))).
  { unfold createUI in Ec. destruct (injectStyles (doc p)) as [[u|m] dd];
      [injection Ec as <- _; reflexivity | discriminate]. }
  destruct (mount ui (freshGlobals, withDoc d1 p)) as [[u|m] st2] eqn:Em;
    [|destruct st2; discriminate].
  pose proof (mount_count ui _ st2 u
                ltac:(rewrite Hui; apply hub_root_once) Em) as Hcount.
  assert (Hobs : observers (snd st2) = observers p /\ created (snd st2) = created p /\
                 panelObserver (fst st2) = None).
  { unfold mount, stopObserver in Em. cbn [freshGlobals panelObserver] in Em.
    destruct (appendToBody (root ui) _); [|discriminate].
    injection Em as _ <-. cbn. auto. }
  destruct Hobs as (Ho & Hcr & Hpo).
  destruct (destroyOriginalUI st2) as [[hidden|m] [g3 p3]] eqn:Ed; [|discriminate].
  intros E. injection E as _ <-.
  pose proof (destroyOriginalUI_count selHubRoot st2 _ _ Ed) as Hc3. cbn [snd] in Hc3.
  unfold destroyOriginalUI in Ed. destruct st2 as [g2 p2]. cbn [fst snd] in *.
  destruct (hideOriginal (doc p2)) as [h d']. rewrite Hpo in Ed.
  destruct (hasBody d'); [|discriminate].
  injection Ed as _ _ <-. cbn [observers created doc] in *.
  rewrite Ho, Hcr. repeat split. rewrite Hc3. exact Hcount.
Qed.

(** C2 at the page level: after two successful runs in a row, one
    replacement root, and two watchers more than before. *)
Lemma mountInPage_twice (now now' : Z) (p p1 p2 : Page) (r1 r2 : MountResult) :
  mountInPage now p = (Returned r1, p1) ->
  mountInPage now' p1 = (Returned r2, p2) ->
  count selHubRoot (doc p2) = 1 /\
  observers p2 = (observers p ++ [created p; S (created p)])%list.
Proof.
  intros E1 E2.
  destruct (mountInPage_effect now p p1 r1 E1) as (Ho1 & Hc1 & _).
  destruct (mountInPage_effect now' p1 p2 r2 E2) as (Ho2 & _ & Hn2).
  split; [exact Hn2|]. rewrite Ho2, Ho1, Hc1, <- app_assoc. reflexivity.
Qed.

(** C2 on the sample workbench: mounting twice in a row leaves one
    replacement root and two connected watchers. *)
Lemma mount_twice_leaves_two_watchers :
  let p1 := snd (mountInPage 0 Samples.startPage) in
  let p2 := snd (mountInPage 0 p1) in
  observers Samples.startPage = [] /\
  observers p1 = [0] /\
  observers p2 = [0; 1] /\
  count selHubRoot (doc p2) = 1.
Proof. cbv zeta. repeat split; vm_compute; reflexivity. Qed.

(** The same two mounts through [mountCustomUI]. *)
Lemma mountCustomUI_twice_leaves_two_watchers :
  let '(_, c1, p1) := mountCustomUI 0 Samples.connectedCtl Samples.startPage in
  let '(_, _, p2) := mountCustomUI 0 c1 p1 in
  length (observers p2) = 2 /\ count selHubRoot (doc p2) = 1.
Proof. vm_compute. split; reflexivity. Qed.

(** *** One module instance: mount twice *)

Lemma mountStep_tracked (ui : UI) (st st' : State) (h : nat) :
  Tracked st ->
  mountStep ui st = (Returned h, st') ->
  Tracked st' /\ length (observers (snd st')) = 1.
Proof.
  unfold Tracked, mountStep, mount. destruct st as [g p]. cbn [fst snd].
  intros Ht.
  destruct (stopObserver (g, withDoc (removeAll selHubRoot (doc p)) p)) as [g1 p1] eqn:Es.
  assert (Hs : observers p1 = [] /\ panelObserver g1 = None).
  { unfold stopObserver in Es. destruct (panelObserver g) as [o|] eqn:Eo.
    - injection Es as <- <-. cbn. rewrite Ht. cbn. rewrite Nat.eqb_refl. auto.
    - injection Es as <- <-. cbn. auto. }
  destruct Hs as [Ho Hp].
  destruct (appendToBody (root ui) (doc p1)) as [d2|]; [|discriminate].
  unfold destroyOriginalUI. cbn [doc].
  destruct (hideOriginal d2) as [hidden d3].
  cbn [setCustomUIRef panelObserver]. rewrite Hp.
  destruct (hasBody d3); [|discriminate].
  intros E. injection E as _ <-. cbn. rewrite Ho. auto.
Qed.

Lemma mountStep_count (ui : UI) (st st' : State) (h : nat) :
  length (select selHubRoot (root ui)) = 1 ->
  mountStep ui st = (Returned h, st') ->
  count selHubRoot (doc (snd st')) = 1.
Proof.
  intros Hroot. unfold mountStep.
  destruct (mount ui st) as [[u|m] st1] eqn:Em; [|discriminate].
  intros Ed. rewrite (destroyOriginalUI_count selHubRoot st1 st' _ Ed).
  apply (mount_count ui st st1 u Hroot Em).
Qed.

(** Within one evaluation of custom-ui.js the stop-then-start discipline
    works: mounting twice leaves one replacement root and one watcher. *)
Lemma remount_in_one_instance (ui ui' : UI) (st st1 st2 : State) (h h' : nat) :
  Tracked st ->
  length (select selHubRoot (root ui')) = 1 ->
  mountStep ui st = (Returned h, st1) ->
  mountStep ui' st1 = (Returned h', st2) ->
  length (observers (snd st2)) = 1 /\ count selHubRoot (doc (snd st2)) = 1.
Proof.
  intros Ht Hroot E1 E2.
  destruct (mountStep_tracked ui st st1 h Ht E1) as [Ht1 _].
  destruct (mountStep_tracked ui' st1 st2 h' Ht1 E2) as [_ Hone].
  split; [exact Hone|]. apply (mountStep_count ui' st1 st2 h' Hroot E2).
Qed.

(** [wireHandlers] wires nothing: no element of the replacement tree
    has the properties it looks for. *)
Lemma wireHandlers_nil (e : Extraction) (ui : UI) : wireHandlers e ui = [].
Proof.
  unfold wireHandlers, Js.mapi. generalize 0 as i.
  induction (panels e) as [|x r IH]; intros i; [reflexivity|].
  cbn [Js.mapiFrom concat]. rewrite IH.
  destruct (nth_error (uiPanels ui) i); reflexivity.
Qed.

(** *** restoreUI *)

(** A successful [mountCustomUI] leaves a mounted takeover. *)
Lemma mountCustomUI_mounts (now : Z) (c c1 : Ctl) (p p1 : Page) (r : MountResult) :
  mountCustomUI now c p = (Returned r, c1, p1) -> Mounted c1 p1.
Proof.
  unfold mountCustomUI, Mounted. destruct (connected c) eqn:Hc; [|discriminate].
  cbn [negb]. destruct (mountInPage now p) as [[r'|m] p'] eqn:Em; [|discriminate].
  intros E. injection E as _ <- <-. cbn [connected mountedUI setupEventBridges doc].
  destruct (mountInPage_effect now p p' r' Em) as (_ & _ & Hcount).
  rewrite Hcount. split; [|split]; [reflexivity || exact Hc | discriminate | lia].
Qed.




(** What is left behind there. *)
Example restoreUI_leaves_watcher_and_chrome :
  let p2 := snd (restoreUI Samples.mountedCtl Samples.mountedPage) in
  observers Samples.startPage = [] /\
  observers p2 = [0] /\
  visibility (doc Samples.startPage) = [true; true; true; true] /\
  visibility (doc p2) = [false; false; true; true] /\
  count selHubRoot (doc p2) = 0.
Proof. cbv zeta. repeat split; vm_compute; reflexivity. Qed.

(** The close control's path, [restoreOriginalUI], run by the module
    instance that mounted: it disconnects the watcher and shows the
    auxiliary bar again; the Cascade tab stays hidden there too. *)
Example restoreOriginalUI_on_sample :
  let ui := buildUI (extract 0 Samples.workbench) in
  let st1 := snd (mountStep ui (freshGlobals, Samples.startPage)) in
  let st2 := restoreOriginalUI st1 in
  observers (snd st1) = [0] /\
  observers (snd st2) = [] /\
  visibility (doc (snd st2)) = [false; true; true; true] /\
  count selHubRoot (doc (snd st2)) = 0.
Proof. cbv zeta. repeat split; vm_compute; reflexivity. Qed.

End TakeoverSpec.

(* ===================================================================== *)
(** * Further properties of the code *)
(* ===================================================================== *)

Module LocatorMore.
Import Dom Locator JsFacts.

(** The two queries agree: the entry [listPanels] gives at position [i]
    carries index [i], and [getPanelState(i)] on the same document
    reports the same visibility and button state, the input text of
    which the entry holds the first 50 characters, and as total the
    length of the list. *)
Theorem listPanels_agrees_with_getPanelState (d : Document) (i : nat) (e : PanelEntry) :
  nth_error (listPanels d) i = Some e ->
  entryIndex e = i /\
  exists content,
    getPanelState (Z.of_nat i) d =
      PanelFound (Z.of_nat i) (entryVisible e) content (entryButtonEnabled e)
                 (length (listPanels d)) /\
    entryInputContent e = Js.sliceTo 50 content.
Proof.
  unfold listPanels, Js.mapi. rewrite mapiFrom_nth, mapiFrom_length.
  destruct (nth_error (docQuerySelectorAll selChatRoot d) i) as [panel|] eqn:Hp;
    [|discriminate].
  cbn [option_map]. intros E. injection E as <-. split; [reflexivity|].
  exists (inputTextOf (querySelector selEditable panel)).
  split; [|reflexivity].
  unfold getPanelState, Js.at_.
  destruct (Z.ltb_spec (Z.of_nat i) 0) as [Hneg|_]; [lia|].
  rewrite Nat2Z.id, Hp. reflexivity.
Qed.

Lemma listPanels_agrees_with_getPanelState_witness :
  exists e,
    nth_error (listPanels Samples.workbench) 0 = Some e /\
    entryIndex e = 0 /\
    exists content,
      getPanelState 0 Samples.workbench =
        PanelFound 0 (entryVisible e) content (entryButtonEnabled e)
                   (length (listPanels Samples.workbench)) /\
      entryInputContent e = Js.sliceTo 50 content.
Proof.
  eexists. split; [reflexivity|].
  apply (listPanels_agrees_with_getPanelState Samples.workbench 0). reflexivity.
Defined.

End LocatorMore.

Module SessionMore.
Import Dom Locator Session Vocabulary MoreVocabulary JsFacts SessionSpec.

Section AnyHost.
Context {W : Type} (H : Host W).

Lemma typeMessage_trace (cs : list string) (s : Sess) :
  trace (snd (forEach cs (fun c => bind (cdpSend H (charEvent c)) (fun _ => pause H 15)) s))
  = (trace s ++ map Sent (map charEvent cs))%list.
Proof.
  revert s. induction cs as [|c r IH]; intros s.
  - simpl. rewrite app_nil_r. reflexivity.
  - cbn [forEach]. unfold bind at 1. unfold bind at 1.
    cbn [cdpSend pause]. rewrite IH. cbn [trace map].
    rewrite <- app_assoc. reflexivity.
Qed.

Lemma clearInput_trace (s : Sess) :
  trace (snd (clearInput H s)) = (trace s ++ map Sent clearKeys)%list.
Proof.
  unfold clearInput, bind, cdpSend, pause. cbn [snd trace world].
  repeat rewrite <- app_assoc. reflexivity.
Qed.

Lemma focusInput_trace (idx : Z) (s : Sess) :
  trace (snd (focusInput H idx s)) = trace s.
Proof.
  unfold focusInput.
  destruct (Js.at_ _ idx) as [panel|]; [|reflexivity].
  destruct (querySelector selEditable panel); [|reflexivity].
  destruct (activate H idx _). reflexivity.
Qed.

Lemma clickSend_trace (idx : Z) (s : Sess) :
  trace (snd (clickSend H idx s)) = trace s.
Proof.
  unfold clickSend.
  destruct (match Js.at_ _ idx with Some panel => _ | None => None end); reflexivity.
Qed.

(** Once the panel and its compose surface are located, [send] injects
    exactly these commands, in this order: the select-all and delete keys
    when [clear] is set, then one [char] event per character of the
    message.  Nothing else is sent, whether or not the message is then
    submitted. *)
Theorem send_injects_message (idx : Z) (message : string) (options : SendOptions)
        (s : Sess) (focused : bool) (i : Z) :
  fst (focusInput H idx s) = FocusDone focused i ->
  trace (snd (send H idx message options s)) =
  (trace s ++ map Sent (sendKeys message options))%list.
Proof.
  intros Hf. unfold send, bind.
  pose proof (focusInput_trace idx s) as Ht0.
  destruct (focusInput H idx s) as [fr s1]. cbn [fst snd] in *. subst fr.
  cbv beta iota.
  destruct (pause H 200 s1) as [u1 s2] eqn:E1.
  assert (Ht1 : trace s2 = trace s).
  { unfold pause in E1. injection E1 as _ <-. exact Ht0. }
  pose proof (clearInput_trace s2) as Hc.
  destruct ((if clear options then clearInput H else ret tt) s2) as [u2 s3] eqn:E2.
  assert (Ht2 : trace s3 = (trace s ++ map Sent (if clear options then clearKeys else []))%list).
  { destruct (clear options).
    - rewrite E2 in Hc. cbn [snd] in Hc. rewrite Hc, Ht1. reflexivity.
    - unfold ret in E2. injection E2 as _ <-. simpl. rewrite app_nil_r. exact Ht1. }
  pose proof (typeMessage_trace (Js.chars message) s3) as Hm.
  unfold typeMessage.
  destruct (forEach (Js.chars message) _ s3) as [u3 s4]. cbn [snd] in Hm.
  destruct (pause H 200 s4) as [u4 s5] eqn:E4.
  assert (Ht4 : trace s5 = trace s4) by (unfold pause in E4; injection E4 as _ <-; reflexivity).
  destruct (evaluate H (getPanelState idx) s5) as [state s6] eqn:E5.
  assert (Ht5 : trace s6 = trace s5) by (unfold evaluate in E5; injection E5 as _ <-; reflexivity).
  assert (Hall : trace s6 = (trace s ++ map Sent (sendKeys message options))%list).
  { rewrite Ht5, Ht4, Hm, Ht2. unfold sendKeys. rewrite map_app, app_assoc. reflexivity. }
  destruct (submit options && truthy (stateButtonEnabled state)).
  - pose proof (clickSend_trace idx s6) as Hk.
    destruct (clickSend H idx s6) as [u6 s7]. cbn [snd ret] in *. rewrite Hk. exact Hall.
  - exact Hall.
Qed.

(** [send] reports [sent: true] only when submission was asked for and
    the panel and its compose surface were located; its message is then
    the one passed in. *)
Theorem send_sent_only_when_asked (idx : Z) (message : string) (options : SendOptions)
        (s : Sess) :
  sentFlag (fst (send H idx message options s)) = true ->
  submit options = true /\
  fst (send H idx message options s) = SendDone message /\
  exists focused i, fst (focusInput H idx s) = FocusDone focused i.
Proof.
  destruct (fst (focusInput H idx s)) as [e|focused i] eqn:Hf.
  - destruct (send_unlocated H idx message options s e Hf) as [-> _]. discriminate.
  - destruct (send_located H idx message options s focused i Hf) as [state ->].
    destruct (submit options); cbn [andb].
    + destruct (truthy (stateButtonEnabled state)); [|discriminate].
      intros _. eauto.
    + discriminate.
Qed.

(** A wait bound that is zero or negative makes [getResponse] return at
    once, tagged as timed out with the empty text: nothing is read and
    no time is spent. *)
Theorem getResponse_without_wait (idx waitMs : Z) (s : Sess) :
  (waitMs <= 0)%Z ->
  getResponse H idx waitMs s = (Some (TimedOut ""), s).
Proof.
  intros Hw. unfold getResponse, bind, dateNow, pollBudget.
  replace (Z.to_nat (waitMs / 200) + 2) with (S (S (Z.to_nat (waitMs / 200)))) by lia.
  rewrite poll_unfold.
  destruct (Z.ltb_spec (clock H (world s) - clock H (world s)) waitMs); [lia|reflexivity].
Qed.

Lemma transcriptOf_out_of_range (idx : Z) (d : Document) :
  (idx < 0 \/ Z.of_nat (countPanels d) <= idx)%Z -> transcriptOf idx d = "".
Proof.
  intros Hr. unfold transcriptOf. unfold countPanels in Hr.
  rewrite (at_out_of_range _ idx Hr). reflexivity.
Qed.

Lemma poll_silent (laws : ClockLaws H) (idx waitMs start : Z) :
  (forall w, transcriptOf idx (documentOf H w) = "") ->
  forall (fuel : nat) (s : Sess),
    (1 <= fuel)%nat ->
    (waitMs - (clock H (world s) - start) <= 200 * (Z.of_nat fuel - 1))%Z ->
    exists s', poll H fuel idx waitMs start "" s = (Some (TimedOut ""), s').
Proof.
  intros Hsilent. induction fuel as [|fuel IH]; intros s Hfuel Htime; [lia|].
  rewrite poll_unfold.
  destruct (Z.ltb_spec (clock H (world s) - start) waitMs) as [Hin|Hout]; [|eauto].
  cbv zeta. rewrite Hsilent. cbn [String.eqb negb].
  pose proof (roundTrip_mono laws (world s)) as Hrt.
  pose proof (@sleep_elapses _ _ laws 200%Z (roundTrip H (world s)) ltac:(lia)) as Hsl.
  apply IH; cbn [world]; lia.
Qed.

(** Asking for the response of a panel that does not exist is no error:
    when the index stays out of range for the whole wait, [getResponse]
    returns the empty text tagged as timed out. *)
Theorem getResponse_missing_panel (laws : ClockLaws H) (idx waitMs : Z) (s : Sess) :
  (forall w, (idx < 0 \/ Z.of_nat (countPanels (documentOf H w)) <= idx)%Z) ->
  exists s', getResponse H idx waitMs s = (Some (TimedOut ""), s').
Proof.
  intros Hout. unfold getResponse, bind, dateNow.
  apply (poll_silent laws).
  - intros w. apply transcriptOf_out_of_range, Hout.
  - unfold pollBudget. lia.
  - unfold pollBudget.
    destruct (Z.le_gt_cases 0 waitMs) as [Hpos|Hneg]; [|lia].
    pose proof (Z.mod_pos_bound waitMs 200 ltac:(lia)).
    pose proof (Z.div_mod waitMs 200 ltac:(lia)).
    pose proof (Z.div_pos waitMs 200 Hpos ltac:(lia)).
    rewrite Nat2Z.inj_add, Z2Nat.id by lia. lia.
Qed.

End AnyHost.

Lemma send_injects_message_witness :
  trace (snd (send (Samples.stillHost Samples.workbench true) 0 "hi" defaultOptions
                   Samples.startSess)) =
  (trace Samples.startSess ++ map Sent (sendKeys "hi" defaultOptions))%list.
Proof.
  apply (send_injects_message (Samples.stillHost Samples.workbench true) 0 "hi"
           defaultOptions Samples.startSess true 0).
  reflexivity.
Defined.

Lemma send_sent_only_when_asked_witness :
  submit defaultOptions = true /\
  fst (send (Samples.stillHost Samples.workbench true) 0 "hi" defaultOptions
            Samples.startSess) = SendDone "hi" /\
  exists focused i,
    fst (focusInput (Samples.stillHost Samples.workbench true) 0 Samples.startSess)
    = FocusDone focused i.
Proof.
  apply (send_sent_only_when_asked (Samples.stillHost Samples.workbench true) 0 "hi"
           defaultOptions Samples.startSess).
  vm_compute. reflexivity.
Defined.

Lemma getResponse_without_wait_witness :
  getResponse Samples.tickingHost 0 0 Samples.startSess =
  (Some (TimedOut ""), Samples.startSess).
Proof.
  apply (getResponse_without_wait Samples.tickingHost 0 0 Samples.startSess). lia.
Defined.

Lemma getResponse_missing_panel_witness :
  exists s',
    getResponse (Samples.stillHost Samples.workbench true) 7 1000 Samples.startSess
    = (Some (TimedOut ""), s').
Proof.
  apply (getResponse_missing_panel (Samples.stillHost Samples.workbench true)
           (stillHost_laws Samples.workbench true) 7 1000 Samples.startSess).
  intros w. right. vm_compute. discriminate.
Defined.

End SessionMore.

Module ControllerMore.
Import Dom Mutate Extractor CustomUI Takeover Controller Lifecycle Vocabulary.
Import DomFacts MutateFacts CustomUISpec TakeoverSpec JsFacts.

Lemma getElementById_found (i : string) (d : Document) :
  1 <= count [SelId i] d -> exists n, getElementById i d = Some n.
Proof.
  unfold count, getElementById, docQuerySelector.
  destruct (docQuerySelectorAll [SelId i] d) as [|n r]; cbn [Datatypes.length hd_error].
  - lia.
  - eauto.
Qed.

Lemma extract_lengths (now : Z) (d : Document) :
  length (panels (extract now d)) = count selChatRoot d /\
  length (conversations (extract now d)) = count selChatRoot d.
Proof.
  unfold extract, count.
  destruct (docQuerySelectorAll selChatRoot d) as [|x r] eqn:E; [split; reflexivity|].
  cbn [panels conversations]. unfold Js.mapi. rewrite !mapiFrom_length. split; reflexivity.
Qed.

Lemma injectStyles_count_any (sel : Selector) (d d' : Document) (o : Outcome unit) :
  matches sel (withId hubStyleId (newElement "style")) = false ->
  injectStyles d = (o, d') -> count sel d' = count sel d.
Proof.
  intros Hno. unfold injectStyles. destruct (getElementById hubStyleId d).
  - intros E. injection E as _ <-. reflexivity.
  - destruct (appendToHead _ d) as [d1|] eqn:Eh; intros E; injection E as _ <-;
      [|reflexivity].
    rewrite (count_appendToHead sel _ d d1 Eh).
    cbn [select]. rewrite Hno, select_textNodes. cbn [Datatypes.length Datatypes.app]. lia.
Qed.

(** What a successful [mountCustomUI] reports and records: the
    replacement root is in the document ([ui.mounted] is true), the
    numbers of panels and of conversations extracted both equal the
    number of conversation containers the document had, no handler was
    wired, and the result is kept as the mount record. *)
Theorem mountCustomUI_result (now : Z) (c c' : Ctl) (p p' : Page) (r : MountResult) :
  mountCustomUI now c p = (Returned r, c', p') ->
  uiMounted r = true /\
  panelsExtracted r = count selChatRoot (doc p) /\
  conversationsExtracted r = count selChatRoot (doc p) /\
  wired r = 0 /\
  mountedUI c' = Some r /\
  connected c' = true.
Proof.
  intros E.
  pose proof (mountCustomUI_mounts now c c' p p' r E) as (Hconn & _ & _).
  unfold mountCustomUI in E. destruct (connected c); [|discriminate].
  cbn [negb] in E.
  destruct (mountInPage now p) as [[r0|m] p0] eqn:Em; [|discriminate].
  injection E as -> <- <-.
  destruct (mountInPage_effect now p p0 r Em) as (_ & _ & Hone).
  unfold mountInPage in Em.
  destruct (createUI (extract now (doc p)) (doc p)) as [[ui|m] d1]; [|discriminate].
  destruct (mount ui (freshGlobals, withDoc d1 p)) as [[u|m] st2];
    [|destruct st2; discriminate].
  destruct (destroyOriginalUI st2) as [[hidden|m] [g3 p3]]; [|discriminate].
  injection Em as <- <-. cbn [uiMounted panelsExtracted conversationsExtracted wired].
  destruct (extract_lengths now (doc p)) as [Hp Hc].
  destruct (getElementById_found "cascade-hub-ui" (doc p3)) as [n Hn].
  { change [SelId "cascade-hub-ui"] with selHubRoot. lia. }
  rewrite Hn, Hp, Hc, wireHandlers_nil. repeat split; reflexivity.
Qed.

Lemma mountCustomUI_result_witness :
  exists r c' p',
    mountCustomUI 0 Samples.connectedCtl Samples.startPage = (Returned r, c', p') /\
    uiMounted r = true /\
    panelsExtracted r = count selChatRoot (doc Samples.startPage) /\
    conversationsExtracted r = count selChatRoot (doc Samples.startPage) /\
    wired r = 0 /\
    mountedUI c' = Some r /\
    connected c' = true.
Proof.
  eexists. eexists. eexists. split; [vm_compute; reflexivity|].
  eapply (mountCustomUI_result 0 Samples.connectedCtl _ Samples.startPage).
  vm_compute. reflexivity.
Defined.

(** After any call of [restoreUI], successful or not, a further call is
    refused with "UI not mounted" and changes neither the controller nor
    the page. *)
Theorem restoreUI_twice (c : Ctl) (p : Page) :
  let '(_, c1, p1) := restoreUI c p in
  restoreUI c1 p1 = (NotRestored "UI not mounted", c1, p1).
Proof.
  unfold restoreUI.
  destruct (connected c) eqn:Hc; destruct (mountedUI c) eqn:Hm;
    cbn [connected mountedUI]; try rewrite Hc; try rewrite Hm; reflexivity.
Qed.

(** [disconnect] leaves the mount record in place: [getMountStatus]
    still returns the result of the last mount, while [restoreUI] is
    from then on refused and leaves the page, replacement root included,
    as it is. *)
Theorem disconnect_keeps_mount_record (c : Ctl) (p : Page) :
  getMountStatus (disconnect c) = getMountStatus c /\
  restoreUI (disconnect c) p = (NotRestored "UI not mounted", disconnect c, p) /\
  disconnect (disconnect c) = disconnect c.
Proof.
  unfold getMountStatus, disconnect, restoreUI.
  destruct (connected c) eqn:Hc; cbn [connected mountedUI]; try rewrite Hc;
    repeat split; reflexivity.
Qed.

End ControllerMore.

Module ExtractorMore.
Import Dom Extractor Vocabulary DomFacts JsFacts.

Lemma mapi_nth {A B} (f : A -> nat -> B) (l : list A) (i : nat) :
  nth_error (Js.mapi f l) i = option_map (fun x => f x i) (nth_error l i).
Proof. unfold Js.mapi. rewrite mapiFrom_nth. reflexivity. Qed.

Lemma extract_panel_elements (now : Z) (d : Document) :
  map element (panels (extract now d)) = docQuerySelectorAll selChatRoot d.
Proof.
  unfold extract. destruct (docQuerySelectorAll selChatRoot d) as [|x r]; [reflexivity|].
  cbv beta iota. cbn [panels]. generalize (x :: r). intros found.
  unfold Js.mapi. generalize 0. induction found as [|z u IH]; intros k; [reflexivity|].
  cbn [Js.mapiFrom map]. rewrite IH. reflexivity.
Qed.

Lemma extract_conversation_count (now : Z) (d : Document) :
  length (conversations (extract now d)) = length (docQuerySelectorAll selChatRoot d).
Proof.
  unfold extract. destruct (docQuerySelectorAll selChatRoot d) as [|x r]; [reflexivity|].
  cbv beta iota. cbn [conversations]. unfold Js.mapi. apply mapiFrom_length.
Qed.

(** The snapshot [extract] returns is index-aligned with the document:
    it has one panel descriptor and one conversation per conversation
    container, in document order, each carrying its position as index;
    descriptor [i] refers to container [i], and conversation [i] holds
    the text of that descriptor's compose surface and transcript
    surface.  With no container the snapshot is empty: nothing else of
    the document is recorded either. *)
Theorem extract_aligned (now : Z) (d : Document) :
  let found := docQuerySelectorAll selChatRoot d in
  let e := extract now d in
  map element (panels e) = found /\
  map panelIndex (panels e) = seq 0 (length found) /\
  map convIndex (conversations e) = seq 0 (length found) /\
  (forall i pinfo conv,
      nth_error (panels e) i = Some pinfo ->
      nth_error (conversations e) i = Some conv ->
      inputContent conv = optText (input pinfo) /\
      fullText conv = optText (scrollArea pinfo) /\
      fullHTML conv = optMarkup (scrollArea pinfo)) /\
  (found = [] -> e = emptyExtraction).
Proof.
  cbv zeta. unfold extract.
  destruct (docQuerySelectorAll selChatRoot d) as [|x r].
  - split; [reflexivity|]. split; [reflexivity|]. split; [reflexivity|].
    split; [|reflexivity]. intros [|i] pinfo conv Hi; discriminate.
  - cbv beta iota. cbn [panels conversations].
    split; [|split; [|split; [|split; [|discriminate]]]]; generalize (x :: r); intros found.
    + unfold Js.mapi. generalize 0. induction found as [|z u IH]; intros k; [reflexivity|].
      cbn [Js.mapiFrom map]. rewrite IH. reflexivity.
    + unfold Js.mapi. rewrite mapiFrom_map. cbn [panelInfoOf panelIndex].
      apply mapiFrom_index_seq.
    + unfold Js.mapi. rewrite mapiFrom_map. cbn [conversationOf convIndex].
      apply mapiFrom_index_seq.
    + intros i pinfo conv. rewrite !mapi_nth.
      destruct (nth_error found i) as [panel|]; [|discriminate].
      cbn [option_map]. intros Hi Hc. injection Hi as <-. injection Hc as <-.
      repeat split; reflexivity.
Qed.

(** Every message [extract] records has the role "user" or "assistant",
    and its timestamp is never an empty string: it is the element's own
    non-empty [data-timestamp], or else a reading of the clock. *)
Theorem extract_message_roles (now : Z) (d : Document) (conv : Conversation) (m : Message) :
  In conv (conversations (extract now d)) ->
  In m (messages conv) ->
  (role m = "user" \/ role m = "assistant") /\
  ((exists t, timestamp m = inl t /\ t <> "") \/ (exists z, timestamp m = inr z)).
Proof.
  unfold extract.
  destruct (docQuerySelectorAll selChatRoot d) as [|x r]; [intros []|].
  cbn [conversations]. unfold Js.mapi. generalize 0. generalize (x :: r). intros found.
  induction found as [|p0 rest IH]; intros k; [intros []|].
  cbn [Js.mapiFrom]. intros [<-|Hin]; [|apply (IH _ Hin)].
  cbn [conversationOf messages]. rewrite in_map_iff. intros [el [<- _]].
  unfold messageOf. cbn [role timestamp]. split.
  - match goal with |- context [if ?b then "user" else "assistant"] => destruct b end; auto.
  - destruct el as [s|a cs]; [eauto|].
    destruct (attrGet "data-timestamp" (attributes a)) as [t|]; [|eauto].
    destruct (String.eqb_spec t ""); [eauto|]. left. eauto.
Qed.

Lemma extract_message_roles_witness :
  ("user" = "user" \/ "user" = "assistant") /\
  ((exists t, @inr string Z 7%Z = inl t /\ t <> "") \/ (exists z, @inr string Z 7%Z = inr z)).
Proof.
  apply (extract_message_roles 7 Samples.workbench
           (conversationOf 7 Samples.firstPanel 0)
           (mkMessage "user" "hi" "hi" (inr 7%Z))).
  - vm_compute. left. reflexivity.
  - vm_compute. left. reflexivity.
Defined.

End ExtractorMore.

Module CustomUIMore.
Import Dom Mutate Extractor CustomUI Vocabulary TreeVocabulary.
Import DomFacts JsFacts CustomUISpec MutateFacts.

(** A selector that does not match a bare [div] finds nothing among the
    message blocks of a conversation area. *)
Lemma blocks_without (sel : Selector) (msgs : list Message) :
  matches sel (newElement "div") = false ->
  flat_map (select sel) (conversationBlocks msgs) = [].
Proof.
  intros plain.
  assert (Hs : forall st s,
             select sel (Elem (withStyle st (newElement "div")) (textNodes s)) = []).
  { intros st s. cbn [select]. rewrite matches_style, plain, select_textNodes. reflexivity. }
  destruct msgs as [|m ms].
  - cbn [conversationBlocks flat_map]. unfold emptyNotice. rewrite Hs. reflexivity.
  - unfold conversationBlocks. generalize (m :: ms). intros l.
    induction l as [|x r IH]; [reflexivity|].
    cbn [map flat_map]. rewrite IH. unfold messageBlock. rewrite Hs. reflexivity.
Qed.

Lemma panels_createPanel (msgs : list Message) (inputText : string) (index : nat)
      (extracted : list PanelInfo) :
  select selCascadePanel (view (createPanel msgs inputText index extracted)) =
  [view (createPanel msgs inputText index extracted)].
Proof.
  unfold createPanel. cbn [view].
  pose proof (blocks_without selCascadePanel msgs eq_refl) as Hb. revert Hb.
  generalize (conversationBlocks msgs) as blocks. intros blocks Hb.
  generalize (Js.showNat index) as s1. intros s1.
  unfold createButton.
  cbn [select flat_map].
  rewrite !select_textNodes, Hb.
  eval_matches. reflexivity.
Qed.

Lemma inputs_createPanel (msgs : list Message) (inputText : string) (index : nat)
      (extracted : list PanelInfo) :
  select selCascadeInput (view (createPanel msgs inputText index extracted)) =
  [refInput (createPanel msgs inputText index extracted)].
Proof.
  unfold createPanel. cbn [view refInput].
  pose proof (blocks_without selCascadeInput msgs eq_refl) as Hb. revert Hb.
  generalize (conversationBlocks msgs) as blocks. intros blocks Hb.
  generalize (Js.showNat index) as s1. intros s1.
  unfold createButton.
  cbn [select flat_map].
  rewrite !select_textNodes, Hb.
  eval_matches. reflexivity.
Qed.

Lemma badge_createPanel (msgs : list Message) (inputText : string) (index : nat)
      (extracted : list PanelInfo) :
  select selBadge (view (createPanel msgs inputText index extracted)) = [].
Proof.
  unfold createPanel. cbn [view].
  pose proof (blocks_without selBadge msgs eq_refl) as Hb. revert Hb.
  generalize (conversationBlocks msgs) as blocks. intros blocks Hb.
  generalize (Js.showNat index) as s1. intros s1.
  unfold createButton.
  cbn [select flat_map].
  rewrite !select_textNodes, Hb.
  eval_matches. reflexivity.
Qed.

Lemma panels_views (e : Extraction) (convs : list Conversation) (i : nat) :
  flat_map (select selCascadePanel) (map view (Js.mapiFrom (panelOf e) i convs)) =
  map view (Js.mapiFrom (panelOf e) i convs).
Proof.
  revert i. induction convs as [|c r IH]; intros i; [reflexivity|].
  cbn [Js.mapiFrom map flat_map]. rewrite IH.
  unfold panelOf at 1. rewrite panels_createPanel. reflexivity.
Qed.

Lemma inputs_views (e : Extraction) (convs : list Conversation) (i : nat) :
  flat_map (select selCascadeInput) (map view (Js.mapiFrom (panelOf e) i convs)) =
  map refInput (Js.mapiFrom (panelOf e) i convs).
Proof.
  revert i. induction convs as [|c r IH]; intros i; [reflexivity|].
  cbn [Js.mapiFrom map flat_map]. rewrite IH.
  unfold panelOf at 1. rewrite inputs_createPanel. reflexivity.
Qed.

Lemma badge_views (e : Extraction) (convs : list Conversation) (i : nat) :
  flat_map (select selBadge) (map view (Js.mapiFrom (panelOf e) i convs)) = [].
Proof.
  revert i. induction convs as [|c r IH]; intros i; [reflexivity|].
  cbn [Js.mapiFrom map flat_map]. rewrite IH.
  unfold panelOf at 1. rewrite badge_createPanel. reflexivity.
Qed.

Lemma panels_createToolbar (e : Extraction) : select selCascadePanel (createToolbar e) = [].
Proof.
  unfold createToolbar, createButton.
  generalize (Js.showNat (length (conversations e))) as s1. intros s1.
  cbn [select flat_map]. rewrite !select_textNodes. eval_matches. reflexivity.
Qed.

Lemma inputs_createToolbar (e : Extraction) : select selCascadeInput (createToolbar e) = [].
Proof.
  unfold createToolbar, createButton.
  generalize (Js.showNat (length (conversations e))) as s1. intros s1.
  cbn [select flat_map]. rewrite !select_textNodes. eval_matches. reflexivity.
Qed.

Lemma badge_createToolbar (e : Extraction) :
  map textContent (select selBadge (createToolbar e)) =
  [Js.showNat (length (conversations e))].
Proof.
  unfold createToolbar, createButton.
  generalize (Js.showNat (length (conversations e))) as s1. intros s1.
  cbn [select flat_map]. rewrite !select_textNodes. eval_matches.
  cbn [Datatypes.app map textContent]. rewrite textContent_textNodes. reflexivity.
Qed.

Lemma views_data_index (e : Extraction) (convs : list Conversation) (i : nat) :
  map (nodeAttr "data-index") (map view (Js.mapiFrom (panelOf e) i convs)) =
  map (fun k => Some (Js.showNat k)) (seq i (length convs)).
Proof.
  revert i. induction convs as [|c r IH]; intros i; [reflexivity|].
  cbn [Js.mapiFrom map Datatypes.length seq]. rewrite IH. reflexivity.
Qed.

Lemma inputs_text (e : Extraction) (convs : list Conversation) (i : nat) :
  map textContent (map refInput (Js.mapiFrom (panelOf e) i convs)) =
  map inputContent convs.
Proof.
  revert i. induction convs as [|c r IH]; intros i; [reflexivity|].
  cbn [Js.mapiFrom map]. rewrite IH. f_equal.
  unfold panelOf, createPanel. cbn [refInput textContent].
  apply textContent_textNodes.
Qed.

Lemma inputs_panel_index (e : Extraction) (convs : list Conversation) (i : nat) :
  map (nodeAttr "data-panel-index") (map refInput (Js.mapiFrom (panelOf e) i convs)) =
  map (fun k => Some (Js.showNat k)) (seq i (length convs)).
Proof.
  revert i. induction convs as [|c r IH]; intros i; [reflexivity|].
  cbn [Js.mapiFrom map Datatypes.length seq]. rewrite IH. reflexivity.
Qed.

(** The tree [createUI] builds has one sub-panel per conversation of the
    snapshot, in order: the elements of class [cascade-panel] under the
    root are exactly the panels the returned object lists, panel [i]
    carries [data-index] [i], and the text of the one element with id
    [panel-count-badge] is that number of panels.  With no conversation
    there is no sub-panel and the panels container holds the placeholder
    alone. *)
Theorem buildUI_panels (e : Extraction) :
  let ui := buildUI e in
  querySelectorAll selCascadePanel (root ui) = map view (uiPanels ui) /\
  length (uiPanels ui) = length (conversations e) /\
  map (nodeAttr "data-index") (map view (uiPanels ui)) =
    map (fun k => Some (Js.showNat k)) (seq 0 (length (conversations e))) /\
  map textContent (querySelectorAll selBadge (root ui)) =
    [Js.showNat (length (querySelectorAll selCascadePanel (root ui)))] /\
  (conversations e = [] ->
   map childNodes (querySelectorAll selContainer (root ui)) = [[placeholder]]).
Proof.
  cbv zeta.
  assert (Hp : querySelectorAll selCascadePanel (root (buildUI e)) =
               map view (uiPanels (buildUI e))).
  { rewrite querySelectorAll_select. unfold buildUI. cbn [root uiPanels childNodes flat_map].
    rewrite panels_createToolbar.
    replace (select selCascadePanel (createAgentHub e)) with (@nil Node)
      by (vm_compute; reflexivity).
    cbn [select Datatypes.app]. eval_matches. cbn [Datatypes.app]. rewrite app_nil_r.
    destruct (conversations e) as [|c r]; [reflexivity|].
    unfold Js.mapi. apply panels_views. }
  assert (Hl : length (uiPanels (buildUI e)) = length (conversations e)).
  { unfold buildUI. cbn [uiPanels]. unfold Js.mapi. apply mapiFrom_length. }
  split; [exact Hp|]. split; [exact Hl|]. split; [|split].
  - unfold buildUI. cbn [uiPanels]. unfold Js.mapi. apply views_data_index.
  - rewrite Hp, length_map, Hl.
    rewrite querySelectorAll_select. unfold buildUI. cbn [root childNodes flat_map].
    replace (select selBadge (createAgentHub e)) with (@nil Node)
      by (vm_compute; reflexivity).
    cbn [select Datatypes.app]. eval_matches. cbn [Datatypes.app]. rewrite app_nil_r.
    rewrite map_app, badge_createToolbar.
    destruct (conversations e) as [|c r]; [reflexivity|].
    unfold Js.mapi. rewrite badge_views. reflexivity.
  - intros He. rewrite querySelectorAll_select. unfold buildUI, createToolbar.
    rewrite He. vm_compute. reflexivity.
Qed.

(** Each sub-panel of the tree [createUI] builds has one compose surface
    of class [cascade-input]; in order they are the inputs the returned
    panels refer to, surface [i] carries [data-panel-index] [i], and its
    text is the draft the snapshot recorded for conversation [i]. *)
Theorem buildUI_inputs_seeded (e : Extraction) :
  let ui := buildUI e in
  let inputs := querySelectorAll selCascadeInput (root ui) in
  inputs = map refInput (uiPanels ui) /\
  map textContent inputs = map inputContent (conversations e) /\
  map (nodeAttr "data-panel-index") inputs =
    map (fun k => Some (Js.showNat k)) (seq 0 (length (conversations e))) /\
  map (nodeAttr "contenteditable") inputs =
    map (fun _ => Some "true") (conversations e).
Proof.
  cbv zeta.
  assert (Hp : querySelectorAll selCascadeInput (root (buildUI e)) =
               map refInput (uiPanels (buildUI e))).
  { rewrite querySelectorAll_select. unfold buildUI. cbn [root uiPanels childNodes flat_map].
    rewrite inputs_createToolbar.
    replace (select selCascadeInput (createAgentHub e)) with (@nil Node)
      by (vm_compute; reflexivity).
    cbn [select Datatypes.app]. eval_matches. cbn [Datatypes.app]. rewrite app_nil_r.
    destruct (conversations e) as [|c r]; [reflexivity|].
    unfold Js.mapi. apply inputs_views. }
  rewrite Hp. unfold buildUI. cbn [uiPanels]. unfold Js.mapi.
  split; [reflexivity|]. split; [apply inputs_text|]. split; [apply inputs_panel_index|].
  generalize 0. induction (conversations e) as [|c r IH]; intros i; [reflexivity|].
  cbn [Js.mapiFrom map]. rewrite IH. reflexivity.
Qed.

(** Built from a snapshot of a document, the replacement tree has one
    sub-panel per conversation container of that document, and sub-panel
    [i] keeps a reference to container [i]. *)
Theorem buildUI_tracks_original_panels (now : Z) (d : Document) :
  map refOriginalPanel (uiPanels (buildUI (extract now d))) =
  map Some (docQuerySelectorAll selChatRoot d).
Proof.
  pose proof (ExtractorMore.extract_panel_elements now d) as Hel.
  pose proof (ExtractorMore.extract_conversation_count now d) as Hlen.
  unfold buildUI. cbn [uiPanels].
  assert (Hplen : length (panels (extract now d)) =
                  length (docQuerySelectorAll selChatRoot d)).
  { rewrite <- Hel, length_map. reflexivity. }
  apply nth_error_ext. intros i. rewrite !nth_error_map.
  unfold Js.mapi. rewrite mapiFrom_nth. cbn [Nat.add].
  rewrite <- Hel. rewrite nth_error_map.
  destruct (nth_error (conversations (extract now d)) i) as [c|] eqn:Ec.
  - cbn [option_map]. unfold panelOf, createPanel. cbn [refOriginalPanel].
    destruct (nth_error (panels (extract now d)) i) as [pi|] eqn:Ep; [reflexivity|].
    apply nth_error_None in Ep. assert (i < length (conversations (extract now d)))
      by (apply nth_error_Some; congruence). lia.
  - cbn [option_map]. apply nth_error_None in Ec.
    destruct (nth_error (panels (extract now d)) i) as [pi|] eqn:Ep; [|reflexivity].
    assert (i < length (panels (extract now d))) by (apply nth_error_Some; congruence). lia.
Qed.

End CustomUIMore.

Module HidingFacts.
Import Dom Mutate CustomUI Takeover Vocabulary TakeoverVocabulary.
Import DomFacts MutateFacts.

Lemma styleGet_styleSet (prop v : string) (st : list (string * string)) :
  v <> "" -> styleGet prop (styleSet prop v st) = v.
Proof.
  intros Hv. unfold styleSet. destruct (String.eqb_spec v "") as [E|_]; [contradiction|].
  induction st as [|[p w] r IH].
  - cbn. rewrite String.eqb_refl. reflexivity.
  - cbn [styleRemove filter fst]. destruct (String.eqb p prop) eqn:E; cbn [negb].
    + exact IH.
    + cbn [Datatypes.app styleGet]. rewrite E. exact IH.
Qed.

Lemma display_hide (a : Attrs) : display (hide a) = "none".
Proof.
  unfold hide, isHidden. destruct (String.eqb_spec (display a) "none") as [E|_]; [exact E|].
  unfold display, setDisplay. cbn [style]. apply styleGet_styleSet. discriminate.
Qed.

Lemma hide_hidden (a : Attrs) : display a = "none" -> hide a = a.
Proof. intros E. unfold hide, isHidden. rewrite E. reflexivity. Qed.

Lemma hide_idem (a : Attrs) : hide (hide a) = hide a.
Proof. apply hide_hidden, display_hide. Qed.







(** *** Lists related element by element *)

Lemma Forall2_same {A} (R : A -> A -> Prop) (l : list A) :
  (forall x, R x x) -> Forall2 R l l.
Proof. intros HR. induction l; constructor; auto. Qed.


Lemma Forall2_compose {A} (R : A -> A -> Prop) (l1 l2 l3 : list A) :
  (forall x y z, R x y -> R y z -> R x z) ->
  Forall2 R l1 l2 -> Forall2 R l2 l3 -> Forall2 R l1 l3.
Proof.
  intros HR H12. revert l3. induction H12 as [|x y r1 r2 Hxy _ IH]; intros l3 H23.
  - inversion H23. constructor.
  - inversion H23 as [|y' z r2' r3 Hyz Hr]; subst. constructor; eauto.
Qed.




(** *** What the updates do to the elements of a document *)

Lemma elements_updateWhere (p : Node -> bool) (g : Attrs -> Attrs) (n : Node) :
  Dom.elements (updateWhere p g n) = map (updateWhere p g) (Dom.elements n).
Proof.
  induction n as [s|a cs IH] using Node_ind; [reflexivity|].
  cbn [updateWhere Dom.elements map]. f_equal.
  induction IH as [|c r Hc _ IHr]; [reflexivity|].
  cbn [map flat_map]. rewrite map_app, Hc, IHr. reflexivity.
Qed.

Lemma forestElements_updateAll (p : Node -> bool) (g : Attrs -> Attrs) (d : Document) :
  forestElements (updateAll p g d) = map (updateWhere p g) (forestElements d).
Proof.
  unfold forestElements, updateAll. induction d as [|c r IH]; [reflexivity|].
  cbn [map flat_map]. rewrite map_app, elements_updateWhere, IH. reflexivity.
Qed.








Lemma restyled_hide_compose (x y z : Node) :
  Restyled hide x y -> Restyled hide y z -> Restyled hide x z.
Proof.
  intros [Sxy Axy] [Syz Ayz]. split; [congruence|].
  destruct x as [sx|ax cx], y as [sy|ay cy], z as [sz|az cz]; try exact I;
    try discriminate.
  destruct Axy as [->| ->], Ayz as [->| ->]; auto. right. apply hide_idem.
Qed.




(** *** The first match of a selector *)

Lemma updateFirstForest_none (sel : Selector) (g : Attrs -> Attrs) (l : list Node) :
  Forall (fun n => updateFirstIn (matches sel) g n = None -> select sel n = []) l ->
  updateFirstForest (matches sel) g l = None -> flat_map (select sel) l = [].
Proof.
  induction 1 as [|c r Hc _ IH]; [reflexivity|].
  cbn [updateFirstForest flat_map].
  destruct (updateFirstIn (matches sel) g c) as [c'|]; [discriminate|].
  destruct (updateFirstForest (matches sel) g r) as [r'|]; [discriminate|].
  intros _. rewrite (Hc eq_refl), (IH eq_refl). reflexivity.
Qed.

Lemma updateFirstIn_none (sel : Selector) (g : Attrs -> Attrs) (n : Node) :
  updateFirstIn (matches sel) g n = None -> select sel n = [].
Proof.
  induction n as [s|a cs IH] using Node_ind; [reflexivity|].
  rewrite updateFirstIn_children. cbn [select].
  destruct (matches sel a); [discriminate|].
  destruct (updateFirstForest (matches sel) g cs) as [cs'|] eqn:E; [discriminate|].
  intros _. apply (updateFirstForest_none sel g cs IH E).
Qed.

Lemma updateFirst_none (sel : Selector) (g : Attrs -> Attrs) (d : Document) :
  updateFirstForest (matches sel) g d = None -> docQuerySelectorAll sel d = [].
Proof.
  intros E. rewrite docQuerySelectorAll_select.
  apply (updateFirstForest_none sel g d); [|exact E].
  apply Forall_forall. intros n _. apply updateFirstIn_none.
Qed.





(** *** Elements already hidden stay as they are *)






(** *** The hiding part of [destroyOriginalUI] *)

Lemma hideOriginal_shape (d : Document) :
  map shape (snd (hideOriginal d)) = map shape d.
Proof.
  unfold hideOriginal. cbn [snd].
  rewrite shape_updateAll by apply hide_styleOnly.
  rewrite shape_updateFirst by apply hide_styleOnly.
  apply shape_updateAll, hide_styleOnly.
Qed.



End HidingFacts.

Module TakeoverMore.
Import Dom Mutate CustomUI Takeover Vocabulary TakeoverVocabulary.
Import DomFacts MutateFacts HidingFacts.

Lemma destroyOriginalUI_doc (st st' : State) (o : Outcome nat) :
  destroyOriginalUI st = (o, st') -> doc (snd st') = snd (hideOriginal (doc (snd st))).
Proof.
  unfold destroyOriginalUI. destruct st as [g p]. cbn [snd].
  destruct (hideOriginal (doc p)) as [hidden d']. cbn [snd].
  destruct (panelObserver g).
  - intros E. injection E as _ <-. reflexivity.
  - destruct (hasBody d'); intros E; injection E as _ <-; reflexivity.
Qed.





End TakeoverMore.

Module MountFacts.
Import Dom Mutate Extractor CustomUI Takeover Controller Vocabulary.
Import TakeoverVocabulary MountVocabulary.
Import DomFacts MutateFacts CustomUISpec TakeoverSpec HidingFacts.

(** *** Whether [appendChild] on head or body succeeds *)

Lemma succeeds_option_map {A B} (f : A -> B) (o : option A) :
  succeeds (option_map f o) = succeeds o.
Proof. destruct o; reflexivity. Qed.

Lemma shape_elem_inv (a a' : Attrs) (cs cs' : list Node) :
  shape (Elem a' cs') = shape (Elem a cs) -> tag a' = tag a /\ map shape cs' = map shape cs.
Proof.
  cbn [shape]. intros E. split.
  - apply (f_equal (fun n => match n with Elem b _ => tag b | Text _ => "" end)) in E.
    exact E.
  - apply (f_equal childNodes) in E. exact E.
Qed.

Lemma appendInFirst_succeeds_shape (t : string) (x y : Node) (l l' : list Node) :
  map shape l' = map shape l ->
  succeeds (appendInFirst t y l') = succeeds (appendInFirst t x l).
Proof.
  revert l'. induction l as [|c r IH]; intros [|c' r'] E; try discriminate; [reflexivity|].
  cbn [map] in E. injection E as Ec Er.
  destruct c as [s|a cs], c' as [s'|a' cs']; try discriminate; cbn [appendInFirst].
  - rewrite !succeeds_option_map. apply IH. exact Er.
  - destruct (shape_elem_inv a a' cs cs' Ec) as [Ea _]. rewrite Ea.
    destruct (String.eqb (tag a) t); [reflexivity|].
    rewrite !succeeds_option_map. apply IH. exact Er.
Qed.

Lemma onDocumentElement_succeeds_shape (t : string) (x y : Node) (d d' : Document) :
  map shape d' = map shape d ->
  succeeds (onDocumentElement (appendInFirst t y) d') =
  succeeds (onDocumentElement (appendInFirst t x) d).
Proof.
  revert d'. induction d as [|c r IH]; intros [|c' r'] E; try discriminate; [reflexivity|].
  cbn [map] in E. injection E as Ec Er.
  destruct c as [s|a cs], c' as [s'|a' cs']; try discriminate; cbn [onDocumentElement].
  - rewrite !succeeds_option_map. apply IH. exact Er.
  - destruct (shape_elem_inv a a' cs cs' Ec) as [_ Ecs]. rewrite !succeeds_option_map.
    apply appendInFirst_succeeds_shape. exact Ecs.
Qed.

Lemma hasBody_succeeds (d : Document) (x : Node) :
  hasBody d = succeeds (appendToBody x d).
Proof.
  unfold hasBody, appendToBody.
  rewrite <- (onDocumentElement_succeeds_shape "body" x (Text "") d d eq_refl).
  destruct (onDocumentElement (appendInFirst "body" (Text "")) d); reflexivity.
Qed.

Lemma hasBody_shape (d d' : Document) :
  map shape d' = map shape d -> hasBody d' = hasBody d.
Proof.
  intros E. rewrite (hasBody_succeeds d' (Text "")), (hasBody_succeeds d (Text "")).
  apply onDocumentElement_succeeds_shape. exact E.
Qed.

Lemma appendInFirst_again (t : string) (x y : Node) (l l' : list Node) :
  appendInFirst t x l = Some l' -> succeeds (appendInFirst t y l') = true.
Proof.
  revert l'. induction l as [|c r IH]; intros l' E; [discriminate|].
  destruct c as [s|a cs]; cbn [appendInFirst] in E.
  - destruct (appendInFirst t x r) as [r'|]; [|discriminate].
    injection E as <-. cbn [appendInFirst]. rewrite succeeds_option_map.
    apply IH. reflexivity.
  - destruct (String.eqb (tag a) t) eqn:Et.
    + injection E as <-. cbn [appendInFirst]. rewrite Et. reflexivity.
    + destruct (appendInFirst t x r) as [r'|]; [|discriminate].
      injection E as <-. cbn [appendInFirst]. rewrite Et, succeeds_option_map.
      apply IH. reflexivity.
Qed.

Lemma hasBody_after_append (x : Node) (d d' : Document) :
  appendToBody x d = Some d' -> hasBody d' = true.
Proof.
  unfold appendToBody. rewrite (hasBody_succeeds d' x). unfold appendToBody.
  revert d'. induction d as [|c r IH]; intros d' E; [discriminate|].
  destruct c as [s|a cs]; cbn [onDocumentElement] in E.
  - destruct (onDocumentElement (appendInFirst "body" x) r) as [r'|]; [|discriminate].
    injection E as <-. cbn [onDocumentElement]. rewrite succeeds_option_map.
    apply IH. reflexivity.
  - destruct (appendInFirst "body" x cs) as [cs'|] eqn:Ecs; [|discriminate].
    injection E as <-. cbn [onDocumentElement]. rewrite succeeds_option_map.
    apply (appendInFirst_again "body" x x cs cs' Ecs).
Qed.

(** *** The matches of a selector after [appendChild] *)

Lemma app_nil_both {A} (l1 l2 : list A) : (l1 ++ l2)%list = [] -> l1 = [] /\ l2 = [].
Proof. destruct l1; [auto|discriminate]. Qed.

Lemma select_nil_inv (sel : Selector) (a : Attrs) (cs : list Node) :
  select sel (Elem a cs) = [] -> matches sel a = false /\ flat_map (select sel) cs = [].
Proof.
  cbn [select]. destruct (matches sel a); [discriminate|]. cbn [Datatypes.app]. auto.
Qed.

Lemma appendInFirst_select (sel : Selector) (t : string) (x : Node) (l l' : list Node) :
  appendInFirst t x l = Some l' ->
  flat_map (select sel) l = [] ->
  flat_map (select sel) l' = select sel x.
Proof.
  revert l'. induction l as [|c r IH]; intros l' E Hn; [discriminate|].
  cbn [flat_map] in Hn. apply app_nil_both in Hn. destruct Hn as [Hc Hr].
  destruct c as [s|a cs]; cbn [appendInFirst] in E.
  - destruct (appendInFirst t x r) as [r'|]; [|discriminate].
    injection E as <-. cbn [flat_map select Datatypes.app]. apply IH; [reflexivity|exact Hr].
  - apply select_nil_inv in Hc. destruct Hc as [Hm Hcs].
    destruct (String.eqb (tag a) t).
    + injection E as <-. cbn [flat_map select]. rewrite Hm, Hr, flat_map_app, Hcs.
      cbn [flat_map Datatypes.app]. rewrite !app_nil_r. reflexivity.
    + destruct (appendInFirst t x r) as [r'|]; [|discriminate].
      injection E as <-. cbn [flat_map select]. rewrite Hm, Hcs.
      cbn [Datatypes.app]. apply IH; [reflexivity|exact Hr].
Qed.

Lemma appendToBody_select (sel : Selector) (x : Node) (d d' : Document) :
  appendToBody x d = Some d' ->
  docQuerySelectorAll sel d = [] ->
  docQuerySelectorAll sel d' = select sel x.
Proof.
  unfold appendToBody. rewrite !docQuerySelectorAll_select.
  revert d'. induction d as [|c r IH]; intros d' E Hn; [discriminate|].
  cbn [flat_map] in Hn. apply app_nil_both in Hn. destruct Hn as [Hc Hr].
  destruct c as [s|a cs]; cbn [onDocumentElement] in E.
  - destruct (onDocumentElement (appendInFirst "body" x) r) as [r'|]; [|discriminate].
    injection E as <-. cbn [flat_map select Datatypes.app]. apply IH; [reflexivity|exact Hr].
  - apply select_nil_inv in Hc. destruct Hc as [Hm Hcs].
    destruct (appendInFirst "body" x cs) as [cs'|] eqn:Ecs; [|discriminate].
    injection E as <-. cbn [flat_map select]. rewrite Hm, Hr.
    rewrite (appendInFirst_select sel "body" x cs cs' Ecs Hcs).
    cbn [Datatypes.app]. apply app_nil_r.
Qed.

Lemma count_zero_nil (sel : Selector) (d : Document) :
  count sel d = 0 -> docQuerySelectorAll sel d = [].
Proof. unfold count. destruct (docQuerySelectorAll sel d); [reflexivity|discriminate]. Qed.

(** *** Removing what was appended *)

Lemma removeFirstForest_none (sel : Selector) (l : list Node) :
  Forall (fun n => select sel n = [] -> removeFirstIn (matches sel) n = None) l ->
  flat_map (select sel) l = [] -> removeFirstForest (matches sel) l = None.
Proof.
  induction 1 as [|c r Hc _ IH]; [reflexivity|].
  cbn [flat_map removeFirstForest]. intros Hn. apply app_nil_both in Hn.
  destruct Hn as [Hc0 Hr0]. rewrite (Hc Hc0), (IH Hr0). reflexivity.
Qed.

Lemma removeFirstIn_none (sel : Selector) (n : Node) :
  select sel n = [] -> removeFirstIn (matches sel) n = None.
Proof.
  induction n as [s|a cs IH] using Node_ind; [reflexivity|].
  intros Hn. apply select_nil_inv in Hn. destruct Hn as [Hm Hcs].
  rewrite removeFirstIn_children, Hm, (removeFirstForest_none sel cs IH Hcs). reflexivity.
Qed.

Lemma removeFirstForest_snoc (sel : Selector) (x : Node) (l : list Node) :
  nodeMatches sel x = true ->
  flat_map (select sel) l = [] ->
  removeFirstForest (matches sel) (l ++ [x]) = Some l.
Proof.
  intros Hx. induction l as [|c r IH]; intros Hn.
  - destruct x as [s|a cs]; [discriminate|]. cbn [nodeMatches] in Hx.
    cbn [Datatypes.app removeFirstForest]. rewrite removeFirstIn_children, Hx. reflexivity.
  - cbn [flat_map] in Hn. apply app_nil_both in Hn. destruct Hn as [Hc Hr].
    cbn [Datatypes.app removeFirstForest].
    rewrite (removeFirstIn_none sel c Hc), (IH Hr). reflexivity.
Qed.

Lemma removeFirstForest_appended (sel : Selector) (t : string) (x : Node)
      (l l' : list Node) :
  nodeMatches sel x = true ->
  appendInFirst t x l = Some l' ->
  flat_map (select sel) l = [] ->
  removeFirstForest (matches sel) l' = Some l.
Proof.
  intros Hx. revert l'. induction l as [|c r IH]; intros l' E Hn; [discriminate|].
  cbn [flat_map] in Hn. apply app_nil_both in Hn. destruct Hn as [Hc Hr].
  destruct c as [s|a cs]; cbn [appendInFirst] in E.
  - destruct (appendInFirst t x r) as [r'|]; [|discriminate].
    injection E as <-. cbn [removeFirstForest removeFirstIn].
    rewrite (IH r' eq_refl Hr). reflexivity.
  - pose proof (removeFirstIn_none sel _ Hc) as Hnone.
    apply select_nil_inv in Hc. destruct Hc as [Hm Hcs].
    destruct (String.eqb (tag a) t).
    + injection E as <-. cbn [removeFirstForest].
      rewrite removeFirstIn_children, Hm, (removeFirstForest_snoc sel x cs Hx Hcs).
      reflexivity.
    + destruct (appendInFirst t x r) as [r'|]; [|discriminate].
      injection E as <-. cbn [removeFirstForest].
      rewrite Hnone, (IH r' eq_refl Hr). reflexivity.
Qed.

(** Removing by id what [document.body.appendChild] has just added, in a
    document that had no element of that id, gives the document back. *)
Lemma removeById_appended (i : string) (x : Node) (d d' : Document) :
  nodeMatches [SelId i] x = true ->
  appendToBody x d = Some d' ->
  docQuerySelectorAll [SelId i] d = [] ->
  removeById i d' = d.
Proof.
  intros Hx. unfold appendToBody, removeById. rewrite docQuerySelectorAll_select.
  intros E Hn.
  assert (H : removeFirstForest (matches [SelId i]) d' = Some d); [|rewrite H; reflexivity].
  revert d' E Hn. induction d as [|c r IH]; intros d' E Hn; [discriminate|].
  cbn [flat_map] in Hn. apply app_nil_both in Hn. destruct Hn as [Hc Hr].
  destruct c as [s|a cs]; cbn [onDocumentElement] in E.
  - destruct (onDocumentElement (appendInFirst "body" x) r) as [r'|]; [|discriminate].
    injection E as <-. cbn [removeFirstForest removeFirstIn].
    rewrite (IH r' eq_refl Hr). reflexivity.
  - apply select_nil_inv in Hc. destruct Hc as [Hm Hcs].
    destruct (appendInFirst "body" x cs) as [cs'|] eqn:Ecs; [|discriminate].
    injection E as <-. cbn [removeFirstForest].
    rewrite removeFirstIn_children, Hm.
    rewrite (removeFirstForest_appended [SelId i] "body" x cs cs' Hx Ecs Hcs).
    reflexivity.
Qed.

Lemma shape_removeFirstForest (sel : Selector) (l : list Node) :
  Forall (fun n => removeFirstIn (matches sel) (shape n) =
                   option_map (option_map shape) (removeFirstIn (matches sel) n)) l ->
  removeFirstForest (matches sel) (map shape l) =
  option_map (map shape) (removeFirstForest (matches sel) l).
Proof.
  induction 1 as [|c r Hc _ IH]; [reflexivity|].
  cbn [map removeFirstForest]. rewrite Hc, IH.
  destruct (removeFirstIn (matches sel) c) as [[c'|]|]; try reflexivity.
  destruct (removeFirstForest (matches sel) r); reflexivity.
Qed.

Lemma shape_removeFirstIn (sel : Selector) (n : Node) :
  removeFirstIn (matches sel) (shape n) =
  option_map (option_map shape) (removeFirstIn (matches sel) n).
Proof.
  induction n as [s|a cs IH] using Node_ind; [reflexivity|].
  cbn [shape]. rewrite !removeFirstIn_children, matches_style.
  destruct (matches sel a); [reflexivity|].
  rewrite (shape_removeFirstForest sel cs IH).
  destruct (removeFirstForest (matches sel) cs); reflexivity.
Qed.

Lemma shape_removeById (i : string) (d : Document) :
  map shape (removeById i d) = removeById i (map shape d).
Proof.
  unfold removeById. rewrite shape_removeFirstForest.
  - destruct (removeFirstForest (matches [SelId i]) d); reflexivity.
  - apply Forall_forall. intros n _. apply shape_removeFirstIn.
Qed.

Lemma removeMatching_none (sel : Selector) (n : Node) :
  select sel n = [] -> removeMatching sel n = [n].
Proof.
  induction n as [s|a cs IH] using Node_ind; [reflexivity|].
  intros Hn. apply select_nil_inv in Hn. destruct Hn as [Hm Hcs].
  cbn [removeMatching]. rewrite Hm. f_equal. f_equal.
  induction IH as [|c r Hc _ IHr]; [reflexivity|].
  cbn [flat_map] in *. apply app_nil_both in Hcs. destruct Hcs as [Hc0 Hr0].
  rewrite (Hc Hc0), (IHr Hr0). reflexivity.
Qed.

Lemma removeAll_none (sel : Selector) (d : Document) :
  count sel d = 0 -> removeAll sel d = d.
Proof.
  intros H. apply count_zero_nil in H. rewrite docQuerySelectorAll_select in H.
  unfold removeAll. induction d as [|c r IH]; [reflexivity|].
  cbn [flat_map] in *. apply app_nil_both in H. destruct H as [Hc Hr].
  rewrite (removeMatching_none sel c Hc), (IH Hr). reflexivity.
Qed.

(** *** Showing the panels survives the removal of the root *)

Lemma shown_removeFirstForest (sel : Selector) (p : Attrs -> bool) (l : list Node) :
  Forall (fun n => Forall Shown (select sel n) ->
                   forall n', removeFirstIn p n = Some (Some n') ->
                              Forall Shown (select sel n')) l ->
  Forall Shown (flat_map (select sel) l) ->
  forall l', removeFirstForest p l = Some l' -> Forall Shown (flat_map (select sel) l').
Proof.
  induction 1 as [|c r Hc _ IH]; intros Hl l' E; [discriminate|].
  cbn [flat_map] in Hl. apply Forall_app in Hl. destruct Hl as [Hc0 Hr0].
  cbn [removeFirstForest] in E.
  destruct (removeFirstIn p c) as [[c'|]|] eqn:Ec.
  - injection E as <-. cbn [flat_map]. apply Forall_app. split; [|exact Hr0].
    apply (Hc Hc0 c' eq_refl).
  - injection E as <-. exact Hr0.
  - destruct (removeFirstForest p r) as [r'|]; [|discriminate].
    injection E as <-. cbn [flat_map]. apply Forall_app. split; [exact Hc0|].
    apply (IH Hr0 r' eq_refl).
Qed.

Lemma shown_removeFirstIn (sel : Selector) (p : Attrs -> bool) (n : Node) :
  Forall Shown (select sel n) ->
  forall n', removeFirstIn p n = Some (Some n') -> Forall Shown (select sel n').
Proof.
  induction n as [s|a cs IH] using Node_ind; intros Hn n' E; [discriminate|].
  rewrite removeFirstIn_children in E. destruct (p a); [discriminate|].
  destruct (removeFirstForest p cs) as [cs'|] eqn:Ecs; [|discriminate].
  injection E as <-. cbn [select] in *. apply Forall_app in Hn. destruct Hn as [Hh Ht].
  apply Forall_app. split.
  - destruct (matches sel a); [|constructor].
    constructor; [|constructor]. inversion Hh as [|x l Hx _]. exact Hx.
  - apply (shown_removeFirstForest sel p cs IH Ht cs' Ecs).
Qed.

Lemma shown_removeById (sel : Selector) (i : string) (d : Document) :
  Forall Shown (docQuerySelectorAll sel d) ->
  Forall Shown (docQuerySelectorAll sel (removeById i d)).
Proof.
  rewrite !docQuerySelectorAll_select. unfold removeById. intros H.
  destruct (removeFirstForest (matches [SelId i]) d) as [d'|] eqn:E; [|exact H].
  apply (shown_removeFirstForest sel (matches [SelId i]) d); [|exact H|exact E].
  apply Forall_forall. intros n _. apply shown_removeFirstIn.
Qed.

(** *** The page side of [mountCustomUI], step by step *)

Lemma root_is_hub (e : Extraction) : nodeMatches selHubRoot (root (buildUI e)) = true.
Proof. reflexivity. Qed.

Lemma mount_fresh (ui : UI) (p : Page) :
  mount ui (freshGlobals, p) =
  match appendToBody (root ui) (removeAll selHubRoot (doc p)) with
  | None => (Thrown "Cannot read properties of null (reading 'appendChild')",
             (freshGlobals, withDoc (removeAll selHubRoot (doc p)) p))
  | Some d2 =>
      (Returned ui,
       (setCustomUIRef ui freshGlobals,
        mkPage d2 (observers p) (created p)
               (timers p ++ [(100%Z, ResizeSignal)])%list (windowListeners p)))
  end.
Proof. reflexivity. Qed.

Lemma mountInPage_doc (now : Z) (p p' : Page) (r : MountResult) :
  mountInPage now p = (Returned r, p') ->
  exists d1 d2,
    injectStyles (doc p) = (Returned tt, d1) /\
    appendToBody (root (buildUI (extract now (doc p)))) (removeAll selHubRoot d1) = Some d2 /\
    doc p' = snd (hideOriginal d2).
Proof.
  unfold mountInPage, createUI.
  destruct (injectStyles (doc p)) as [[[]|m] d1] eqn:Ei; [|discriminate].
  rewrite mount_fresh. cbn [doc withDoc].
  destruct (appendToBody _ (removeAll selHubRoot d1)) as [d2|] eqn:Ea; [|discriminate].
  destruct (destroyOriginalUI _) as [[hidden|m] [g3 p3]] eqn:Ed; [|discriminate].
  intros E. injection E as _ <-.
  exists d1, d2. split; [reflexivity|]. split; [exact Ea|].
  unfold destroyOriginalUI in Ed. cbn [doc setCustomUIRef panelObserver freshGlobals] in Ed.
  destruct (hideOriginal d2) as [h d3]. cbn [snd].
  destruct (hasBody d3); [|discriminate]. injection Ed as _ _ <-. reflexivity.
Qed.

End MountFacts.

Module MountMore.
Import Dom Mutate Extractor CustomUI Takeover Controller Vocabulary.
Import TakeoverVocabulary MountVocabulary.
Import DomFacts MutateFacts CustomUISpec TakeoverSpec HidingFacts MountFacts.

(** [createUI] adds the style sheet once per document.  After a call
    that returned, the document has the style element it had, or one if
    it had none; no element other than that style element was added or
    removed; and a further call, for any snapshot, returns its tree and
    leaves the document untouched. *)
Theorem createUI_styles_once (e e' : Extraction) (d d1 : Document) (ui : UI) :
  createUI e d = (Returned ui, d1) ->
  count [SelId hubStyleId] d1 = Nat.max 1 (count [SelId hubStyleId] d) /\
  (forall sel, matches sel (withId hubStyleId (newElement "style")) = false ->
               count sel d1 = count sel d) /\
  createUI e' d1 = (Returned (buildUI e'), d1).
Proof.
  unfold createUI. destruct (injectStyles d) as [[[]|m] d0] eqn:Ei; [|discriminate].
  intros E. injection E as _ <-.
  split; [|split].
  - unfold injectStyles in Ei. unfold getElementById, docQuerySelector in Ei.
    unfold count at 2.
    destruct (docQuerySelectorAll [SelId hubStyleId] d) as [|n r] eqn:Eq;
      cbn [hd_error] in Ei.
    + destruct (appendToHead _ d) as [d'|] eqn:Eh; [|discriminate].
      injection Ei as <-. rewrite (count_appendToHead _ _ d d' Eh).
      unfold count. rewrite Eq. reflexivity.
    + injection Ei as <-. unfold count. rewrite Eq. cbn [Datatypes.length]. lia.
  - intros sel Hno. apply (ControllerMore.injectStyles_count_any sel d d0 _ Hno Ei).
  - assert (Hone : exists n, getElementById hubStyleId d0 = Some n).
    { unfold injectStyles in Ei.
      destruct (getElementById hubStyleId d) as [n|] eqn:Eg.
      - injection Ei as <-. eauto.
      - destruct (appendToHead _ d) as [d'|] eqn:Eh; [|discriminate].
        injection Ei as <-. apply ControllerMore.getElementById_found.
        rewrite (count_appendToHead _ _ d d' Eh). cbn. lia. }
    destruct Hone as [n Hn]. unfold injectStyles. rewrite Hn. reflexivity.
Qed.

Lemma createUI_styles_once_witness :
  count [SelId hubStyleId] (snd (createUI emptyExtraction Samples.workbench)) =
    Nat.max 1 (count [SelId hubStyleId] Samples.workbench) /\
  (forall sel, matches sel (withId hubStyleId (newElement "style")) = false ->
               count sel (snd (createUI emptyExtraction Samples.workbench)) =
               count sel Samples.workbench) /\
  createUI (extract 0 Samples.workbench) (snd (createUI emptyExtraction Samples.workbench)) =
    (Returned (buildUI (extract 0 Samples.workbench)),
     snd (createUI emptyExtraction Samples.workbench)).
Proof.
  apply (createUI_styles_once emptyExtraction (extract 0 Samples.workbench)
           Samples.workbench _ (buildUI emptyExtraction)).
  vm_compute. reflexivity.
Defined.

(** When [mount] returns, the element found under the id
    [cascade-hub-ui] is the root of the tree it was given, whatever
    stale roots the document held before; the module remembers that
    tree and its number of panels, and holds no watcher. *)
Theorem mount_installs_root (ui u : UI) (st st' : State) :
  nodeMatches selHubRoot (root ui) = true ->
  mount ui st = (Returned u, st') ->
  u = ui /\
  getElementById "cascade-hub-ui" (doc (snd st')) = Some (root ui) /\
  customUIRef (fst st') = Some ui /\
  panelCount (fst st') = length (uiPanels ui) /\
  panelObserver (fst st') = None /\
  (Tracked st -> observers (snd st') = []).
Proof.
  intros Hroot. unfold mount. destruct st as [g p].
  destruct (stopObserver (g, withDoc (removeAll selHubRoot (doc p)) p)) as [g1 p1] eqn:Es.
  assert (Hs : doc p1 = removeAll selHubRoot (doc p) /\ panelObserver g1 = None /\
               (Tracked (g, p) -> observers p1 = [])).
  { unfold stopObserver in Es. unfold Tracked. cbn [fst snd].
    destruct (panelObserver g) as [o|] eqn:Eo.
    - injection Es as <- <-. cbn. repeat split. intros ->. cbn.
      rewrite Nat.eqb_refl. reflexivity.
    - injection Es as <- <-. cbn. repeat split; auto. }
  destruct Hs as (Hd & Hp & Ho).
  destruct (appendToBody (root ui) (doc p1)) as [d2|] eqn:Ea; [|discriminate].
  intros E. injection E as <- <-. cbn [fst snd doc observers setCustomUIRef
                                        customUIRef panelCount panelObserver].
  repeat split; try assumption.
  unfold getElementById, docQuerySelector. change [SelId "cascade-hub-ui"] with selHubRoot.
  rewrite (appendToBody_select selHubRoot (root ui) (doc p1) d2 Ea).
  - destruct (root ui) as [s|a cs]; [discriminate|]. cbn [nodeMatches] in Hroot.
    cbn [select]. rewrite Hroot. reflexivity.
  - rewrite Hd. apply count_zero_nil, count_removeAll.
Qed.

Lemma mount_installs_root_witness :
  let ui := buildUI (extract 0 Samples.workbench) in
  let st' := snd (mount ui (freshGlobals, Samples.mountedPage)) in
  ui = ui /\
  getElementById "cascade-hub-ui" (doc (snd st')) = Some (root ui) /\
  customUIRef (fst st') = Some ui /\
  panelCount (fst st') = length (uiPanels ui) /\
  panelObserver (fst st') = None /\
  (Tracked (freshGlobals, Samples.mountedPage) -> observers (snd st') = []).
Proof.
  cbv zeta.
  apply (mount_installs_root (buildUI (extract 0 Samples.workbench))
           (buildUI (extract 0 Samples.workbench))
           (freshGlobals, Samples.mountedPage)).
  - reflexivity.
  - vm_compute. reflexivity.
Defined.

(** The function [mountCustomUI] evaluates in the page reports success
    whenever the style sheet can be injected and the document still has
    a body once the stale roots are removed: nothing after that point
    throws, neither [wireHandlers] nor the start of the watcher. *)
Theorem mountInPage_succeeds (now : Z) (p : Page) (d1 : Document) :
  injectStyles (doc p) = (Returned tt, d1) ->
  hasBody (removeAll selHubRoot d1) = true ->
  exists r p', mountInPage now p = (Returned r, p').
Proof.
  intros Hi Hb.
  unfold mountInPage, createUI. rewrite Hi, mount_fresh. cbn [doc withDoc].
  rewrite (hasBody_succeeds _ (root (buildUI (extract now (doc p))))) in Hb.
  destruct (appendToBody _ (removeAll selHubRoot d1)) as [d2|] eqn:Ea; [|discriminate].
  unfold destroyOriginalUI. cbn [doc setCustomUIRef panelObserver freshGlobals].
  pose proof (hideOriginal_shape d2) as Hs.
  destruct (hideOriginal d2) as [h d3]. cbn [snd] in Hs.
  rewrite (hasBody_shape d2 d3 Hs), (hasBody_after_append _ _ d2 Ea).
  eexists. eexists. reflexivity.
Qed.

Lemma mountInPage_succeeds_witness :
  exists r p', mountInPage 0 Samples.startPage = (Returned r, p').
Proof.
  apply (mountInPage_succeeds 0 Samples.startPage
           (snd (injectStyles (doc Samples.startPage)))).
  - vm_compute. reflexivity.
  - vm_compute. reflexivity.
Defined.

(** Mount then unmount, on the structure of the document.  After a
    successful [mountCustomUI], [restoreUI] succeeds and leaves a
    document that differs from the one before the mount in inline
    styles only, apart from the style sheet the mount injected, which
    stays, and the stale roots the mount removed; the watcher the mount
    connected stays connected. *)
Theorem mount_then_restoreUI (now : Z) (c c1 : Ctl) (p p1 : Page) (r : MountResult) :
  mountCustomUI now c p = (Returned r, c1, p1) ->
  exists p2,
    restoreUI c1 p1 = (Restored, mkCtl true None, p2) /\
    map shape (doc p2) = map shape (removeAll selHubRoot (snd (injectStyles (doc p)))) /\
    (count selHubRoot (doc p) = 0 ->
     map shape (doc p2) = map shape (snd (injectStyles (doc p)))) /\
    observers p2 = (observers p ++ [created p])%list.
Proof.
  unfold mountCustomUI. destruct (connected c) eqn:Hc; [|discriminate]. cbn [negb].
  destruct (mountInPage now p) as [[r'|m] p'] eqn:Em; [|discriminate].
  intros E. injection E as _ <- <-.
  destruct (mountInPage_doc now p p' r' Em) as (d1 & d2 & Hi & Ea & Hd).
  destruct (mountInPage_effect now p p' r' Em) as (Ho & _ & _).
  unfold restoreUI. cbn [connected mountedUI]. eexists. split; [reflexivity|].
  cbn [withDoc doc observers setupEventBridges].
  assert (Hshape : map shape (restoreInPage (doc p')) =
                   map shape (removeAll selHubRoot d1)).
  { unfold restoreInPage.
    rewrite shape_updateFirst by apply setDisplay_styleOnly.
    rewrite shape_updateAll by apply setDisplay_styleOnly.
    rewrite shape_removeById, Hd, hideOriginal_shape, <- shape_removeById.
    rewrite (removeById_appended "cascade-hub-ui" _ _ d2 (root_is_hub _) Ea).
    - reflexivity.
    - apply count_zero_nil. apply (count_removeAll selHubRoot d1). }
  rewrite Hi. cbn [snd]. split; [exact Hshape|]. split; [|exact Ho].
  intros Hz. rewrite Hshape, removeAll_none; [reflexivity|].
  rewrite (injectStyles_count _ _ _ Hi). exact Hz.
Qed.

Lemma mount_then_restoreUI_witness :
  exists p2,
    restoreUI Samples.mountedCtl Samples.mountedPage = (Restored, mkCtl true None, p2) /\
    map shape (doc p2) =
      map shape (removeAll selHubRoot (snd (injectStyles (doc Samples.startPage)))) /\
    (count selHubRoot (doc Samples.startPage) = 0 ->
     map shape (doc p2) = map shape (snd (injectStyles (doc Samples.startPage)))) /\
    observers p2 = (observers Samples.startPage ++ [created Samples.startPage])%list.
Proof.
  eapply (mount_then_restoreUI 0 Samples.connectedCtl Samples.mountedCtl
            Samples.startPage Samples.mountedPage).
  vm_compute. reflexivity.
Defined.

(** The close control's path, [restoreOriginalUI]: the module's watcher
    is stopped and forgotten, so that no watcher is left when it was the
    only one; every conversation panel has its display suppression
    cleared; and the replacement root is gone when there was at most
    one. *)
Theorem restoreOriginalUI_effect (st : State) :
  let st' := restoreOriginalUI st in
  panelObserver (fst st') = None /\
  (Tracked st -> observers (snd st') = []) /\
  Forall Shown (docQuerySelectorAll selChatRoot (doc (snd st'))) /\
  (count selHubRoot (doc (snd st)) <= 1 -> count selHubRoot (doc (snd st')) = 0).
Proof.
  cbv zeta. unfold restoreOriginalUI. destruct st as [g p].
  destruct (stopObserver (g, p)) as [g1 p1] eqn:Es.
  assert (Hs : doc p1 = doc p /\ panelObserver g1 = None /\
               (Tracked (g, p) -> observers p1 = [])).
  { unfold stopObserver in Es. unfold Tracked. cbn [fst snd].
    destruct (panelObserver g) as [o|] eqn:Eo.
    - injection Es as <- <-. cbn. repeat split. intros ->. cbn.
      rewrite Nat.eqb_refl. reflexivity.
    - injection Es as <- <-. cbn. repeat split; auto. }
  destruct Hs as (Hd & Hp & Ho). cbn [fst snd withDoc doc observers].
  split; [exact Hp|]. split; [exact Ho|]. split.
  - apply shown_removeById, shown_updateFirst, shown_after_updateAll.
  - intros Hle. apply (count_removeById "cascade-hub-ui").
    change [SelId "cascade-hub-ui"] with selHubRoot.
    rewrite count_updateFirst by apply setDisplay_styleOnly.
    rewrite count_updateAll by apply setDisplay_styleOnly.
    rewrite Hd. exact Hle.
Qed.

End MountMore.

Module PollingMore.
Import Dom Locator Session Vocabulary JsFacts SessionSpec.

Section AnyHost.
Context {W : Type} (H : Host W).

Lemma poll_reads_bounded (laws : ClockLaws H) (idx waitMs start : Z) :
  forall (fuel : nat) (prev : string) (s : Sess),
  exists reads,
    trace (snd (poll H fuel idx waitMs start prev s)) = (trace s ++ map Read reads)%list /\
    (200 * Z.of_nat (length reads) <=
     Z.max 0 (waitMs - (clock H (world s) - start) + 199))%Z.
Proof.
  induction fuel as [|fuel IH]; intros prev s.
  - exists []. cbn. rewrite app_nil_r. split; [reflexivity|lia].
  - rewrite poll_unfold.
    destruct (Z.ltb_spec (clock H (world s) - start) waitMs) as [Hin|Hout].
    2:{ exists []. cbn. rewrite app_nil_r. split; [reflexivity|lia]. }
    cbv zeta.
    pose proof (roundTrip_mono laws (world s)) as Hrt.
    remember (roundTrip H (world s)) as w1 eqn:Hw1.
    remember (transcriptOf idx (documentOf H w1)) as content eqn:Hcontent.
    destruct (negb (String.eqb content prev)).
    + pose proof (@sleep_elapses _ _ laws 500%Z w1 ltac:(lia)) as Hsl.
      destruct (IH content (mkSess (sleep H 500 w1) (trace s ++ [Read content])%list))
        as [reads [Htr Hb]].
      exists (content :: reads). split.
      * rewrite Htr. cbn [trace map]. rewrite <- app_assoc. reflexivity.
      * cbn [world Datatypes.length] in *. lia.
    + destruct (negb (String.eqb content "")).
      * exists [content]. split; [reflexivity|]. cbn [Datatypes.length]. lia.
      * pose proof (@sleep_elapses _ _ laws 200%Z w1 ltac:(lia)) as Hsl.
        destruct (IH prev (mkSess (sleep H 200 w1) (trace s ++ [Read content])%list))
          as [reads [Htr Hb]].
        exists (content :: reads). split.
        -- rewrite Htr. cbn [trace map]. rewrite <- app_assoc. reflexivity.
        -- cbn [world Datatypes.length] in *. lia.
Qed.

(** [getResponse] only reads: it sends no input command, and on a host
    whose clock keeps time it reads the transcript at most once per
    200 ms of the wait, that is at most [ceil(waitMs / 200)] times. *)
Theorem getResponse_reads_bounded (laws : ClockLaws H) (idx waitMs : Z) (s : Sess) :
  exists reads,
    trace (snd (getResponse H idx waitMs s)) = (trace s ++ map Read reads)%list /\
    (200 * Z.of_nat (length reads) <= Z.max 0 (waitMs + 199))%Z.
Proof.
  unfold getResponse, bind, dateNow.
  destruct (poll_reads_bounded laws idx waitMs (clock H (world s))
              (pollBudget waitMs) "" s) as [reads [Htr Hb]].
  exists reads. split; [exact Htr|].
  replace (waitMs - (clock H (world s) - clock H (world s)) + 199)%Z
    with (waitMs + 199)%Z in Hb by lia.
  exact Hb.
Qed.

End AnyHost.

Lemma getResponse_reads_bounded_witness :
  exists reads,
    trace (snd (getResponse Samples.tickingHost 0 1000 Samples.startSess)) =
      (trace Samples.startSess ++ map Read reads)%list /\
    (200 * Z.of_nat (length reads) <= Z.max 0 (1000 + 199))%Z.
Proof.
  apply (getResponse_reads_bounded Samples.tickingHost tickingHost_laws 0 1000
           Samples.startSess).
Defined.

End PollingMore.

Module WatcherFacts.
Import Dom Mutate Extractor CustomUI Takeover Watcher Vocabulary.
Import TreeVocabulary WatcherVocabulary.
Import DomFacts MutateFacts CustomUISpec HidingFacts MountFacts.

Lemma rewriteFirstIn_children (p : Attrs -> bool) (f : list Node -> list Node)
      (a : Attrs) (cs : list Node) :
  rewriteFirstIn p f (Elem a cs) =
  if p a then Some (Elem a (f cs))
  else option_map (Elem a) (rewriteFirstForest p f cs).
Proof.
  cbn [rewriteFirstIn]. destruct (p a); [reflexivity|]. f_equal.
  induction cs as [|c r IH]; [reflexivity|].
  cbn [rewriteFirstForest]. destruct (rewriteFirstIn p f c); [reflexivity|].
  rewrite IH. reflexivity.
Qed.

Lemma rewriteFirstForest_none (sel : Selector) (f : list Node -> list Node)
      (l : list Node) :
  Forall (fun n => rewriteFirstIn (matches sel) f n = None -> select sel n = []) l ->
  rewriteFirstForest (matches sel) f l = None -> flat_map (select sel) l = [].
Proof.
  induction 1 as [|c r Hc _ IH]; [reflexivity|].
  cbn [rewriteFirstForest flat_map].
  destruct (rewriteFirstIn (matches sel) f c) as [c'|]; [discriminate|].
  destruct (rewriteFirstForest (matches sel) f r) as [r'|]; [discriminate|].
  intros _. rewrite (Hc eq_refl), (IH eq_refl). reflexivity.
Qed.

Lemma rewriteFirstIn_none (sel : Selector) (f : list Node -> list Node) (n : Node) :
  rewriteFirstIn (matches sel) f n = None -> select sel n = [].
Proof.
  induction n as [s|a cs IH] using Node_ind; [reflexivity|].
  rewrite rewriteFirstIn_children. cbn [select].
  destruct (matches sel a); [discriminate|].
  destruct (rewriteFirstForest (matches sel) f cs) as [cs'|] eqn:E; [discriminate|].
  intros _. apply (rewriteFirstForest_none sel f cs IH E).
Qed.

Lemma rewriteFirst_none (sel : Selector) (f : list Node -> list Node) (d : Document) :
  rewriteFirstForest (matches sel) f d = None -> docQuerySelectorAll sel d = [].
Proof.
  intros E. rewrite docQuerySelectorAll_select.
  apply (rewriteFirstForest_none sel f d); [|exact E].
  apply Forall_forall. intros n _. apply rewriteFirstIn_none.
Qed.

Lemma rewriteFirstIn_head (sel : Selector) (f : list Node -> list Node) (n : Node) :
  forall n', rewriteFirstIn (matches sel) f n = Some n' ->
             exists a cs rest, select sel n' = Elem a (f cs) :: rest.
Proof.
  induction n as [s|a cs IH] using Node_ind; intros n' E; [discriminate|].
  rewrite rewriteFirstIn_children in E. destruct (matches sel a) eqn:Hm.
  - injection E as <-. cbn [select]. rewrite Hm. cbn [Datatypes.app]. eauto.
  - destruct (rewriteFirstForest (matches sel) f cs) as [cs'|] eqn:Ecs; [|discriminate].
    injection E as <-. cbn [select]. rewrite Hm. cbn [Datatypes.app].
    revert cs' Ecs. induction IH as [|c r Hc _ IHr]; intros cs' Ecs; [discriminate|].
    cbn [rewriteFirstForest] in Ecs.
    destruct (rewriteFirstIn (matches sel) f c) as [c'|] eqn:Ec.
    + injection Ecs as <-. cbn [flat_map].
      destruct (Hc c' eq_refl) as [a0 [cs0 [rest E0]]]. rewrite E0.
      cbn [Datatypes.app]. eauto.
    + destruct (rewriteFirstForest (matches sel) f r) as [r'|] eqn:Er; [|discriminate].
      injection Ecs as <-. cbn [flat_map].
      rewrite (rewriteFirstIn_none sel f c Ec). cbn [Datatypes.app].
      apply (IHr r' eq_refl).
Qed.

Lemma rewriteFirst_head (sel : Selector) (f : list Node -> list Node) (d d' : Document) :
  rewriteFirstForest (matches sel) f d = Some d' ->
  exists a cs rest, docQuerySelectorAll sel d' = Elem a (f cs) :: rest.
Proof.
  rewrite docQuerySelectorAll_select. revert d'.
  induction d as [|c r IH]; intros d' E; [discriminate|].
  cbn [rewriteFirstForest] in E.
  destruct (rewriteFirstIn (matches sel) f c) as [c'|] eqn:Ec.
  - injection E as <-. cbn [flat_map].
    destruct (rewriteFirstIn_head sel f c c' Ec) as [a0 [cs0 [rest E0]]].
    rewrite E0. cbn [Datatypes.app]. eauto.
  - destruct (rewriteFirstForest (matches sel) f r) as [r'|] eqn:Er; [|discriminate].
    injection E as <-. cbn [flat_map].
    rewrite (rewriteFirstIn_none sel f c Ec). cbn [Datatypes.app].
    apply (IH r' eq_refl).
Qed.

(** *** Appending a child *)

Lemma append_count_forest (sel : Selector) (p : Attrs -> bool) (x : Node)
      (l : list Node) :
  Forall (fun n => forall n', rewriteFirstIn p (fun cs => (cs ++ [x])%list) n = Some n' ->
                   length (select sel n') = length (select sel n) + length (select sel x)) l ->
  forall l', rewriteFirstForest p (fun cs => (cs ++ [x])%list) l = Some l' ->
             length (flat_map (select sel) l') =
             length (flat_map (select sel) l) + length (select sel x).
Proof.
  induction 1 as [|c r Hc _ IH]; intros l' E; [discriminate|].
  cbn [rewriteFirstForest] in E.
  destruct (rewriteFirstIn p _ c) as [c'|] eqn:Ec.
  - injection E as <-. cbn [flat_map]. rewrite !length_app, (Hc c' eq_refl). lia.
  - destruct (rewriteFirstForest p _ r) as [r'|] eqn:Er; [|discriminate].
    injection E as <-. cbn [flat_map]. rewrite !length_app, (IH r' eq_refl). lia.
Qed.

Lemma append_count_node (sel : Selector) (p : Attrs -> bool) (x : Node) (n : Node) :
  forall n', rewriteFirstIn p (fun cs => (cs ++ [x])%list) n = Some n' ->
             length (select sel n') = length (select sel n) + length (select sel x).
Proof.
  induction n as [s|a cs IH] using Node_ind; intros n' E; [discriminate|].
  rewrite rewriteFirstIn_children in E. destruct (p a).
  - injection E as <-. cbn [select]. rewrite flat_map_app. cbn [flat_map].
    rewrite !length_app. destruct (matches sel a); cbn [Datatypes.length]; lia.
  - destruct (rewriteFirstForest p _ cs) as [cs'|] eqn:Ecs; [|discriminate].
    injection E as <-. cbn [select]. rewrite !length_app.
    rewrite (append_count_forest sel p x cs IH cs' Ecs).
    destruct (matches sel a); cbn [Datatypes.length]; lia.
Qed.

Lemma appendChildById_count (sel : Selector) (i : string) (x : Node) (d : Document) :
  docQuerySelectorAll [SelId i] d <> [] ->
  count sel (appendChildById i x d) = count sel d + length (select sel x).
Proof.
  intros Hsome. unfold appendChildById, count. rewrite !docQuerySelectorAll_select.
  destruct (rewriteFirstForest (matches [SelId i]) _ d) as [d'|] eqn:E.
  - apply (append_count_forest sel (matches [SelId i]) x d); [|exact E].
    apply Forall_forall. intros n _. apply append_count_node.
  - apply rewriteFirst_none in E. contradiction.
Qed.

(** *** Elements without elements below them *)

Lemma leaf_no_rewrite (p : Attrs -> bool) (f : list Node -> list Node) (cs : list Node) :
  forestElements cs = [] -> rewriteFirstForest p f cs = None.
Proof.
  unfold forestElements. induction cs as [|c r IH]; [reflexivity|].
  cbn [flat_map]. intros E. apply app_nil_both in E. destruct E as [Ec Er].
  destruct c as [s|a cs0]; [|discriminate].
  cbn [rewriteFirstForest rewriteFirstIn]. rewrite (IH Er). reflexivity.
Qed.

Lemma leaf_select (sel : Selector) (m : Node) :
  Leaf m -> flat_map (select sel) (childNodes m) = [].
Proof. unfold Leaf. intros E. rewrite <- select_forest, E. reflexivity. Qed.

Lemma append_keeps_leaves_forest (selB : Selector) (p : Attrs -> bool) (x : Node)
      (l : list Node) :
  Forall (fun n => forall n',
              rewriteFirstIn p (fun cs => (cs ++ [x])%list) n = Some n' ->
              Forall2 (fun m m' => Leaf m -> m' = m) (select selB n) (select selB n')) l ->
  forall l', rewriteFirstForest p (fun cs => (cs ++ [x])%list) l = Some l' ->
             Forall2 (fun m m' => Leaf m -> m' = m)
                     (flat_map (select selB) l) (flat_map (select selB) l').
Proof.
  induction 1 as [|c r Hc _ IH]; intros l' E; [discriminate|].
  cbn [rewriteFirstForest] in E.
  destruct (rewriteFirstIn p _ c) as [c'|] eqn:Ec.
  - injection E as <-. cbn [flat_map]. apply Forall2_app; [apply (Hc c' eq_refl)|].
    apply Forall2_same. auto.
  - destruct (rewriteFirstForest p _ r) as [r'|] eqn:Er; [|discriminate].
    injection E as <-. cbn [flat_map]. apply Forall2_app; [|apply (IH r' eq_refl)].
    apply Forall2_same. auto.
Qed.

Lemma append_keeps_leaves_node (selB : Selector) (p : Attrs -> bool) (x : Node) (n : Node) :
  (forall a, p a = true -> matches selB a = false) ->
  select selB x = [] ->
  forall n', rewriteFirstIn p (fun cs => (cs ++ [x])%list) n = Some n' ->
             Forall2 (fun m m' => Leaf m -> m' = m) (select selB n) (select selB n').
Proof.
  intros Hex Hx. induction n as [s|a cs IH] using Node_ind; intros n' E; [discriminate|].
  rewrite rewriteFirstIn_children in E. destruct (p a) eqn:Hp.
  - injection E as <-. cbn [select]. rewrite (Hex a Hp), flat_map_app. cbn [flat_map].
    rewrite Hx. cbn [Datatypes.app]. rewrite app_nil_r. apply Forall2_same. auto.
  - destruct (rewriteFirstForest p _ cs) as [cs'|] eqn:Ecs; [|discriminate].
    injection E as <-. cbn [select]. apply Forall2_app.
    + destruct (matches selB a); [|constructor].
      constructor; [|constructor]. unfold Leaf. cbn [childNodes]. intros Hleaf.
      rewrite (leaf_no_rewrite p _ cs Hleaf) in Ecs. discriminate.
    + apply (append_keeps_leaves_forest selB p x cs IH cs' Ecs).
Qed.

Lemma appendChildById_first_leaf (selB : Selector) (i : string) (x : Node) (d : Document) :
  (forall a, matches [SelId i] a = true -> matches selB a = false) ->
  select selB x = [] ->
  (forall b, docQuerySelector selB d = Some b -> Leaf b) ->
  forall b, docQuerySelector selB (appendChildById i x d) = Some b -> Leaf b.
Proof.
  intros Hex Hx Hd b. unfold appendChildById.
  destruct (rewriteFirstForest (matches [SelId i]) _ d) as [d'|] eqn:E; [|apply Hd].
  assert (HF : Forall2 (fun m m' => Leaf m -> m' = m)
                       (docQuerySelectorAll selB d) (docQuerySelectorAll selB d')).
  { rewrite !docQuerySelectorAll_select.
    apply (append_keeps_leaves_forest selB (matches [SelId i]) x d); [|exact E].
    apply Forall_forall. intros n _. apply append_keeps_leaves_node; assumption. }
  unfold docQuerySelector in *.
  destruct HF as [|m m' r r' Hmm _]; [discriminate|].
  cbn [hd_error] in *. intros Eb. injection Eb as <-.
  pose proof (Hd m eq_refl) as Hleaf. rewrite (Hmm Hleaf). exact Hleaf.
Qed.

(** *** Setting the text of a leaf *)

Lemma setText_count_forest (sel selB : Selector) (s : string) (l : list Node) :
  Forall (fun n => forall n',
              rewriteFirstIn (matches selB) (fun _ => textNodes s) n = Some n' ->
              (forall m, hd_error (select selB n) = Some m -> Leaf m) ->
              length (select sel n') = length (select sel n)) l ->
  forall l', rewriteFirstForest (matches selB) (fun _ => textNodes s) l = Some l' ->
             (forall m, hd_error (flat_map (select selB) l) = Some m -> Leaf m) ->
             length (flat_map (select sel) l') = length (flat_map (select sel) l).
Proof.
  induction 1 as [|c r Hc _ IH]; intros l' E Hl; [discriminate|].
  cbn [rewriteFirstForest] in E. cbn [flat_map] in Hl.
  destruct (rewriteFirstIn (matches selB) _ c) as [c'|] eqn:Ec.
  - injection E as <-. cbn [flat_map]. rewrite !length_app. f_equal.
    apply (Hc c' eq_refl). intros m Hm. apply Hl.
    destruct (select selB c); [discriminate|exact Hm].
  - destruct (rewriteFirstForest (matches selB) _ r) as [r'|] eqn:Er; [|discriminate].
    injection E as <-. cbn [flat_map]. rewrite !length_app. f_equal.
    apply (IH r' eq_refl). rewrite (rewriteFirstIn_none selB _ c Ec) in Hl. exact Hl.
Qed.

Lemma setText_count_node (sel selB : Selector) (s : string) (n : Node) :
  forall n',
    rewriteFirstIn (matches selB) (fun _ => textNodes s) n = Some n' ->
    (forall m, hd_error (select selB n) = Some m -> Leaf m) ->
    length (select sel n') = length (select sel n).
Proof.
  induction n as [t|a cs IH] using Node_ind; intros n' E Hn; [discriminate|].
  rewrite rewriteFirstIn_children in E. cbn [select] in Hn.
  destruct (matches selB a) eqn:Hm.
  - injection E as <-. cbn [select]. rewrite select_textNodes.
    pose proof (leaf_select sel _ (Hn (Elem a cs) eq_refl)) as Hcs.
    cbn [childNodes] in Hcs. rewrite Hcs. destruct (matches sel a); reflexivity.
  - destruct (rewriteFirstForest (matches selB) _ cs) as [cs'|] eqn:Ecs; [|discriminate].
    injection E as <-. cbn [select]. rewrite !length_app.
    rewrite (setText_count_forest sel selB s cs IH cs' Ecs Hn).
    destruct (matches sel a); reflexivity.
Qed.

Lemma setTextById_count (sel : Selector) (i s : string) (d : Document) :
  (forall b, getElementById i d = Some b -> Leaf b) ->
  count sel (setTextById i s d) = count sel d.
Proof.
  intros Hleaf. unfold setTextById, count. rewrite !docQuerySelectorAll_select.
  destruct (rewriteFirstForest (matches [SelId i]) _ d) as [d'|] eqn:E; [|reflexivity].
  apply (setText_count_forest sel [SelId i] s d); [|exact E|].
  - apply Forall_forall. intros n _. apply setText_count_node.
  - intros m Hm. apply Hleaf. unfold getElementById, docQuerySelector.
    rewrite docQuerySelectorAll_select. exact Hm.
Qed.

Lemma setTextById_text (i s : string) (d : Document) (b : Node) :
  getElementById i (setTextById i s d) = Some b -> textContent b = s.
Proof.
  unfold setTextById, getElementById, docQuerySelector.
  destruct (rewriteFirstForest (matches [SelId i]) _ d) as [d'|] eqn:E.
  - destruct (rewriteFirst_head _ _ d d' E) as [a [cs [rest ->]]].
    cbn [hd_error]. intros Eb. injection Eb as <-. cbn [textContent].
    apply textContent_textNodes.
  - rewrite (rewriteFirst_none _ _ d E). discriminate.
Qed.

Lemma container_is_no_badge (a : Attrs) :
  matches [SelId containerId] a = true -> matches [SelId badgeId] a = false.
Proof.
  unfold matches. cbn [existsb matchesSimple]. rewrite !orb_false_r.
  intros E. apply String.eqb_eq in E. rewrite <- E. reflexivity.
Qed.

End WatcherFacts.

Module WatcherMore.
Import Dom Mutate Extractor CustomUI Takeover Watcher Vocabulary.
Import TreeVocabulary WatcherVocabulary.
Import DomFacts MutateFacts CustomUISpec TakeoverSpec HidingFacts MountFacts WatcherFacts.

Section AnyExtractor.
Variable extractPanelContent : Node -> list Message * string.

Lemma addPanelToUI_indexed (nativePanel : Node) (st : State) :
  Indexed (fst st) -> Indexed (fst (snd (addPanelToUI extractPanelContent nativePanel st))).
Proof.
  unfold addPanelToUI. destruct st as [g p]. cbn [fst].
  intros Hi. pose proof Hi as (ui & Hu & Hc & Hd). rewrite Hu.
  destruct (getElementById containerId (doc p)); [|exact Hi].
  cbn [snd fst]. eexists. split; [reflexivity|]. cbn [uiPanels].
  rewrite length_app. cbn [Datatypes.length panelCount]. split; [lia|].
  rewrite !map_app, Hd, Nat.add_1_r, seq_S, map_app. cbn [map Nat.add].
  rewrite Hc. reflexivity.
Qed.

Lemma addPanels_indexed (nativePanels : list Node) (st : State) :
  Indexed (fst st) -> Indexed (fst (addPanels extractPanelContent nativePanels st)).
Proof.
  unfold addPanels. revert st.
  induction nativePanels as [|np r IH]; intros st Hi; [exact Hi|].
  cbn [fold_left]. apply IH, addPanelToUI_indexed, Hi.
Qed.

(** The numbering of panels survives dynamic additions.  After [mount]
    of a tree built by [createUI], and after any number of calls of
    [addPanelToUI], the module's counter equals the number of panels it
    remembers and panel [k] carries [data-index] [k]: an added panel
    continues the numbering of the mounted ones. *)
Theorem mount_then_addPanels_indexed (e : Extraction) (st st1 : State) (u : UI)
        (nativePanels : list Node) :
  mount (buildUI e) st = (Returned u, st1) ->
  Indexed (fst (addPanels extractPanelContent nativePanels st1)).
Proof.
  intros Em. apply addPanels_indexed.
  unfold mount in Em. destruct st as [g p].
  destruct (stopObserver _) as [g1 p1].
  destruct (appendToBody _ _); [|discriminate].
  injection Em as _ <-. cbn [fst]. exists (buildUI e).
  split; [reflexivity|]. split; [reflexivity|].
  unfold buildUI. cbn [uiPanels]. unfold Js.mapi.
  rewrite JsFacts.mapiFrom_length. apply CustomUIMore.views_data_index.
Qed.

(** When [addPanelToUI] returns true, the counter has gone up by one and
    the badge, if the document has an element of that id, shows the new
    count. *)
Theorem addPanelToUI_updates_badge (nativePanel : Node) (st st' : State) :
  addPanelToUI extractPanelContent nativePanel st = (true, st') ->
  panelCount (fst st') = S (panelCount (fst st)) /\
  forall b, getElementById badgeId (doc (snd st')) = Some b ->
            textContent b = Js.showNat (panelCount (fst st')).
Proof.
  unfold addPanelToUI. destruct st as [g p].
  destruct (customUIRef g) as [ui|]; [|discriminate].
  destruct (getElementById containerId (doc p)); [|discriminate].
  intros E. injection E as <-. cbn [fst snd panelCount doc withDoc].
  split; [reflexivity|]. intros b. apply setTextById_text.
Qed.

(** When [addPanelToUI] returns true in a document whose badge, if
    any, has no element below it, the document has gained exactly one
    sub-panel and one compose surface, and no replacement root; the
    watchers are as before. *)
Theorem addPanelToUI_adds_one_panel (nativePanel : Node) (st st' : State) :
  addPanelToUI extractPanelContent nativePanel st = (true, st') ->
  (forall b, getElementById badgeId (doc (snd st)) = Some b -> Leaf b) ->
  count selCascadePanel (doc (snd st')) = S (count selCascadePanel (doc (snd st))) /\
  count selCascadeInput (doc (snd st')) = S (count selCascadeInput (doc (snd st))) /\
  count selHubRoot (doc (snd st')) = count selHubRoot (doc (snd st)) /\
  observers (snd st') = observers (snd st).
Proof.
  unfold addPanelToUI. destruct st as [g p].
  destruct (customUIRef g) as [ui|]; [|discriminate].
  destruct (getElementById containerId (doc p)) as [c|] eqn:Ec; [|discriminate].
  intros E. injection E as <-. cbn [fst snd doc withDoc observers]. intros Hleaf.
  set (panel := createPanel (fst (extractPanelContent nativePanel))
                            (snd (extractPanelContent nativePanel)) (panelCount g) []).
  assert (Hc : docQuerySelectorAll [SelId containerId] (doc p) <> []).
  { unfold getElementById, docQuerySelector in Ec.
    destruct (docQuerySelectorAll [SelId containerId] (doc p)); [discriminate|].
    discriminate. }
  assert (Hleaf1 : forall b,
             getElementById badgeId (appendChildById containerId (view panel) (doc p)) = Some b ->
             Leaf b).
  { apply (appendChildById_first_leaf [SelId badgeId] containerId (view panel) (doc p)).
    - apply container_is_no_badge.
    - apply CustomUIMore.badge_createPanel.
    - exact Hleaf. }
  rewrite !(setTextById_count _ badgeId _ _ Hleaf1).
  rewrite !(appendChildById_count _ containerId _ _ Hc).
  unfold panel. rewrite CustomUIMore.panels_createPanel, CustomUIMore.inputs_createPanel,
    hub_createPanel.
  cbn [Datatypes.length]. repeat split; lia.
Qed.

End AnyExtractor.

Lemma mount_then_addPanels_indexed_witness :
  Indexed (fst (addPanels (fun _ => ([], "")) [Samples.barePanel; Samples.silentPanel]
                 (snd (mount (buildUI (extract 0 Samples.workbench))
                             (freshGlobals, Samples.startPage))))).
Proof.
  apply (mount_then_addPanels_indexed (fun _ => ([], "")) (extract 0 Samples.workbench)
           (freshGlobals, Samples.startPage) _
           (buildUI (extract 0 Samples.workbench))).
  vm_compute. reflexivity.
Defined.

Lemma addPanelToUI_updates_badge_witness :
  let st := snd (mount (buildUI (extract 0 Samples.workbench))
                       (freshGlobals, Samples.startPage)) in
  let st' := snd (addPanelToUI (fun _ => ([], "")) Samples.silentPanel st) in
  panelCount (fst st') = S (panelCount (fst st)) /\
  forall b, getElementById badgeId (doc (snd st')) = Some b ->
            textContent b = Js.showNat (panelCount (fst st')).
Proof.
  cbv zeta.
  apply (addPanelToUI_updates_badge (fun _ => ([], "")) Samples.silentPanel).
  vm_compute. reflexivity.
Defined.

Lemma addPanelToUI_adds_one_panel_witness :
  let st := snd (mount (buildUI (extract 0 Samples.workbench))
                       (freshGlobals, Samples.startPage)) in
  let st' := snd (addPanelToUI (fun _ => ([], "")) Samples.silentPanel st) in
  count selCascadePanel (doc (snd st')) = S (count selCascadePanel (doc (snd st))) /\
  count selCascadeInput (doc (snd st')) = S (count selCascadeInput (doc (snd st))) /\
  count selHubRoot (doc (snd st')) = count selHubRoot (doc (snd st)) /\
  observers (snd st') = observers (snd st).
Proof.
  cbv zeta.
  apply (addPanelToUI_adds_one_panel (fun _ => ([], "")) Samples.silentPanel).
  - vm_compute. reflexivity.
  - intros b. vm_compute. intros E. injection E as <-. reflexivity.
Defined.

End WatcherMore.

Module SendMore.
Import Dom Locator Session Vocabulary JsFacts.

Section AnyHost.
Context {W : Type} (H : Host W).

(** [send] to a target that is not there fails cleanly.  When the index
    names no panel the record is [{ sent: false, error: 'Panel not
    found' }]; when the panel has no compose surface the error is 'Input
    not found'.  In both cases nothing was injected and nothing was
    waited for: the session is as it was after the one look at the
    page. *)
Theorem send_reports_missing_target (idx : Z) (message : string)
        (options : SendOptions) (s : Sess) :
  let w := roundTrip H (world s) in
  let panels := docQuerySelectorAll selChatRoot (documentOf H w) in
  ((idx < 0 \/ Z.of_nat (length panels) <= idx)%Z ->
   send H idx message options s = (SendError "Panel not found", mkSess w (trace s))) /\
  (forall panel,
      Js.at_ panels idx = Some panel ->
      querySelector selEditable panel = None ->
      send H idx message options s = (SendError "Input not found", mkSess w (trace s))).
Proof.
  cbv zeta. split.
  - intros Hr. unfold send, bind, focusInput.
    rewrite (at_out_of_range _ idx Hr). reflexivity.
  - intros panel Hp Hi. unfold send, bind, focusInput. rewrite Hp, Hi. reflexivity.
Qed.

End AnyHost.

End SendMore.

Module LifecycleMore.
Import Dom Mutate Extractor CustomUI Takeover Watcher Vocabulary.

(** Within one evaluation of custom-ui.js watchers never accumulate.
    If the watchers connected to the page are exactly the one the module
    holds (none when it holds none), this is still so after [mount],
    after a [destroyOriginalUI] that returned, after [stopObserver],
    after [restoreOriginalUI] and after [addPanelToUI]; so at most one
    watcher is ever connected. *)
Theorem watcher_tracked (st : State) :
  Tracked st ->
  length (observers (snd st)) <= 1 /\
  (forall ui o st', mount ui st = (o, st') -> Tracked st') /\
  (forall h st', destroyOriginalUI st = (Returned h, st') -> Tracked st') /\
  Tracked (stopObserver st) /\
  Tracked (restoreOriginalUI st) /\
  (forall x nativePanel, Tracked (snd (addPanelToUI x nativePanel st))).
Proof.
  unfold Tracked. destruct st as [g p]. cbn [fst snd]. intros Ht.
  assert (Hstop : forall q, observers q = observers p ->
            observers (snd (stopObserver (g, q))) =
            match panelObserver (fst (stopObserver (g, q))) with
            | Some o => [o]
            | None => []
            end).
  { intros q Hq. unfold stopObserver. destruct (panelObserver g) as [o|] eqn:Eo.
    - cbn. rewrite Hq, Ht. cbn. rewrite Nat.eqb_refl. reflexivity.
    - cbn. rewrite Eo, Hq. exact Ht. }
  split; [|split; [|split; [|split; [|split]]]].
  - rewrite Ht. destruct (panelObserver g); cbn; lia.
  - intros ui o st'. unfold mount.
    pose proof (Hstop (withDoc (removeAll selHubRoot (doc p)) p) eq_refl) as Hs.
    destruct (stopObserver (g, withDoc (removeAll selHubRoot (doc p)) p)) as [g1 p1].
    cbn [fst snd] in Hs.
    destruct (appendToBody (root ui) (doc p1)); intros E; injection E as _ <-;
      cbn [fst snd observers setCustomUIRef panelObserver]; exact Hs.
  - intros h st'. unfold destroyOriginalUI.
    destruct (hideOriginal (doc p)) as [hidden d'].
    destruct (panelObserver g) as [o|] eqn:Eo.
    + intros E. injection E as _ <-. cbn [fst snd observers withDoc]. rewrite Eo. exact Ht.
    + destruct (hasBody d'); [|discriminate].
      intros E. injection E as _ <-. cbn [fst snd observers panelObserver].
      rewrite Ht. reflexivity.
  - apply (Hstop p eq_refl).
  - unfold restoreOriginalUI. pose proof (Hstop p eq_refl) as Hs.
    destruct (stopObserver (g, p)) as [g1 p1]. cbn [fst snd] in *. exact Hs.
  - intros x nativePanel. unfold addPanelToUI.
    destruct (customUIRef g); [|exact Ht].
    destruct (getElementById containerId (doc p)); [|exact Ht].
    cbn [fst snd observers withDoc panelObserver]. exact Ht.
Qed.

Lemma watcher_tracked_witness :
  let st := snd (destroyOriginalUI (freshGlobals, Samples.startPage)) in
  length (observers (snd st)) <= 1 /\
  (forall ui o st', mount ui st = (o, st') -> Tracked st') /\
  (forall h st', destroyOriginalUI st = (Returned h, st') -> Tracked st') /\
  Tracked (stopObserver st) /\
  Tracked (restoreOriginalUI st) /\
  (forall x nativePanel, Tracked (snd (addPanelToUI x nativePanel st))).
Proof.
  cbv zeta.
  apply (watcher_tracked (snd (destroyOriginalUI (freshGlobals, Samples.startPage)))).
  vm_compute. reflexivity.
Defined.

End LifecycleMore.

Module CountMore.
Import Dom Mutate CustomUI Takeover Vocabulary TakeoverVocabulary CountVocabulary.
Import DomFacts MutateFacts HidingFacts TakeoverMore.

Lemma filter_map_split {A} (f g h : A -> bool) (u : A -> A) (l : list A) :
  (forall x, Nat.b2n (f (u x)) = Nat.b2n (g x) + Nat.b2n (h x)) ->
  length (filter f (map u l)) = length (filter g l) + length (filter h l).
Proof.
  intros Hp. induction l as [|x r IH]; [reflexivity|].
  cbn [map filter]. specialize (Hp x).
  destruct (f (u x)), (g x), (h x); cbn [Nat.b2n Datatypes.length] in *; lia.
Qed.

Lemma displayNone_hides (a : Attrs) (cs : list Node) :
  displayNone (Elem a cs) = negb (hides (Elem a cs)).
Proof.
  unfold displayNone, hides, isHidden. cbn [nodeDisplay]. rewrite negb_involutive.
  reflexivity.
Qed.

Lemma displayNone_hide (a : Attrs) (cs : list Node) : displayNone (Elem (hide a) cs) = true.
Proof. unfold displayNone. cbn [nodeDisplay]. rewrite display_hide. reflexivity. Qed.

Lemma hiddenCount_updateAll (p : Node -> bool) (d : Document) :
  hiddenCount (updateAll p hide d) = hiddenCount d + countHides p d.
Proof.
  unfold hiddenCount, countHides. rewrite forestElements_updateAll.
  apply filter_map_split. intros n. destruct n as [s|a cs]; [|cbn [updateWhere]].
  - cbn. rewrite andb_false_r. reflexivity.
  - destruct (p (Elem a cs)) eqn:Ep; cbn [andb].
    + rewrite displayNone_hide, displayNone_hides.
      destruct (hides (Elem a cs)); reflexivity.
    + unfold displayNone. cbn [nodeDisplay]. cbn [Nat.b2n]. lia.
Qed.

Lemma updateFirstIn_some (sel : Selector) (g : Attrs -> Attrs) (n n' : Node) :
  updateFirstIn (matches sel) g n = Some n' -> select sel n <> [].
Proof.
  revert n'. induction n as [s|a cs IH] using Node_ind; intros n' E; [discriminate|].
  rewrite updateFirstIn_children in E. cbn [select].
  destruct (matches sel a); [discriminate|]. cbn [Datatypes.app].
  destruct (updateFirstForest (matches sel) g cs) as [cs'|] eqn:Ecs; [|discriminate].
  clear E. revert cs' Ecs. induction IH as [|c r Hc _ IHr]; intros cs' Ecs; [discriminate|].
  cbn [updateFirstForest] in Ecs. cbn [flat_map].
  destruct (updateFirstIn (matches sel) g c) as [c'|] eqn:Ec.
  - pose proof (Hc c' eq_refl) as Hne. destruct (select sel c); [contradiction|discriminate].
  - destruct (updateFirstForest (matches sel) g r) as [r'|] eqn:Er; [|discriminate].
    rewrite (updateFirstIn_none sel g c Ec). cbn [Datatypes.app]. apply (IHr r' eq_refl).
Qed.

Lemma firstHides_app (sel : Selector) (c : Node) (r : list Node) :
  select sel c <> [] -> firstHides sel (c :: r) = firstHides sel [c].
Proof.
  unfold firstHides. cbn [flat_map]. rewrite app_nil_r.
  destruct (select sel c); [contradiction|reflexivity].
Qed.

Lemma firstHides_skip (sel : Selector) (c : Node) (r : list Node) :
  select sel c = [] -> firstHides sel (c :: r) = firstHides sel r.
Proof. unfold firstHides. cbn [flat_map]. intros ->. reflexivity. Qed.

Lemma hidden_updateFirstIn (sel : Selector) (n : Node) :
  forall n', updateFirstIn (matches sel) hide n = Some n' ->
             length (filter displayNone (Dom.elements n')) =
             length (filter displayNone (Dom.elements n)) + firstHides sel [n].
Proof.
  induction n as [s|a cs IH] using Node_ind; intros n' E; [discriminate|].
  rewrite updateFirstIn_children in E. unfold firstHides. cbn [flat_map select].
  rewrite app_nil_r. destruct (matches sel a) eqn:Hm.
  - injection E as <-. cbn [Dom.elements filter Datatypes.app hd_error].
    rewrite displayNone_hide, displayNone_hides.
    destruct (hides (Elem a cs)); cbn [negb Datatypes.length]; lia.
  - destruct (updateFirstForest (matches sel) hide cs) as [cs'|] eqn:Ecs; [|discriminate].
    injection E as <-. cbn [Dom.elements filter Datatypes.app].
    assert (Hhead : displayNone (Elem a cs') = displayNone (Elem a cs)) by reflexivity.
    rewrite Hhead.
    assert (Htail : length (filter displayNone (flat_map Dom.elements cs')) =
                    length (filter displayNone (flat_map Dom.elements cs)) +
                    firstHides sel cs).
    { clear Hhead. revert cs' Ecs.
      induction IH as [|c r Hc _ IHr]; intros cs' Ecs; [discriminate|].
      cbn [updateFirstForest] in Ecs.
      destruct (updateFirstIn (matches sel) hide c) as [c'|] eqn:Ec.
      - injection Ecs as <-. cbn [flat_map]. rewrite !filter_app, !length_app.
        rewrite (Hc c' eq_refl).
        rewrite (firstHides_app sel c r (updateFirstIn_some sel hide c c' Ec)). lia.
      - destruct (updateFirstForest (matches sel) hide r) as [r'|] eqn:Er; [|discriminate].
        injection Ecs as <-. cbn [flat_map]. rewrite !filter_app, !length_app.
        rewrite (IHr r' eq_refl).
        rewrite (firstHides_skip sel c r (updateFirstIn_none sel hide c Ec)). lia. }
    unfold firstHides in Htail.
    destruct (displayNone (Elem a cs)); cbn [Datatypes.length]; rewrite Htail; lia.
Qed.

Lemma hiddenCount_updateFirst (sel : Selector) (d : Document) :
  hiddenCount (updateFirst sel hide d) = hiddenCount d + firstHides sel d.
Proof.
  unfold hiddenCount, updateFirst, forestElements.
  destruct (updateFirstForest (matches sel) hide d) as [d'|] eqn:E.
  - revert d' E. induction d as [|c r IH]; intros d' E; [discriminate|].
    cbn [updateFirstForest] in E.
    destruct (updateFirstIn (matches sel) hide c) as [c'|] eqn:Ec.
    + injection E as <-. cbn [flat_map]. rewrite !filter_app, !length_app.
      rewrite (hidden_updateFirstIn sel c c' Ec).
      rewrite (firstHides_app sel c r (updateFirstIn_some sel hide c c' Ec)). lia.
    + destruct (updateFirstForest (matches sel) hide r) as [r'|] eqn:Er; [|discriminate].
      injection E as <-. cbn [flat_map]. rewrite !filter_app, !length_app.
      rewrite (IH r' eq_refl).
      rewrite (firstHides_skip sel c r (updateFirstIn_none sel hide c Ec)). lia.
  - apply updateFirst_none in E. rewrite docQuerySelectorAll_select in E.
    unfold firstHides. rewrite E. cbn [hd_error]. lia.
Qed.

Lemma auxBarHides_first (d : Document) : auxBarHides d = firstHides [SelId auxBarId] d.
Proof.
  unfold auxBarHides, firstHides, getElementById, docQuerySelector.
  rewrite docQuerySelectorAll_select. reflexivity.
Qed.

(** The number [destroyOriginalUI] reports is exactly the number of
    elements it hid: when it returns [{ hidden: h }], the document has
    [h] more elements with [display: none] than it had. *)
Theorem destroyOriginalUI_reports_hidden (st st' : State) (h : nat) :
  destroyOriginalUI st = (Returned h, st') ->
  hiddenCount (doc (snd st')) = hiddenCount (doc (snd st)) + h.
Proof.
  intros E. rewrite (destroyOriginalUI_doc st st' _ E).
  assert (Hh : h = fst (hideOriginal (doc (snd st)))).
  { unfold destroyOriginalUI in E. destruct st as [g p]. cbn [snd].
    destruct (hideOriginal (doc p)) as [hidden d']. cbn [fst].
    destruct (panelObserver g).
    - injection E as <- _. reflexivity.
    - destruct (hasBody d'); [|discriminate]. injection E as <- _. reflexivity. }
  rewrite Hh. unfold hideOriginal. cbn [fst snd].
  rewrite hiddenCount_updateAll, hiddenCount_updateFirst, hiddenCount_updateAll.
  rewrite auxBarHides_first. lia.
Qed.

Lemma destroyOriginalUI_reports_hidden_witness :
  hiddenCount (doc (snd (snd (destroyOriginalUI (freshGlobals, Samples.startPage))))) =
  hiddenCount (doc Samples.startPage) + 4.
Proof.
  apply (destroyOriginalUI_reports_hidden (freshGlobals, Samples.startPage)).
  vm_compute. reflexivity.
Defined.

End CountMore.
